(** * VisiTrack-AI: the scraper orchestration core, embedded and verified

    A shallow embedding of [backend/app/scrapers/base_scraper.py], the three
    platform scrapers and [backend/worker.py], and of what they rest on or
    are driven by: [Database.get_pending_prompts], the port list and the
    proxy address of [ProxyManager], and the scraper cache of the [/scrape]
    endpoint of [backend/app/main.py].

    Conventions of the embedding:
    - a Python [str] is a [list ascii]: the strings over the code points
      below 256, a character being its code point; on them the character
      classes of [re] and [str] ([\w], [\s], [\b], [strip], [split],
      [lower]) are Python's;
    - time is a [Z] count of milliseconds; [time.sleep w] advances the clock
      by exactly [w];
    - everything the code asks of the browser, the network, the file system
      or the store is answered by an explicit oracle (records [World],
      [Store]);
    - an exception is a value of [exn], a subclass of Python's [Exception];
      asynchronous signals (KeyboardInterrupt, task cancellation) are an
      external stop and not part of the modelled control flow. *)

From Stdlib Require Import ZArith Lia Ascii String List Bool.
From stdpp Require Import base option list gmap sets strings.
From Equations Require Import Equations.

Local Open Scope Z_scope.

(* ===================================================================== *)
(** * Part I: the program                                                 *)
(* ===================================================================== *)

(** ** Python strings *)

Module Py.

Abbreviation str := (list ascii).

(** A literal, as written in the source; the literals of the sources
    embedded are ASCII. *)
Definition lit (s : string) : str := list_ascii_of_string s.

Definition code (c : ascii) : nat := nat_of_ascii c.

Definition between (lo hi : nat) (c : ascii) : bool :=
  Nat.leb lo (code c) && Nat.leb (code c) hi.

(** [[A-Z]], [[a-z]] and [[0-9]], as a pattern writes them. *)
Definition is_upper : ascii -> bool := between 65 90.
Definition is_lower : ascii -> bool := between 97 122.
Definition is_digit : ascii -> bool := between 48 57.

(** [\w] and the sides of [\b] on a [str]: the underscore and the
    alphanumeric characters, which below 256 are the ASCII letters and
    digits, the ordinal indicators, the micro sign, the superscript digits,
    the vulgar fractions and the accented letters (all of 192-255 but the
    multiplication and the division sign). *)
Definition is_word (c : ascii) : bool :=
  is_upper c || is_lower c || is_digit c || Nat.eqb (code c) 95 ||
  Nat.eqb (code c) 170 || between 178 179 c || Nat.eqb (code c) 181 ||
  between 185 186 c || between 188 190 c ||
  between 192 214 c || between 216 246 c || between 248 255 c.

(** [\s] and [str.isspace], hence [strip] and [split]: TAB LF VT FF CR,
    FS GS RS US, SPACE, NEXT LINE (133) and NO-BREAK SPACE (160). *)
Definition is_space (c : ascii) : bool :=
  between 9 13 c || between 28 32 c ||
  Nat.eqb (code c) 133 || Nat.eqb (code c) 160.

Definition space : ascii := " "%char.

(** The characters [str.lower] changes: A-Z and the accented capitals
    192-222 (but the multiplication sign), each to the character 32 above. *)
Definition has_lower_case (c : ascii) : bool :=
  is_upper c || between 192 214 c || between 216 222 c.

Definition lower_char (c : ascii) : ascii :=
  if has_lower_case c then ascii_of_nat (code c + 32) else c.

#[global] Arguments is_word : simpl never.
#[global] Arguments is_space : simpl never.
#[global] Arguments lower_char : simpl never.

(** [s.lower()] *)
Definition lower (s : str) : str := map lower_char s.

(** [s.startswith(p)] *)
Fixpoint startswith (s p : str) {struct p} : bool :=
  match p, s with
  | [], _ => true
  | a :: p', b :: s' => Ascii.eqb a b && startswith s' p'
  | _ :: _, [] => false
  end.

(** [needle in hay] *)
Fixpoint contains (hay needle : str) : bool :=
  startswith hay needle ||
  match hay with
  | [] => false
  | _ :: hay' => contains hay' needle
  end.

(** [s.endswith(p)] *)
Definition endswith (s p : str) : bool := startswith (rev s) (rev p).

(** [s.replace(' ', '')] *)
Definition remove_spaces (s : str) : str :=
  List.filter (fun c => negb (Ascii.eqb c space)) s.

(** [s.lstrip()], [s.strip()] *)
Fixpoint lstrip (s : str) : str :=
  match s with
  | c :: s' => if is_space c then lstrip s' else s
  | [] => []
  end.

Definition strip (s : str) : str := rev (lstrip (rev (lstrip s))).

(** [s.split()]: the maximal runs of non-space characters; [cur] is the run
    being read, reversed. *)
Fixpoint split_from (cur s : str) : list str :=
  match s with
  | [] => match cur with [] => [] | _ => [rev cur] end
  | c :: s' =>
      if is_space c
      then match cur with
           | [] => split_from [] s'
           | _ => rev cur :: split_from [] s'
           end
      else split_from (c :: cur) s'
  end.

Definition split (s : str) : list str := split_from [] s.

(** [sep.join(parts)] *)
Fixpoint join (sep : str) (parts : list str) : str :=
  match parts with
  | [] => []
  | [p] => p
  | p :: rest => p ++ sep ++ join sep rest
  end.

(** [s[:-n]] for [n > 0] *)
Definition drop_last (n : nat) (s : str) : str :=
  firstn (length s - n) s.

(** Truth value of a string: [not s] is [negb (truthy s)]. *)
Definition truthy (s : str) : bool :=
  match s with [] => false | _ => true end.

End Py.

(** ** The fragment of [re] the matcher uses

    Every pattern the code builds is a sequence of literal characters
    ([re.escape]), word boundaries ([\b]) and runs of white space ([\s*]). *)

Module Re.
Import Py.

Inductive atom : Type :=
| Chr (c : ascii)   (* an escaped literal character *)
| Bound             (* \b *)
| Spaces.           (* \s* *)

Abbreviation pattern := (list atom).

(** [re.escape(s)] *)
Definition escape (s : str) : pattern := map Chr s.

Definition word_before (prev : option ascii) : bool :=
  match prev with Some c => is_word c | None => false end.

Definition word_after (s : str) : bool :=
  match s with c :: _ => is_word c | [] => false end.

(** [\b] holds between [prev] and the head of [s] when exactly one of the
    two is a word character. *)
Definition at_boundary (prev : option ascii) (s : str) : bool :=
  xorb (word_before prev) (word_after s).

(** A backtracking matcher anchored at the current position; [prev] is the
    character just before it. *)
Fixpoint match_here (p : pattern) (prev : option ascii) (s : str) : bool :=
  match p with
  | [] => true
  | Chr c :: p' =>
      match s with
      | d :: s' => Ascii.eqb c d && match_here p' (Some d) s'
      | [] => false
      end
  | Bound :: p' => at_boundary prev s && match_here p' prev s
  | Spaces :: p' =>
      (fix spaces (prev : option ascii) (s : str) : bool :=
         match_here p' prev s ||
         match s with
         | d :: s' => is_space d && spaces (Some d) s'
         | [] => false
         end) prev s
  end.

Fixpoint search_from (p : pattern) (prev : option ascii) (s : str) : bool :=
  match_here p prev s ||
  match s with
  | d :: s' => search_from p (Some d) s'
  | [] => false
  end.

(** [re.search(p, s)] as a truth value. *)
Definition search (p : pattern) (s : str) : bool := search_from p None s.

(** [re.sub(r'[^\w\s]', ' ', s)] *)
Definition sub_punct (s : str) : str :=
  map (fun c => if is_word c || is_space c then c else space) s.

(** [re.sub(r'\s+', ' ', s)]; [in_run] tells that the previous character
    was white space, already replaced. *)
Fixpoint sub_spaces_from (in_run : bool) (s : str) : str :=
  match s with
  | [] => []
  | c :: s' =>
      if is_space c
      then if in_run then sub_spaces_from true s'
           else space :: sub_spaces_from true s'
      else c :: sub_spaces_from false s'
  end.

Definition sub_spaces (s : str) : str := sub_spaces_from false s.

(** [re.sub(r'([a-z])([A-Z])', r'\1 \2', s)] *)
Fixpoint sub_camel (s : str) : str :=
  match s with
  | a :: s' =>
      match s' with
      | b :: _ =>
          if is_lower a && is_upper b
          then a :: space :: sub_camel s'
          else a :: sub_camel s'
      | [] => [a]
      end
  | [] => []
  end.


End Re.

(** ** BrandMatcher: [BaseScraper.extract_brands] and its helpers *)

Module Brand.
Import Py Re.

(** The alias table of [_get_brand_variations]. *)
Definition aliases : list (str * list str) :=
  [ (lit "salesforce", [lit "sfdc"; lit "sales force"; lit "salesforce.com"]);
    (lit "hubspot", [lit "hub spot"; lit "hubspot crm"]);
    (lit "zoho crm", [lit "zoho"; lit "zohocrm"]);
    (lit "pipedrive", [lit "pipe drive"]);
    (lit "freshsales", [lit "fresh sales"; lit "freshworks crm"]);
    (lit "monday crm", [lit "monday.com crm"]);
    (lit "monday.com", [lit "monday"; lit "mondaycom"]);
    (lit "sugarcrm", [lit "sugar crm"; lit "sugar"]);
    (lit "jira", [lit "jira software"; lit "atlassian jira"]);
    (lit "asana", [lit "asana.com"]);
    (lit "trello", [lit "trello.com"]);
    (lit "clickup", [lit "click up"; lit "clickup.com"]);
    (lit "notion", [lit "notion.so"]);
    (lit "linear", [lit "linear.app"]);
    (lit "basecamp", [lit "base camp"]);
    (lit "smartsheet", [lit "smart sheet"]);
    (lit "wrike", [lit "wrike.com"]);
    (lit "copper", [lit "copper crm"]);
    (lit "close", [lit "close crm"; lit "close.com"]);
    (lit "insightly", [lit "insightly crm"]) ].

Definition suffixes : list str :=
  [lit " crm"; lit " software"; lit ".com"; lit ".io"; lit " app"].

(** [aliases[key]] when [key in aliases]. *)
Fixpoint dict_get (d : list (str * list str)) (key : str) : option (list str) :=
  match d with
  | [] => None
  | (k, v) :: d' => if decide (k = key) then Some v else dict_get d' key
  end.

Definition _get_brand_variations (brand : str) : list str :=
  let brand_lower := lower brand in
  let variations :=
    match dict_get aliases brand_lower with
    | Some vs => vs
    | None => []
    end in
  variations ++
  flat_map (fun suffix =>
              if endswith brand_lower suffix
              then [drop_last (length suffix) brand_lower]
              else [])
           suffixes.

(** [r'\b' + re.escape(s) + r'\b'] *)
Definition word_pattern (s : str) : pattern :=
  Bound :: escape s ++ [Bound].

(** [r'\b' + r'\s*'.join(re.escape(part) for part in parts) + r'\b'] *)
Fixpoint join_spaces (parts : list str) : pattern :=
  match parts with
  | [] => []
  | [p] => escape p
  | p :: rest => escape p ++ Spaces :: join_spaces rest
  end.

Definition flexible_pattern (parts : list str) : pattern :=
  Bound :: join_spaces parts ++ [Bound].

Definition _is_brand_mentioned (text_lower text_normalized brand : str) : bool :=
  let brand_lower := lower brand in
  (* Strategy 1: exact word boundary match *)
  if search (word_pattern brand_lower) text_lower then true else
  (* Strategy 2: match without spaces *)
  let brand_no_space := remove_spaces brand_lower in
  if Nat.ltb 3 (length brand_no_space) &&
     search (word_pattern brand_no_space) (remove_spaces text_normalized)
  then true else
  (* Strategy 3: match with flexible spacing *)
  let brand_parts := split brand_lower in
  if Nat.ltb 1 (length brand_parts) &&
     search (flexible_pattern brand_parts) text_lower
  then true else
  (* Strategy 4: CamelCase brands *)
  let camel_split := lower (sub_camel brand) in
  if negb (bool_decide (camel_split = brand_lower)) &&
     (search (word_pattern camel_split) text_lower ||
      search (word_pattern (remove_spaces camel_split)) text_normalized)
  then true else
  (* Strategy 5: common variations and aliases *)
  existsb (fun variation => search (word_pattern (lower variation)) text_lower)
          (_get_brand_variations brand).

(** The loop of [extract_brands] over a Python [set]. *)
Definition collect_mentioned (text_lower text_normalized : str)
    (brands : list str) : gset str :=
  foldl (fun mentioned brand =>
           if _is_brand_mentioned text_lower text_normalized brand
           then {[brand]} ∪ mentioned
           else mentioned)
        ∅ brands.

(** [extract_brands(text, brands)]; [list(mentioned)] enumerates the set in
    an order the language leaves open, here the order of [elements]. *)
Definition extract_brands (text : str) (brands : list str) : list str :=
  if negb (truthy text) || match brands with [] => true | _ => false end
  then []
  else
    let text_lower := lower text in
    let text_normalized := sub_spaces (sub_punct text_lower) in
    elements (collect_mentioned text_lower text_normalized brands).


(** The forms under which a candidate is looked for: its name and the
    variations of [_get_brand_variations]. *)
Definition forms (brand : str) : list str :=
  brand :: _get_brand_variations brand.


End Brand.

(** ** Exceptions and the session monad *)

Module Exn.

(** The exceptions the code raises or catches by name, and any other
    subclass of [Exception]. *)
Inductive exn : Type :=
| TimeoutException
| NoSuchElementException
| RuntimeError (msg : string)
| OtherError (msg : string).

Inductive result (A : Type) : Type :=
| Ok (a : A)
| Raise (e : exn).

Arguments Ok {A} a.
Arguments Raise {A} e.

Definition is_ok {A} (r : result A) : bool :=
  match r with Ok _ => true | Raise _ => false end.

End Exn.

(** ** Configuration: [app/config.py] *)

Module Config.
Import Py.

Record Settings : Type := {
  ENVIRONMENT : str;
  HEADLESS : bool;
  RANDOM_DELAY_MIN : Z;      (* seconds *)
  RANDOM_DELAY_MAX : Z;      (* seconds *)
  RATE_LIMIT_DELAY : Z;      (* seconds *)
  OXYLABS_USERNAME : str;
  OXYLABS_PASSWORD : str;
  USE_PROXY : bool
}.

(** The defaults of the class [Settings]. *)
Definition defaults : Settings := {|
  ENVIRONMENT := lit "development";
  HEADLESS := false;
  RANDOM_DELAY_MIN := 1;
  RANDOM_DELAY_MAX := 3;
  RATE_LIMIT_DELAY := 180;
  OXYLABS_USERNAME := [];
  OXYLABS_PASSWORD := [];
  USE_PROXY := true
|}.

(** Seconds to clock ticks. *)
Definition seconds (n : Z) : Z := 1000 * n.

End Config.

(** ** Cookies *)

Module Cookie.
Import Py.

(** A JSON value of a stored cookie. *)
Inductive value : Type :=
| VNull
| VBool (b : bool)
| VNum (n : Z)
| VStr (s : str).

#[global] Instance value_eq_dec : EqDecision value.
Proof. solve_decision. Defined.

(** A cookie is a Python [dict] with string keys. *)
Abbreviation cookie := (gmap string value).

Definition value_truthy (v : value) : bool :=
  match v with
  | VNull => false
  | VBool b => b
  | VNum n => negb (n =? 0)
  | VStr s => truthy s
  end.

(** [bool(cookie.get(key))] *)
Definition get_truthy (c : cookie) (key : string) : bool :=
  match c !! key with
  | Some v => value_truthy v
  | None => false
  end.

End Cookie.

(** ** The browser session: [BaseScraper] and the three platform scrapers *)

Module Scraper.
Import Py Exn Config Cookie.

Inductive Platform : Type := ChatGPT | Gemini | Perplexity.

(** The ways [initialize] constructs a driver. *)
Inductive launcher : Type :=
| UcVersioned (headless : bool)   (* uc.Chrome(options, version_main=...) *)
| UcAuto                          (* uc.Chrome(options, headless=...) *)
| StandardDriver.                 (* webdriver.Chrome(service, options) *)

(** What a session does to the outside, in order. *)
Inductive event : Type :=
| EvLaunch (how : launcher)      (* a driver is constructed: a browser starts *)
| EvThreadStart                  (* the screenshot thread is started *)
| EvStopFlag                     (* self._stop_screenshots = True *)
| EvJoin (timeout : Z)           (* self._screenshot_thread.join(timeout) is called *)
| EvQuit                         (* self.driver.quit() *)
| EvSleep (ms : Z)               (* time.sleep *)
| EvNavigate                     (* self.driver.get(self.URL) *)
| EvAddCookie (c : cookie)       (* self.driver.add_cookie(c) *)
| EvPoll (elapsed : Z)           (* one turn of a completion loop *)
| EvCeiling                      (* the [else] of a completion loop *)
| EvExtract                      (* the extraction script *)
| EvFallback.                    (* the alternative extraction *)

#[global] Instance launcher_eq_dec : EqDecision launcher.
Proof. solve_decision. Defined.

#[global] Instance event_eq_dec : EqDecision event.
Proof. solve_decision. Defined.

(** What the completion probes see of the page at one instant. *)
Record page : Type := {
  stop_buttons : result nat;         (* ChatGPT: 'Stop generating' buttons found *)
  response_containers : result nat;  (* Gemini, Perplexity: containers found *)
  aria_busy : result bool;           (* Gemini: the busy script *)
  has_content : result bool          (* Perplexity: the content script *)
}.

(** Everything outside the process, as met by one session. *)
Record World : Type := {
  (* proxy_manager *)
  proxy_ports : list str;
  proxy_choice : nat;                       (* random.choice *)
  proxy_status : result nat;                (* requests.get(...).status_code *)
  (* launching *)
  chrome_options : result unit;             (* _get_chrome_options() *)
  chrome_version : result (option Z);       (* the registry query and its parse *)
  launches : nat -> result unit;            (* the n-th driver construction *)
  makedirs : result unit;                   (* os.makedirs(self._screenshot_dir) *)
  thread_start : result unit;               (* self._screenshot_thread.start() *)
  navigate : nat -> result unit;            (* the n-th driver.get *)
  (* cookies and login *)
  cookies_file : option (list cookie);      (* self.load_cookies() *)
  document_domain : result str;
  add_cookie : cookie -> result unit;
  login_element : nat -> result unit;       (* the n-th find_element(LOGIN_SELECTOR) *)
  get_cookies : result (list cookie);
  (* the query *)
  input_field : result unit;                (* WebDriverWait(driver, 20).until(...) *)
  enter_prompt : result unit;               (* _enter_prompt *)
  send_message : result unit;               (* _send_message *)
  page_at : Z -> page;
  latency : Z -> nat;                       (* duration of a driver call *)
  uniform : Z -> Z -> Z;                    (* random.uniform, in ticks *)
  primary_text : result (option str);       (* the extraction script *)
  fallback_texts : result (list str);       (* [el.text] of the elements found *)
  page_source : result str;
  quit : nat -> result unit                 (* the n-th driver.quit() of the scraper *)
}.

(** A [threading.Thread] object: created, or created and started. *)
Inductive thread : Type := Created | Started.

#[global] Instance thread_eq_dec : EqDecision thread.
Proof. solve_decision. Defined.

(** The attributes of a [BaseScraper], the clock and the trace. *)
Record scraper : Type := mkScraper {
  driver : bool;                 (* self.driver is not None *)
  last_request_time : Z;
  _screenshot_thread : option thread;   (* None, or the Thread object *)
  _stop_screenshots : bool;
  now : Z;                       (* time.time() *)
  log : list event
}.

(** [BaseScraper.__init__], at clock [t]. *)
Definition init (t : Z) : scraper :=
  mkScraper false 0 None false t [].

Definition set_driver (d : bool) (s : scraper) : scraper :=
  mkScraper d (last_request_time s) (_screenshot_thread s) (_stop_screenshots s)
            (now s) (log s).

Definition set_last_request_time (t : Z) (s : scraper) : scraper :=
  mkScraper (driver s) t (_screenshot_thread s) (_stop_screenshots s)
            (now s) (log s).

Definition set_screenshot_thread (t : option thread) (s : scraper) : scraper :=
  mkScraper (driver s) (last_request_time s) t (_stop_screenshots s)
            (now s) (log s).

Definition set_stop_screenshots (b : bool) (s : scraper) : scraper :=
  mkScraper (driver s) (last_request_time s) (_screenshot_thread s) b
            (now s) (log s).

Definition advance (ms : Z) (s : scraper) : scraper :=
  mkScraper (driver s) (last_request_time s) (_screenshot_thread s)
            (_stop_screenshots s) (now s + ms) (log s).

Definition record (e : event) (s : scraper) : scraper :=
  mkScraper (driver s) (last_request_time s) (_screenshot_thread s)
            (_stop_screenshots s) (now s) (log s ++ [e]).

(** The calls of [driver.quit()] a trace holds. *)
Definition quits (l : list event) : nat :=
  length (List.filter (fun e => match e with EvQuit => true | _ => false end) l).

(** A computation of the session: state passing with exceptions. *)
Definition M (A : Type) : Type := scraper -> result A * scraper.

Definition ret {A} (a : A) : M A := fun s => (Ok a, s).

Definition bind {A B} (m : M A) (k : A -> M B) : M B :=
  fun s =>
    match m s with
    | (Ok a, s') => k a s'
    | (Raise e, s') => (Raise e, s')
    end.

Definition raise {A} (e : exn) : M A := fun s => (Raise e, s).

(** The answer of an oracle. *)
Definition ask {A} (r : result A) : M A := fun s => (r, s).

Definition get {A} (f : scraper -> A) : M A := fun s => (Ok (f s), s).

Definition modify (f : scraper -> scraper) : M unit := fun s => (Ok tt, f s).

Definition emit (e : event) : M unit := modify (record e).

(** [try: m  except Exception as e: handler e] *)
Definition try_except {A} (m : M A) (handler : exn -> M A) : M A :=
  fun s =>
    match m s with
    | (Ok a, s') => (Ok a, s')
    | (Raise e, s') => handler e s'
    end.

(** [try: m  finally: final]: [final] runs on both exits and its own
    exception, if any, replaces the outcome of [m]. *)
Definition try_finally {A} (m : M A) (final : M unit) : M A :=
  fun s =>
    match m s with
    | (r, s') =>
        match final s' with
        | (Ok _, s'') => (r, s'')
        | (Raise e, s'') => (Raise e, s'')
        end
    end.

Declare Scope session_scope.
Delimit Scope session_scope with session.
Notation "x <- m ;; k" := (bind m (fun x => k))
  (at level 100, m at next level, right associativity) : session_scope.
Notation "m ;; k" := (bind m (fun _ => k))
  (at level 100, right associativity) : session_scope.

Local Open Scope session_scope.

(** [time.sleep(ms)] *)
Definition sleep (ms : Z) : M unit :=
  modify (fun s => advance ms (record (EvSleep ms) s)).

(** [ScraperResponse] *)
Record ScraperResponse : Type := {
  text : str;
  brands_mentioned : list str;
  raw_html : option str
}.

(** The sentinels of [_extract_response]. *)
Definition NO_RESPONSE : str := lit "No response extracted".
Definition NO_SUBSTANTIVE : str := lit "No substantive response extracted".

Section Session.

Variable settings : Settings.
Variable w : World.
Variable platform : Platform.

(** *** Delays and rate limiting *)

(** [self.delay(seconds)] *)
Definition delay (ms : Z) : M unit := sleep ms.

(** [self.random_delay(min_sec, max_sec)], bounds in ticks. *)
Definition random_delay (min_ms max_ms : Z) : M unit :=
  let min_ms := if min_ms =? 0 then seconds (RANDOM_DELAY_MIN settings) else min_ms in
  let max_ms := if max_ms =? 0 then seconds (RANDOM_DELAY_MAX settings) else max_ms in
  sleep (uniform w min_ms max_ms).

Definition enforce_rate_limit : M unit :=
  last <- get last_request_time ;;
  if last =? 0 then
    t <- get now ;;
    modify (set_last_request_time t)
  else
    t <- get now ;;
    let elapsed := t - last in
    (if elapsed <? seconds (RATE_LIMIT_DELAY settings) then
       let wait_time := seconds (RATE_LIMIT_DELAY settings) - elapsed in
       sleep wait_time
     else ret tt) ;;
    t' <- get now ;;
    modify (set_last_request_time t').

(** *** Proxy validation: [ProxyManager.test_proxy], [_setup_proxy] *)

(** [get_random_proxy()]: the port of the endpoint chosen, if any. *)
Definition get_random_proxy : option str :=
  if negb (USE_PROXY settings) then None
  else if negb (truthy (OXYLABS_USERNAME settings)) ||
          negb (truthy (OXYLABS_PASSWORD settings)) then None
  else match proxy_ports w with
       | [] => None
       | p :: ps => Some (nth (proxy_choice w) (p :: ps) p)
       end.

Definition get_proxy_dict : option str := get_random_proxy.

Definition test_proxy : bool :=
  match get_proxy_dict with
  | None => false
  | Some _ =>
      match proxy_status w with
      | Ok status_code => Nat.eqb status_code 200
      | Raise _ => false
      end
  end.

Definition _setup_proxy : bool :=
  if USE_PROXY settings then
    if negb (truthy (OXYLABS_USERNAME settings)) ||
       negb (truthy (OXYLABS_PASSWORD settings))
    then false
    else if negb test_proxy then false
    else true
  else true.

(** *** Launching the browser *)

(** One driver construction; [site] tells which of the three constructions
    of [initialize] it is. *)
Definition launch (how : launcher) (site : nat) : M unit :=
  emit (EvLaunch how) ;;
  ask (launches w site) ;;
  modify (set_driver true).

(** The nested [try] that detects the Chrome version and falls back. *)
Definition launch_browser : M unit :=
  try_except
    (version <- ask (chrome_version w) ;;
     match version with
     | Some _ => launch (UcVersioned (HEADLESS settings)) 0
     | None => launch UcAuto 0
     end)
    (fun version_error =>
       try_except
         (launch UcAuto 1)
         (fun uc_error => launch StandardDriver 2)).

(** The attribute is set before [start()] is called: if [start()] raises,
    the scraper is left with a thread that was never started. *)
Definition _start_screenshot_capture : M unit :=
  if HEADLESS settings then
    ask (makedirs w) ;;
    modify (set_stop_screenshots false) ;;
    modify (set_screenshot_thread (Some Created)) ;;
    ask (thread_start w) ;;
    modify (set_screenshot_thread (Some Started)) ;;
    emit EvThreadStart
  else ret tt.

(** [join] raises [RuntimeError] on a thread that was never started. *)
Definition _stop_screenshot_capture : M unit :=
  modify (set_stop_screenshots true) ;;
  emit EvStopFlag ;;
  thread <- get _screenshot_thread ;;
  match thread with
  | Some Started => emit (EvJoin (seconds 2))
  | Some Created =>
      emit (EvJoin (seconds 2)) ;;
      raise (RuntimeError "cannot join thread before it is started")
  | None => ret tt
  end.

(** [self.driver.get(self.URL)]; [n] counts the navigations. *)
Definition driver_get (n : nat) : M unit :=
  emit EvNavigate ;;
  ask (navigate w n).

(** *** Cookies *)

(** [current_domain not in cookie_domain and cookie_domain not in current_domain] *)
Definition domain_mismatch (current_domain cookie_domain : str) : bool :=
  negb (contains cookie_domain current_domain) &&
  negb (contains current_domain cookie_domain).

(** The [sameSite] clean-up. *)
Definition strip_same_site (c : cookie) : cookie :=
  if bool_decide (c !! "sameSite"%string = Some (VStr (lit "None"))) &&
     negb (get_truthy c "secure")
  then delete "sameSite"%string c
  else c.

(** What the body of the loop decides for one cookie before it reaches the
    browser. *)
Inductive fate : Type :=
| Skipped                 (* continue *)
| Offered (c : cookie)    (* handed to driver.add_cookie *)
| Broken (e : exn).       (* the body raised *)

Definition prepare_cookie (current_domain : str) (c : cookie) : fate :=
  match c !! "domain"%string with
  | Some (VStr d) =>
      let cookie_domain := if startswith d (lit ".") then drop 1 d else d in
      if domain_mismatch current_domain cookie_domain
      then Skipped
      else Offered (strip_same_site c)
  | Some _ => Broken (OtherError "AttributeError")
  | None => Offered (strip_same_site c)
  end.

Fixpoint apply_cookies (current_domain : str) (cookies : list cookie)
    (success_count : nat) : M nat :=
  match cookies with
  | [] => ret success_count
  | c :: rest =>
      n <- try_except
             match prepare_cookie current_domain c with
             | Skipped => ret success_count
             | Broken e => raise e
             | Offered c' =>
                 emit (EvAddCookie c') ;;
                 ask (add_cookie w c') ;;
                 ret (S success_count)
             end
             (fun e => ret success_count) ;;
      apply_cookies current_domain rest n
  end.

Definition _load_and_apply_cookies : M unit :=
  match cookies_file w with
  | Some (c :: cs) =>
      current_domain <- ask (document_domain w) ;;
      success_count <- apply_cookies current_domain (c :: cs) 0 ;;
      if Nat.ltb 0 success_count then
        driver_get 1 ;;
        random_delay (seconds 2) (seconds 4)
      else ret tt
  | _ => ret tt
  end.

(** *** Login *)

Definition check_login_status (n : nat) : M bool :=
  try_except
    (ask (login_element w n) ;; ret true)
    (fun e => ret false).

Definition _handle_manual_login : M unit :=
  delay (seconds 90) ;;
  cookies <- ask (get_cookies w) ;;
  (* save_cookies and db.save_session report failure by logging only *)
  ret tt.

(** *** [initialize] and [cleanup] *)

Definition initialize (load_cookies : bool) : M bool :=
  try_except
    (if negb _setup_proxy then ret false else
     ask (chrome_options w) ;;
     launch_browser ;;
     _start_screenshot_capture ;;
     driver_get 0 ;;
     random_delay (seconds 3) (seconds 5) ;;
     (if load_cookies then _load_and_apply_cookies else ret tt) ;;
     is_logged_in <- check_login_status 0 ;;
     if negb is_logged_in && load_cookies then
       _handle_manual_login ;;
       is_logged_in <- check_login_status 1 ;;
       if negb is_logged_in then ret false else ret true
     else ret true)
    (fun e => ret false).

Definition cleanup : M unit :=
  _stop_screenshot_capture ;;
  d <- get driver ;;
  if d then
    try_except
      (n <- get (fun s => quits (log s)) ;;
       emit EvQuit ;;
       ask (quit w n) ;;
       modify (set_driver false))
      (fun e => ret tt)
  else ret tt.

(** *** Waiting for the answer: [_wait_for_response] *)

(** The ceiling [max_wait = 120] of the three loops. *)
Definition max_wait : Z := seconds 120.

(** One driver call: it sees the page of the instant and takes time. *)
Definition observe {A} (probe : page -> result A) (s : scraper)
  : result A * scraper :=
  (probe (page_at w (now s)), advance (Z.of_nat (latency w (now s))) s).

(** How one turn of the loop ends. *)
Inductive verdict : Type :=
| Finished               (* break *)
| Pending (wait : Z)     (* self.delay(wait) and loop *)
| Crashed (e : exn).     (* the exception leaves the loop *)

Definition poll (s : scraper) : verdict * scraper :=
  match platform with
  | ChatGPT =>
      match observe stop_buttons s with
      | (Ok n, s1) =>
          if Nat.eqb n 0 then (Finished, s1) else (Pending (seconds 1), s1)
      | (Raise e, s1) => (Crashed e, s1)
      end
  | Gemini =>
      match observe response_containers s with
      | (Ok n, s1) =>
          if Nat.ltb 0 n then
            match observe aria_busy s1 with
            | (Ok is_busy, s2) =>
                if negb is_busy then (Finished, s2)
                else (Pending (seconds 1), s2)
            | (Raise _, s2) => (Pending (seconds 1), s2)
            end
          else (Pending (seconds 1), s1)
      | (Raise _, s1) => (Pending (seconds 1), s1)
      end
  | Perplexity =>
      match observe response_containers s with
      | (Ok n, s1) =>
          if Nat.ltb 0 n then
            match observe has_content s1 with
            | (Ok content, s2) =>
                if content then (Finished, s2)
                else (Pending (seconds 2), s2)
            | (Raise _, s2) => (Pending (seconds 1), s2)
            end
          else (Pending (seconds 1), s1)
      | (Raise _, s1) => (Pending (seconds 1), s1)
      end
  end.

Definition inspect {A} (a : A) : {b : A | a = b} := exist _ a eq_refl.

Local Obligation Tactic := idtac.

(** [while (time.time() - start_time) < max_wait: ... else: ...] *)
Equations wait_loop (start_time : Z) (s : scraper) : result unit * scraper
  by wf (Z.to_nat (start_time + max_wait - now s)) lt :=
wait_loop start_time s with Z_lt_dec (now s - start_time) max_wait := {
  | right _ => (Ok tt, record EvCeiling s)
  | left _ with inspect (poll (record (EvPoll (now s - start_time)) s)) := {
      | exist _ (Finished, s1) _ => (Ok tt, s1)
      | exist _ (Crashed e, s1) _ => (Raise e, s1)
      | exist _ (Pending wait, s1) _ =>
          wait_loop start_time (advance wait (record (EvSleep wait) s1)) } }.
Next Obligation.
  intros start_time s wait s1 Hpoll Hlt _.
  assert (Hstep : now s < now (advance wait (record (EvSleep wait) s1))).
  { revert Hpoll. unfold poll, observe. cbn.
    destruct platform;
      repeat match goal with
             | |- context [match ?r with Ok _ => _ | Raise _ => _ end] =>
                 destruct r
             | |- context [if ?b then _ else _] => destruct b
             end;
      intros [= <- <-]; cbn; unfold seconds; lia. }
  lia.
Qed.

Definition _wait_for_response : M unit :=
  (match platform with
   | ChatGPT => ret tt
   | Gemini => delay (seconds 3)
   | Perplexity =>
       d <- get driver ;;
       if negb d then raise (RuntimeError "Driver not initialized")
       else delay (seconds 3)
   end) ;;
  start_time <- get now ;;
  wait_loop start_time ;;
  random_delay (seconds 1) (seconds 2).

(** *** Extracting the answer: [_extract_response] *)

Definition newline : ascii := ascii_of_nat 10.

(** [not response_text or response_text.strip() == ''] *)
Definition blank (response_text : option str) : bool :=
  match response_text with
  | None => true
  | Some t => negb (truthy t) || bool_decide (strip t = [])
  end.

(** The alternative method, from the texts of the elements it finds. *)
Definition fallback_text (texts : list str) : str :=
  match texts with
  | [] => NO_RESPONSE
  | t :: ts =>
      match platform with
      | ChatGPT => List.last texts t            (* assistant_messages[-1].text *)
      | Gemini => join [newline] texts
      | Perplexity =>
          let response_text :=
            join [newline] (List.filter (fun t => truthy (strip t)) texts) in
          if Nat.ltb (length (strip response_text)) 20
          then NO_SUBSTANTIVE
          else response_text
      end
  end.

Definition _extract_response : M str :=
  (match platform with
   | Perplexity =>
       d <- get driver ;;
       if negb d then raise (RuntimeError "Driver not initialized") else ret tt
   | _ => ret tt
   end) ;;
  emit EvExtract ;;
  response_text <- ask (primary_text w) ;;
  if blank response_text then
    try_except
      (emit EvFallback ;;
       texts <- ask (fallback_texts w) ;;
       ret (fallback_text texts))
      (fun e => ret NO_RESPONSE)
  else
    ret (match response_text with Some t => t | None => [] end).

(** *** The query *)

Definition _find_input_field : M unit :=
  try_except
    (ask (input_field w))
    (fun e =>
       match e with
       | TimeoutException => raise (RuntimeError "input field not found")
       | _ => raise e
       end).

Definition query (prompt : str) (brands : list str) : M ScraperResponse :=
  d <- get driver ;;
  if negb d then
    raise (RuntimeError "Scraper not initialized. Call initialize() first.")
  else
    try_except
      (enforce_rate_limit ;;
       _find_input_field ;;
       ask (enter_prompt w) ;;
       ask (send_message w) ;;
       _wait_for_response ;;
       response_text <- _extract_response ;;
       raw_html <-
         (if bool_decide (ENVIRONMENT settings = lit "development")
          then html <- ask (page_source w) ;; ret (Some html)
          else ret None) ;;
       let brands_mentioned := Brand.extract_brands response_text brands in
       ret {| text := response_text;
              brands_mentioned := brands_mentioned;
              raw_html := raw_html |})
      (fun e =>
         match e with
         | TimeoutException => raise (RuntimeError "query timeout")
         | _ => raise e
         end).

Definition query_with_fresh_browser (prompt : str) (brands : list str)
  : M ScraperResponse :=
  try_finally
    (try_except
       (success <- initialize true ;;
        if negb success then raise (RuntimeError "Failed to initialize browser")
        else query prompt brands)
       (fun e => raise e))
    cleanup.

End Session.

(** *** Reading a trace *)

(** The number of driver constructions in a trace. *)
Definition launch_count (l : list event) : nat :=
  length (List.filter (fun e => match e with EvLaunch _ => true | _ => false end) l).

Definition is_poll (e : event) : bool :=
  match e with EvPoll _ => true | _ => false end.

(** The number of turns of a completion loop in a trace. *)
Definition poll_count (l : list event) : nat := length (List.filter is_poll l).

(** Every turn recorded in the trace began before the ceiling. *)
Definition polls_before_ceiling (l : list event) : bool :=
  forallb (fun e => match e with
                    | EvPoll elapsed => (0 <=? elapsed) && (elapsed <? max_wait)
                    | _ => true
                    end) l.

(** The join of [cleanup] does not raise: there is no thread, or it was
    started. *)
Definition joinable (s : scraper) : bool :=
  match _screenshot_thread s with
  | Some Created => false
  | _ => true
  end.

(** The events of [cleanup] from a state: the stop signal, the call of
    join when there is a thread, and the quit when a driver is held and the
    join did not raise. *)
Definition cleanup_events (s : scraper) : list event :=
  EvStopFlag ::
  (match _screenshot_thread s with
   | Some _ => [EvJoin (seconds 2)]
   | None => []
   end) ++
  (if driver s && joinable s then [EvQuit] else []).

(** The relation the comment of the domain test names: the stored domain
    is the page's domain, a parent of it or a child of it. *)
Definition is_parent_of (parent child : str) : bool :=
  endswith child ("."%char :: parent).

Definition related_domains (current_domain cookie_domain : str) : bool :=
  bool_decide (cookie_domain = current_domain) ||
  is_parent_of cookie_domain current_domain ||
  is_parent_of current_domain cookie_domain.

(** The cookies a stored list hands to the browser, in order. *)
Definition offered (current_domain : str) (cookies : list cookie) : list cookie :=
  omap (fun c => match prepare_cookie current_domain c with
                 | Offered c' => Some c'
                 | _ => None
                 end) cookies.

End Scraper.

(** ** The scheduler: [ScraperWorker] *)

Module Worker.
Import Py Exn Config Scraper.

(** A prompt dictionary of the queue. *)
Record prompt : Type := {
  id : str;
  prompt_text : str;
  category_id : str
}.

#[global] Instance prompt_eq_dec : EqDecision prompt.
Proof. solve_decision. Defined.

(** The store [db], the world each fresh session meets, and the caller of
    [stop()]. *)
Record Store : Type := {
  get_pending_prompts : option str -> nat -> list prompt;
                                       (* the batch of the n-th iteration *)
  get_brand_names : prompt -> result (list str);
  create_response : prompt -> result (option str);
  update_response : str -> result unit;
  session_world : prompt -> World;
  session_clock : prompt -> Z;
  stop_requested : nat -> bool         (* stop() has run by the n-th check *)
}.

Inductive wevent : Type :=
| Attempt (p : prompt)          (* process_prompt is entered *)
| Completed (response_id : str) (* update_response(status='completed') *)
| Failed (response_id : str)    (* update_response(status='failed') *)
| Pause (secs : Z).             (* asyncio.sleep *)

(** The attributes of a [ScraperWorker] and its trace. *)
Record worker : Type := mkWorker {
  ai_source : str;
  is_running : bool;
  prompts_completed : nat;
  errors : nat;
  checks : nat;              (* reads of [is_running] so far *)
  wlog : list wevent
}.

(** [ScraperWorker.__init__] *)
Definition new (source : str) : worker :=
  mkWorker source false 0 0 0 [].

Definition set_running (b : bool) (k : worker) : worker :=
  mkWorker (ai_source k) b (prompts_completed k) (errors k) (checks k) (wlog k).

Definition add_completed (k : worker) : worker :=
  mkWorker (ai_source k) (is_running k) (S (prompts_completed k)) (errors k)
           (checks k) (wlog k).

Definition add_error (k : worker) : worker :=
  mkWorker (ai_source k) (is_running k) (prompts_completed k) (S (errors k))
           (checks k) (wlog k).

Definition note (e : wevent) (k : worker) : worker :=
  mkWorker (ai_source k) (is_running k) (prompts_completed k) (errors k)
           (checks k) (wlog k ++ [e]).

(** The scraper class chosen for [ai_source]. *)
Definition scraper_class (source : str) : option Platform :=
  if bool_decide (source = lit "chatgpt") then Some ChatGPT
  else if bool_decide (source = lit "gemini") then Some Gemini
  else if bool_decide (source = lit "perplexity") then Some Perplexity
  else None.

Section Scheduler.

Variable settings : Settings.
Variable db : Store.

(** A read of [self.is_running]: a [stop()] issued meanwhile is seen. *)
Definition check_running (k : worker) : bool * worker :=
  let running := is_running k && negb (stop_requested db (checks k)) in
  (running,
   mkWorker (ai_source k) running (prompts_completed k) (errors k)
            (S (checks k)) (wlog k)).

(** The local variables of [process_prompt] its handlers read. *)
Record locals : Type := {
  scraper : option Platform;
  response_record : option str
}.

(** How the [try] block of [process_prompt] ends. *)
Inductive control : Type :=
| Return (success : bool)
| Raised (e : exn).

Definition try_block (p : prompt) (k : worker) : control * locals * worker :=
  match get_brand_names db p with
  | Raise e => (Raised e, Build_locals None None, k)
  | Ok [] => (Return false, Build_locals None None, k)
  | Ok (b :: bs) =>
      let brands := b :: bs in
      match create_response db p with
      | Raise e => (Raised e, Build_locals None None, k)
      | Ok None => (Return false, Build_locals None None, k)
      | Ok (Some response_id) =>
          match scraper_class (ai_source k) with
          | None => (Return false, Build_locals None (Some response_id), k)
          | Some platform =>
              let here := Build_locals (Some platform) (Some response_id) in
              let session :=
                query_with_fresh_browser settings (session_world db p) platform
                  (prompt_text p) brands (init (session_clock db p)) in
              match fst session with
              | Raise e => (Raised e, here, k)
              | Ok result =>
                  match update_response db response_id with
                  | Raise e => (Raised e, here, k)
                  | Ok _ =>
                      (Return true, here,
                       add_completed (note (Completed response_id) k))
                  end
              end
          end
      end
  end.

(** [process_prompt]: the [except Exception] clause counts the error and
    marks the record failed; the [finally] clause cleans a session that is
    already closed and touches nothing of the worker. *)
Definition process_prompt (p : prompt) (k : worker) : bool * worker :=
  match try_block p (note (Attempt p) k) with
  | (Return success, _, k') => (success, k')
  | (Raised e, here, k') =>
      let k'' := add_error k' in
      (false,
       match response_record here with
       | Some response_id => note (Failed response_id) k''
       | None => k''
       end)
  end.

(** [for prompt in pending_prompts: ...] *)
Fixpoint process_batch (pending_prompts : list prompt) (k : worker) : worker :=
  match pending_prompts with
  | [] => k
  | p :: rest =>
      let '(running, k1) := check_running k in
      if negb running then k1
      else
        let '(success, k2) := process_prompt p k1 in
        process_batch rest (note (Pause 30) k2)
  end.

(** [max_iterations and iteration >= max_iterations] *)
Definition cap_reached (max_iterations : option Z) (iteration : nat) : bool :=
  match max_iterations with
  | Some n => negb (n =? 0) && (n <=? Z.of_nat iteration)
  | None => false
  end.

(** [while self.is_running: ...]; [None] when [fuel] turns of the loop did
    not end it, else the worker and the number of iterations made. *)
Fixpoint run_loop (fuel : nat) (category : option str)
    (max_iterations : option Z) (iteration : nat) (k : worker)
  : option (worker * nat) :=
  match fuel with
  | O => None
  | S fuel' =>
      let '(running, k1) := check_running k in
      if negb running then Some (k1, iteration)
      else
        let iteration := S iteration in
        match get_pending_prompts db category iteration with
        | [] =>
            run_loop fuel' category max_iterations iteration
                     (note (Pause 300) k1)
        | p :: rest =>
            let k2 := process_batch (p :: rest) k1 in
            if cap_reached max_iterations iteration
            then Some (k2, iteration)
            else run_loop fuel' category max_iterations iteration
                          (note (Pause 60) k2)
        end
  end.

(** [run(category_id, max_iterations)] *)
Definition run (fuel : nat) (category : option str)
    (max_iterations : option Z) (k : worker) : option (worker * nat) :=
  match run_loop fuel category max_iterations 0 (set_running true k) with
  | Some (k', iterations) => Some (set_running false k', iterations)
  | None => None
  end.

(** *** Reading a trace *)

(** The prompts [process_prompt] was entered for, in order. *)
Definition attempted (l : list wevent) : list prompt :=
  omap (fun e => match e with Attempt p => Some p | _ => None end) l.

(** The [try] block of [process_prompt] raises for this prompt. *)
Definition raises (source : str) (p : prompt) : bool :=
  match try_block p (new source) with
  | (Raised _, _, _) => true
  | (Return _, _, _) => false
  end.

End Scheduler.

End Worker.

(** ** Sample worlds, for the examples *)

Module Sample.
Import Py Exn Config Cookie Scraper Worker.

(** A page on which the answer is still being generated. *)
Definition generating : page := {|
  stop_buttons := Ok 1%nat;
  response_containers := Ok 1%nat;
  aria_busy := Ok true;
  has_content := Ok false
|}.

(** A world in which every call succeeds at once, the user is logged in
    and the answer never finishes; the arguments set what the examples
    vary. *)
Definition world (cookies : option (list cookie)) (domain : str)
    (primary : result (option str)) (fallback : result (list str)) : World := {|
  proxy_ports := [lit "8001"; lit "8002"];
  proxy_choice := 0;
  proxy_status := Ok 200%nat;
  chrome_options := Ok tt;
  chrome_version := Ok None;
  launches := fun _ => Ok tt;
  makedirs := Ok tt;
  thread_start := Ok tt;
  navigate := fun _ => Ok tt;
  cookies_file := cookies;
  document_domain := Ok domain;
  add_cookie := fun _ => Ok tt;
  login_element := fun _ => Ok tt;
  get_cookies := Ok [];
  input_field := Ok tt;
  enter_prompt := Ok tt;
  send_message := Ok tt;
  page_at := fun _ => generating;
  latency := fun _ => 0%nat;
  uniform := fun lo hi => lo;
  primary_text := primary;
  fallback_texts := fallback;
  page_source := Ok [];
  quit := fun _ => Ok tt
|}.

Definition stalled : World :=
  world None (lit "chatgpt.com") (Ok (Some (lit "Partial answer"))) (Ok []).

(** The same world behind a proxy that answers 503. *)
Definition proxy_down : World := {|
  proxy_ports := proxy_ports stalled;
  proxy_choice := proxy_choice stalled;
  proxy_status := Ok 503%nat;
  chrome_options := chrome_options stalled;
  chrome_version := chrome_version stalled;
  launches := launches stalled;
  makedirs := makedirs stalled;
  thread_start := thread_start stalled;
  navigate := navigate stalled;
  cookies_file := cookies_file stalled;
  document_domain := document_domain stalled;
  add_cookie := add_cookie stalled;
  login_element := login_element stalled;
  get_cookies := get_cookies stalled;
  input_field := input_field stalled;
  enter_prompt := enter_prompt stalled;
  send_message := send_message stalled;
  page_at := page_at stalled;
  latency := latency stalled;
  uniform := uniform stalled;
  primary_text := primary_text stalled;
  fallback_texts := fallback_texts stalled;
  page_source := page_source stalled;
  quit := quit stalled
|}.

(** Settings with the proxy credentials filled in, and without proxying. *)
Definition with_proxy : Settings := {|
  ENVIRONMENT := lit "production";
  HEADLESS := true;
  RANDOM_DELAY_MIN := 1;
  RANDOM_DELAY_MAX := 3;
  RATE_LIMIT_DELAY := 180;
  OXYLABS_USERNAME := lit "customer";
  OXYLABS_PASSWORD := lit "secret";
  USE_PROXY := true
|}.

(** A scraper holding a driver, at clock [t]. *)
Definition ready (t : Z) : Scraper.scraper := set_driver true (init t).

Definition prompt_a : prompt :=
  {| id := lit "p1"; prompt_text := lit "Best CRM?"; category_id := lit "crm" |}.
Definition prompt_b : prompt :=
  {| id := lit "p2"; prompt_text := lit "Best tracker?"; category_id := lit "pm" |}.
Definition prompt_c : prompt :=
  {| id := lit "p3"; prompt_text := lit "Best wiki?"; category_id := lit "none" |}.

(** A store whose queue is served by [queue]; the category "none" has no
    brands, and the session of [prompt_a] cannot load its page. *)
Definition store (queue : nat -> list prompt) : Store := {|
  get_pending_prompts := fun _ n => queue n;
  get_brand_names := fun p =>
    if bool_decide (category_id p = lit "none") then Ok []
    else Ok [lit "HubSpot"; lit "Jira"];
  create_response := fun p => Ok (Some (lit "r-" ++ id p));
  update_response := fun _ => Ok tt;
  session_world := fun p =>
    if bool_decide (p = prompt_a)
    then world None (lit "chatgpt.com") (Raise (OtherError "page crashed")) (Ok [])
    else stalled;
  session_clock := fun _ => 1000;
  stop_requested := fun _ => false
|}.

(** The queue that is always empty. *)
Definition idle : Store := store (fun _ => []).

End Sample.

(** ** Further observations on texts *)

Module Words.
Import Py Re.

(** The last character of [s], or [prev] when [s] is empty. *)
Definition last_char (prev : option ascii) (s : str) : option ascii :=
  fold_left (fun _ c => Some c) s prev.

(** [needle] stands in [hay] as a whole word: it begins and ends with a
    word character, and neither the character before it nor the one after
    it, if any, is a word character. *)
Definition whole_word_in (hay needle : str) : Prop :=
  exists pre post,
    hay = pre ++ needle ++ post /\
    word_after needle = true /\
    word_before (last_char None needle) = true /\
    word_before (last_char None pre) = false /\
    word_after post = false.

End Words.

(** ** Worlds in which a step fails *)

Module Faults.
Import Py Exn Config Cookie Scraper.

(** [w], except that entering the prompt answers [entering] and closing
    the browser answers [closing]. *)
Definition with_steps (entering closing : result unit) (w : World) : World := {|
  proxy_ports := proxy_ports w;
  proxy_choice := proxy_choice w;
  proxy_status := proxy_status w;
  chrome_options := chrome_options w;
  chrome_version := chrome_version w;
  launches := launches w;
  makedirs := makedirs w;
  thread_start := thread_start w;
  navigate := navigate w;
  cookies_file := cookies_file w;
  document_domain := document_domain w;
  add_cookie := add_cookie w;
  login_element := login_element w;
  get_cookies := get_cookies w;
  input_field := input_field w;
  enter_prompt := entering;
  send_message := send_message w;
  page_at := page_at w;
  latency := latency w;
  uniform := uniform w;
  primary_text := primary_text w;
  fallback_texts := fallback_texts w;
  page_source := page_source w;
  quit := fun _ => closing
|}.

(** [w], except that starting the screenshot thread answers [starting]. *)
Definition with_thread (starting : result unit) (w : World) : World := {|
  proxy_ports := proxy_ports w;
  proxy_choice := proxy_choice w;
  proxy_status := proxy_status w;
  chrome_options := chrome_options w;
  chrome_version := chrome_version w;
  launches := launches w;
  makedirs := makedirs w;
  thread_start := starting;
  navigate := navigate w;
  cookies_file := cookies_file w;
  document_domain := document_domain w;
  add_cookie := add_cookie w;
  login_element := login_element w;
  get_cookies := get_cookies w;
  input_field := input_field w;
  enter_prompt := enter_prompt w;
  send_message := send_message w;
  page_at := page_at w;
  latency := latency w;
  uniform := uniform w;
  primary_text := primary_text w;
  fallback_texts := fallback_texts w;
  page_source := page_source w;
  quit := quit w
|}.

(** [w], except that the login element is found at the checks [found]
    says and the navigations answer [loads]. *)
Definition with_login (found : nat -> result unit) (loads : nat -> result unit)
    (w : World) : World := {|
  proxy_ports := proxy_ports w;
  proxy_choice := proxy_choice w;
  proxy_status := proxy_status w;
  chrome_options := chrome_options w;
  chrome_version := chrome_version w;
  launches := launches w;
  makedirs := makedirs w;
  thread_start := thread_start w;
  navigate := loads;
  cookies_file := cookies_file w;
  document_domain := document_domain w;
  add_cookie := add_cookie w;
  login_element := found;
  get_cookies := get_cookies w;
  input_field := input_field w;
  enter_prompt := enter_prompt w;
  send_message := send_message w;
  page_at := page_at w;
  latency := latency w;
  uniform := uniform w;
  primary_text := primary_text w;
  fallback_texts := fallback_texts w;
  page_source := page_source w;
  quit := quit w
|}.

End Faults.


(** ** What the properties observe *)

Module Observations.
Import Py Exn Config Cookie Scraper.

(** A driver that is held stays held. *)
Definition keeps_driver (a b : scraper) : Prop :=
  driver a = true -> driver b = true.

(** A scraper whose [cleanup] can join stays so. *)
Definition keeps_joinable (a b : scraper) : Prop :=
  joinable a = true -> joinable b = true.

(** The events by which a session opens and prepares its browser. *)
Definition opening (e : event) : bool :=
  match e with
  | EvLaunch _ | EvThreadStart | EvNavigate | EvAddCookie _ | EvSleep _ => true
  | _ => false
  end.

(** [b] continues the trace of [a] by opening events only. *)
Definition opens_only (a b : scraper) : Prop :=
  exists new, log b = log a ++ new /\ forallb opening new = true.

(** The offered cookies the browser accepted. *)
Definition accepted (w : World) (current_domain : str) (cookies : list cookie)
  : list cookie :=
  List.filter (fun c => is_ok (add_cookie w c)) (offered current_domain cookies).

End Observations.


(** ** The store: [Database.get_pending_prompts] *)

Module Database.
Import Py Exn Worker.

Section Pending.

(** For a prompt, the answer of the query for its responses by this
    platform in the last two hours: whether [result.data] holds a row. *)
Variable recent : prompt -> result bool.

(** [for prompt in prompts: ...], with the list [pending] built so far. *)
Fixpoint pending_loop (prompts : list prompt) (limit : Z)
    (pending : list prompt) : result (list prompt) :=
  match prompts with
  | [] => Ok pending
  | p :: rest =>
      match recent p with
      | Raise e => Raise e
      | Ok has_rows =>
          let pending := if negb has_rows then pending ++ [p] else pending in
          if limit <=? Z.of_nat (length pending) then Ok pending   (* break *)
          else pending_loop rest limit pending
      end
  end.

(** [get_pending_prompts(ai_source, category_id, limit)], on the prompts
    [get_prompts(category_id)] returned. *)
Definition get_pending_prompts (prompts : list prompt) (limit : Z)
  : list prompt :=
  match pending_loop prompts limit [] with
  | Ok pending => pending
  | Raise _ => []
  end.

(** The prompt has no recent response. *)
Definition is_pending (p : prompt) : bool :=
  match recent p with
  | Ok has_rows => negb has_rows
  | Raise _ => false
  end.

End Pending.

End Database.

(** ** The service: [scrape_endpoint] of [main.py] *)

Module Api.
Import Py Exn Config Scraper.

Inductive reply : Type :=
| Success (result : ScraperResponse)   (* QueryResponse(success=True, ...) *)
| HTTPException (status_code : nat).

(** The module-level dictionary [scrapers], and the scrapers the service
    holds no reference to any more, as they were left. *)
Record server : Type := mkServer {
  scrapers : gmap str (Platform * scraper);
  dropped : list scraper
}.

(** The wall clock has reached [t] when a cached scraper is used again. *)
Definition at_time (t : Z) (s : scraper) : scraper :=
  mkScraper (driver s) (last_request_time s) (_screenshot_thread s)
            (_stop_screenshots s) (Z.max (now s) t) (log s).

Section Endpoints.

Variable settings : Settings.

(** [scrape_endpoint(request)] for a request arriving at [arrival], in the
    world [w]. *)
Definition scrape_endpoint (w : World) (arrival : Z) (ai_source prompt : str)
    (brands : list str) (sv : server) : reply * server :=
  let entry : (reply * server) + (Platform * scraper) :=
    match scrapers sv !! ai_source with
    | None =>
        match Worker.scraper_class ai_source with
        | None => inl (HTTPException 400, sv)
        | Some platform =>
            match initialize settings w true (init arrival) with
            | (Ok true, s) => inr (platform, s)       (* cached below *)
            | (_, s) =>
                (* RuntimeError: the source is not in [scrapers], so the
                   handler cleans nothing *)
                inl (HTTPException 500,
                     mkServer (scrapers sv) (dropped sv ++ [s]))
            end
        end
    | Some (platform, s) => inr (platform, at_time arrival s)
    end in
  match entry with
  | inl out => out
  | inr (platform, s) =>
      match query settings w platform prompt brands s with
      | (Ok result, s') =>
          (Success result,
           mkServer (<[ai_source := (platform, s')]> (scrapers sv))
                    (dropped sv))
      | (Raise e, s') =>
          (* the handler: cleanup, then del scrapers[ai_source] *)
          (HTTPException 500,
           mkServer (delete ai_source (scrapers sv))
                    (dropped sv ++ [snd (cleanup w s')]))
      end
  end.

End Endpoints.

(** Every cached scraper holds a driver and is of the class of its key. *)
Definition cache_ok (sv : server) : Prop :=
  forall ai_source platform s,
    scrapers sv !! ai_source = Some (platform, s) ->
    driver s = true /\ Worker.scraper_class ai_source = Some platform.

End Api.


(** ** The proxy endpoints: [ProxyManager] *)

Module ProxyManager.
Import Py Exn.

(** [s.split(sep)] for a separator of one character; [cur] is the piece
    being read, reversed. *)
Fixpoint split_on_from (sep : ascii) (cur s : str) : list str :=
  match s with
  | [] => [rev cur]
  | c :: s' =>
      if Ascii.eqb c sep
      then rev cur :: split_on_from sep [] s'
      else split_on_from sep (c :: cur) s'
  end.

Definition split_on (sep : ascii) (s : str) : list str :=
  split_on_from sep [] s.

(** [self.ports] of [__init__]:
    [[port.strip() for port in PORTS.split(',') if port.strip()]] *)
Definition parse_ports (OXYLABS_PROXY_PORTS : str) : list str :=
  omap (fun port => if truthy (strip port) then Some (strip port) else None)
       (split_on ","%char OXYLABS_PROXY_PORTS).

(** The URL of [get_proxy_for_selenium] for the port chosen. *)
Definition selenium_proxy (host port : str) : str :=
  host ++ lit ":" ++ port.

(** [host, port = proxy_url.split(':')] of [get_auth_extension_path] *)
Definition unpack_host_port (proxy_url : str) : result (str * str) :=
  match split_on ":"%char proxy_url with
  | [host; port] => Ok (host, port)
  | _ => Raise (OtherError "ValueError")
  end.

(** A port as [parse_ports] keeps it: not empty, without a comma, without
    white space at either end. *)
Definition clean_port (port : str) : Prop :=
  port <> [] /\ ~ In ","%char port /\
  (forall c, head port = Some c -> is_space c = false) /\
  (forall c, last port = Some c -> is_space c = false).

End ProxyManager.


(* ===================================================================== *)
(** * Part II: properties                                                 *)
(* ===================================================================== *)

(** ** Characters and strings *)

Section Strings.
Import Py Re.

Lemma is_word_not_space c : is_word c = true -> is_space c = false.
Proof. destruct c as [[] [] [] [] [] [] [] []]; vm_compute; congruence. Qed.



Lemma startswith_app n x : startswith (n ++ x) n = true.
Proof.
  induction n as [|a n IH]; [done|].
  simpl. by rewrite Ascii.eqb_refl, IH.
Qed.

Lemma startswith_split s p : startswith s p = true -> exists r, s = p ++ r.
Proof.
  revert s. induction p as [|a p IH]; intros s H; [by exists s|].
  destruct s as [|b s]; [done|]. simpl in H.
  apply andb_true_iff in H as [Hab H]. apply Ascii.eqb_eq in Hab as ->.
  destruct (IH _ H) as [r ->]. by exists r.
Qed.

Lemma endswith_split s p : endswith s p = true -> exists sub, s = sub ++ p.
Proof.
  unfold endswith. intros H. apply startswith_split in H as [r H].
  exists (rev r). apply (f_equal (@rev ascii)) in H.
  by rewrite rev_involutive, rev_app_distr, rev_involutive in H.
Qed.

Lemma contains_here n x : contains (n ++ x) n = true.
Proof.
  destruct (n ++ x) eqn:E; simpl; rewrite <- E, startswith_app; done.
Qed.

Lemma contains_cons d hay n : contains hay n = true -> contains (d :: hay) n = true.
Proof. intros H. simpl. rewrite H. apply orb_true_r. Qed.

Lemma contains_app_l a hay n : contains hay n = true -> contains (a ++ hay) n = true.
Proof. induction a; [done|]. intros H. apply contains_cons. auto. Qed.











End Strings.

(** ** BrandMatcher *)

Section BrandMatcher.
Import Py Re Brand.






Lemma collect_mentioned_subseteq tl tn brands :
  collect_mentioned tl tn brands ⊆ list_to_set brands.
Proof.
  unfold collect_mentioned.
  assert (H : forall acc : gset str,
            foldl (fun mentioned brand =>
                     if _is_brand_mentioned tl tn brand
                     then {[brand]} ∪ mentioned else mentioned) acc brands
            ⊆ acc ∪ list_to_set brands).
  { induction brands as [|b brands IH]; intros acc; simpl.
    - apply union_subseteq_l.
    - etrans; [apply IH|]. intros x.
      destruct (_is_brand_mentioned tl tn b);
        rewrite !elem_of_union, ?elem_of_singleton; tauto. }
  etrans; [apply H|]. intros x. rewrite elem_of_union, elem_of_empty. tauto.
Qed.


(** C10. For every text and candidate list, the list [extract_brands]
    returns has no duplicate entry and each of its elements is one of the
    candidates: it is never an alias or a variation. *)
Theorem extract_brands_duplicate_free_subset (text : str) (brands : list str) :
  NoDup (extract_brands text brands) /\ extract_brands text brands ⊆ brands.
Proof.
  unfold extract_brands.
  destruct (negb (truthy text) || _).
  - split; [constructor|]. intros b Hb. by apply elem_of_nil in Hb.
  - split; [apply NoDup_elements|].
    intros b Hb. apply elem_of_elements in Hb.
    apply collect_mentioned_subseteq in Hb. by apply elem_of_list_to_set in Hb.
Qed.

Example extract_brands_listed_twice :
  extract_brands (lit "Jira and jira again") [lit "Jira"; lit "Jira"; lit "Asana"]
  = [lit "Jira"].
Proof. vm_compute. reflexivity. Qed.




End BrandMatcher.

(** ** The rate limiter *)

Section RateLimiter.
Import Py Exn Config Scraper.

(** C5. On a scraper whose clock is positive, [enforce_rate_limit] returns
    and leaves the time of the call's end as the recorded start time. A
    first call (nothing recorded yet) does not sleep. A later call sleeps
    exactly the remainder of the minimum spacing when less than the minimum
    has elapsed since the recorded start, and does not sleep otherwise. *)
Theorem enforce_rate_limit_spacing (settings : Settings) (s : scraper) :
  0 < now s ->
  let minimum := seconds (RATE_LIMIT_DELAY settings) in
  let elapsed := now s - last_request_time s in
  exists s',
    enforce_rate_limit settings s = (Ok tt, s') /\
    last_request_time s' = now s' /\
    0 < last_request_time s' /\
    (last_request_time s = 0 ->
       log s' = log s /\ now s' = now s) /\
    (last_request_time s <> 0 -> elapsed < minimum ->
       log s' = log s ++ [EvSleep (minimum - elapsed)] /\
       now s' = now s + (minimum - elapsed)) /\
    (last_request_time s <> 0 -> minimum <= elapsed ->
       log s' = log s /\ now s' = now s).
Proof.
  intros Hclock minimum elapsed.
  unfold enforce_rate_limit, bind, get, modify, sleep, ret. simpl.
  destruct (Z.eqb_spec (last_request_time s) 0) as [Hfirst|Hlater].
  - eexists. split; [reflexivity|]. simpl. repeat split; try done; lia.
  - fold elapsed. fold minimum.
    destruct (Z.ltb_spec elapsed minimum) as [Hshort|Hlong]; simpl;
      (eexists; split; [reflexivity|]); simpl; repeat split; try done; lia.
Qed.

(** The second of two calls 60 s apart waits the remaining 120 s. *)
Lemma enforce_rate_limit_spacing_witness :
  let s := set_last_request_time 1000 (advance 60000 (init 1000)) in
  0 < now s /\
  exists s',
    enforce_rate_limit defaults s = (Ok tt, s') /\
    log s' = [EvSleep 120000] /\ last_request_time s' = 181000.
Proof.
  intros s. split; [reflexivity|].
  destruct (enforce_rate_limit_spacing defaults s) as (s' & Hrun & Hlast & _ & _ & Hshort & _);
    [reflexivity|].
  exists s'. split; [exact Hrun|].
  destruct Hshort as [Hlog Hnow]; [discriminate|reflexivity|].
  split; [exact Hlog|]. rewrite Hlast, Hnow. reflexivity.
Defined.

Example first_call_records_now :
  enforce_rate_limit defaults (init 5000) = (Ok tt, set_last_request_time 5000 (init 5000)).
Proof. reflexivity. Qed.

End RateLimiter.

(** ** Initialization and the proxy gate *)

Section ProxyGate.
Import Py Exn Config Scraper.

Lemma _setup_proxy_refuses (settings : Settings) (w : World) :
  USE_PROXY settings = true ->
  truthy (OXYLABS_USERNAME settings) = false \/
  truthy (OXYLABS_PASSWORD settings) = false \/
  test_proxy settings w = false ->
  _setup_proxy settings w = false.
Proof.
  intros Huse H. unfold _setup_proxy. rewrite Huse.
  destruct H as [-> | [-> | ->]]; simpl; rewrite ?orb_true_r; try done.
  by destruct (_ || _).
Qed.

(** C4. When proxying is mandated and a credential is missing or the
    connectivity test fails, [initialize] returns [False] and has done
    nothing: the trace is as before, so no browser was launched, and no
    driver is held that was not held before. *)
Theorem initialize_refused_without_proxy (settings : Settings) (w : World)
    (load_cookies : bool) (s : scraper) :
  USE_PROXY settings = true ->
  truthy (OXYLABS_USERNAME settings) = false \/
  truthy (OXYLABS_PASSWORD settings) = false \/
  test_proxy settings w = false ->
  exists s',
    initialize settings w load_cookies s = (Ok false, s') /\
    log s' = log s /\ driver s' = driver s /\
    launch_count (log s') = launch_count (log s).
Proof.
  intros Huse H. exists s.
  unfold initialize, try_except.
  by rewrite (_setup_proxy_refuses settings w Huse H).
Qed.

(** The proxy answers 503: nothing is launched. *)
Lemma initialize_refused_without_proxy_witness :
  test_proxy Sample.with_proxy Sample.proxy_down = false /\
  exists s',
    initialize Sample.with_proxy Sample.proxy_down true (init 1000)
      = (Ok false, s') /\
    log s' = [].
Proof.
  split; [reflexivity|].
  destruct (initialize_refused_without_proxy Sample.with_proxy
              Sample.proxy_down true (init 1000))
    as (s' & Hrun & Hlog & _).
  - reflexivity.
  - right. right. reflexivity.
  - exists s'. split; [exact Hrun|exact Hlog].
Defined.

(** With the same settings and a proxy that answers, the browser is
    launched. *)
Example initialize_launches_with_proxy :
  let '(r, s) := initialize Sample.with_proxy Sample.stalled true (init 1000) in
  r = Ok true /\ EvLaunch UcAuto ∈ log s /\ driver s = true.
Proof. vm_compute. repeat split. apply list_elem_of_here. Qed.

End ProxyGate.

(** ** The fresh-browser session and its teardown *)

Section Teardown.
Import Py Exn Config Scraper.

Lemma quits_app (l1 l2 : list event) : quits (l1 ++ l2) = (quits l1 + quits l2)%nat.
Proof. unfold quits. by rewrite List.filter_app, length_app. Qed.

(** [cleanup] raises the stop flag first and calls the join of the
    screenshot thread when there is one. If the thread was never started
    the join raises, [cleanup] ends there and the driver is kept; else it
    returns, having asked the driver, when one is held, to quit. *)
Lemma cleanup_trace (w : World) (s : scraper) :
  exists s',
    cleanup w s
      = (if joinable s then Ok tt
         else Raise (RuntimeError "cannot join thread before it is started"),
         s') /\
    log s' = log s ++ cleanup_events s /\
    _stop_screenshots s' = true /\
    _screenshot_thread s' = _screenshot_thread s /\
    driver s' = driver s && negb (joinable s && is_ok (quit w (quits (log s)))).
Proof.
  unfold cleanup, _stop_screenshot_capture, cleanup_events, joinable,
    bind, get, modify, emit, ask, try_except, ret, raise.
  destruct s as [d last thread stop t l]. cbn -[quits].
  destruct thread as [[|]|], d; cbn -[quits];
    rewrite ?quits_app, ?Nat.add_0_r; cbn -[quits];
    try destruct (quit w (quits l)) as [[]|e]; cbn -[quits];
    eexists; (split; [reflexivity|]); cbn -[quits];
    rewrite <- ?app_assoc; repeat split; reflexivity.
Qed.

Lemma initialize_returns (settings : Settings) (w : World) (load_cookies : bool)
    (s : scraper) :
  exists success s', initialize settings w load_cookies s = (Ok success, s').
Proof.
  unfold initialize, try_except.
  match goal with |- context [match ?body s with _ => _ end] =>
    destruct (body s) as [[success|e] s'] end; unfold ret; eauto.
Qed.

(** Whatever happens in a call of [query_with_fresh_browser] (the
    initialization fails, the query raises, or the query returns), the call
    ends with [cleanup], run on the state the body left. The outcome of the
    body is handed on only after it, and only if the join of [cleanup] did
    not raise. *)
Lemma query_with_fresh_browser_runs_cleanup (settings : Settings) (w : World)
    (platform : Platform) (prompt : str) (brands : list str) (s : scraper) :
  exists outcome mid final,
    ((exists s1,
        initialize settings w true s = (Ok true, s1) /\
        query settings w platform prompt brands s1 = (outcome, mid))
     \/
     (initialize settings w true s = (Ok false, mid) /\
      outcome = Raise (RuntimeError "Failed to initialize browser"))) /\
    query_with_fresh_browser settings w platform prompt brands s
      = (if joinable mid then outcome
         else Raise (RuntimeError "cannot join thread before it is started"),
         final) /\
    final = snd (cleanup w mid) /\
    log final = log mid ++ cleanup_events mid /\
    _stop_screenshots final = true /\
    driver final
      = driver mid && negb (joinable mid && is_ok (quit w (quits (log mid)))).
Proof.
  unfold query_with_fresh_browser, try_finally, try_except, bind, raise.
  destruct (initialize_returns settings w true s) as (success & s1 & Hinit).
  rewrite Hinit. destruct success; cbn [negb].
  - destruct (query settings w platform prompt brands s1) as [outcome mid] eqn:Hq.
    destruct (cleanup_trace w mid) as (final & Hc & Hlog & Hflag & _ & Hdrv).
    exists outcome, mid, final.
    split; [left; eauto|].
    destruct outcome as [r|e]; destruct (joinable mid);
      cbv beta iota; rewrite !Hc; repeat split; eauto.
  - destruct (cleanup_trace w s1) as (final & Hc & Hlog & Hflag & _ & Hdrv).
    exists (Raise (RuntimeError "Failed to initialize browser")), s1, final.
    split; [right; eauto|].
    destruct (joinable s1); cbv beta iota; rewrite !Hc; repeat split; eauto.
Qed.

(** C3, where it fails. A headless session whose browser was launched and
    whose screenshot thread cannot be started: [initialize] returns [False]
    with the thread attribute already set, the [finally] clause runs
    [cleanup], the stop flag is raised, the join of the thread that was
    never started raises, and [cleanup] ends there. The browser is never
    asked to quit and the driver is still held when the call is left, with
    the exception of the join in place of the one of the body. *)
Theorem query_with_fresh_browser_leaves_browser_open (settings : Settings)
    (w : World) (platform : Platform) (prompt : str) (brands : list str)
    (s : scraper) (e : exn) :
  HEADLESS settings = true ->
  _setup_proxy settings w = true ->
  chrome_options w = Ok tt ->
  is_ok (chrome_version w) = true ->
  launches w 0 = Ok tt ->
  makedirs w = Ok tt ->
  thread_start w = Raise e ->
  exists how final,
    query_with_fresh_browser settings w platform prompt brands s
      = (Raise (RuntimeError "cannot join thread before it is started"),
         final) /\
    log final = log s ++ [EvLaunch how; EvStopFlag; EvJoin (seconds 2)] /\
    driver final = true /\
    quits (log final) = quits (log s).
Proof.
  intros Hheadless Hproxy Hoptions Hversion Hlaunch Hdirs Hstart.
  assert (Hinit : exists how,
            initialize settings w true s
              = (Ok false,
                 set_screenshot_thread (Some Created)
                   (set_stop_screenshots false
                      (set_driver true (record (EvLaunch how) s))))).
  { unfold initialize, launch_browser, launch, _start_screenshot_capture,
      try_except, bind, ask, emit, modify, ret.
    rewrite Hproxy, Hoptions, Hheadless. cbn [negb].
    destruct (chrome_version w) as [[v|]|]; [| |done];
      rewrite Hlaunch, Hdirs, Hstart; eauto. }
  destruct Hinit as (how & Hinit).
  destruct (query_with_fresh_browser_runs_cleanup settings w platform prompt
              brands s)
    as (outcome & mid & final & [(s1 & Hyes & _)|[Hno _]] & Hrun & _ & Hlog
        & _ & Hdrv);
    [rewrite Hinit in Hyes; discriminate|].
  rewrite Hinit in Hno. injection Hno as <-.
  exists how, final. split; [exact Hrun|].
  split; [rewrite Hlog; cbn; by rewrite <- app_assoc|].
  split; [exact Hdrv|].
  rewrite Hlog. cbn -[quits]. rewrite !quits_app. cbn. lia.
Qed.

(** A headless session whose page crashes during extraction: the query
    raises, and the trace still ends with stop signal, join, quit. *)
Example crashed_session_is_torn_down :
  let w := Sample.world None (lit "chatgpt.com")
             (Raise (OtherError "page crashed")) (Ok []) in
  let '(outcome, final) :=
    query_with_fresh_browser Sample.with_proxy w Perplexity (lit "Best CRM?")
      [lit "HubSpot"] (init 1000) in
  outcome = Raise (OtherError "page crashed") /\
  drop (length (log final) - 3) (log final) = [EvStopFlag; EvJoin 2000; EvQuit] /\
  driver final = false.
Proof. vm_compute. repeat split. Qed.

(** A session refused at the proxy gate: nothing was launched, nothing is
    quit, the stop flag is still raised. *)
Example refused_session_is_torn_down :
  let '(outcome, final) :=
    query_with_fresh_browser Config.defaults Sample.stalled ChatGPT
      (lit "Best CRM?") [lit "HubSpot"] (init 1000) in
  outcome = Raise (RuntimeError "Failed to initialize browser") /\
  log final = [EvStopFlag].
Proof. vm_compute. repeat split. Qed.

(** The process cannot start another thread. *)
Lemma query_with_fresh_browser_leaves_browser_open_witness :
  let w := Faults.with_thread (Raise (RuntimeError "can't start new thread"))
             Sample.stalled in
  exists final,
    query_with_fresh_browser Sample.with_proxy w ChatGPT (lit "Best CRM?")
      [lit "HubSpot"] (init 1000)
      = (Raise (RuntimeError "cannot join thread before it is started"),
         final) /\
    log final = [EvLaunch UcAuto; EvStopFlag; EvJoin 2000] /\
    driver final = true.
Proof.
  intros w.
  destruct (query_with_fresh_browser_leaves_browser_open Sample.with_proxy w
              ChatGPT (lit "Best CRM?") [lit "HubSpot"] (init 1000)
              (RuntimeError "can't start new thread"))
    as (how & final & Hrun & Hlog & Hdrv & _); try reflexivity.
  exists final. split; [exact Hrun|]. split; [|exact Hdrv].
  rewrite Hlog.
  assert (Hhow : EvLaunch how ∈ log final)
    by (rewrite Hlog; apply list_elem_of_here).
  assert (Hc : log (snd (query_with_fresh_browser Sample.with_proxy w ChatGPT
                           (lit "Best CRM?") [lit "HubSpot"] (init 1000)))
               = [EvLaunch UcAuto; EvStopFlag; EvJoin 2000])
    by (vm_compute; reflexivity).
  rewrite Hrun in Hc. cbn [snd] in Hc. rewrite <- Hlog. exact Hc.
Defined.

End Teardown.

(** ** Waiting for the answer *)

Section Waiting.
Import Py Exn Config Scraper.

Lemma poll_facts (w : World) (platform : Platform) (s s1 : scraper) (v : verdict) :
  poll w platform s = (v, s1) ->
  log s1 = log s /\ driver s1 = driver s /\ now s <= now s1 /\
  match v with
  | Finished => True
  | Pending wait => 1000 <= wait
  | Crashed e =>
      platform = ChatGPT /\ stop_buttons (page_at w (now s)) = Raise e
  end.
Proof.
  unfold poll, observe. destruct platform; simpl;
    repeat match goal with
           | |- context [match ?r with Ok _ => _ | Raise _ => _ end] =>
               destruct r eqn:?
           | |- context [if ?b then _ else _] => destruct b
           end;
    intros [= <- <-]; simpl; unfold seconds; repeat split; lia.
Qed.

(** The loop ends, having begun every turn before the ceiling; a turn takes
    a second at least, which bounds their number. *)
Lemma wait_loop_bounded (w : World) (platform : Platform) (start_time : Z)
    (s : scraper) :
  (platform = ChatGPT -> forall t, is_ok (stop_buttons (page_at w t)) = true) ->
  start_time <= now s ->
  exists s' new,
    wait_loop w platform start_time s = (Ok tt, s') /\
    driver s' = driver s /\
    log s' = log s ++ new /\
    polls_before_ceiling new = true /\
    (poll_count new = 0%nat \/
     1000 * Z.of_nat (poll_count new) < max_wait + 1000 - (now s - start_time)).
Proof.
  intros Halive.
  apply (wait_loop_elim w platform
    (fun start_time s res =>
       start_time <= now s ->
       exists s' new,
         res = (Ok tt, s') /\ driver s' = driver s /\ log s' = log s ++ new /\
         polls_before_ceiling new = true /\
         (poll_count new = 0%nat \/
          1000 * Z.of_nat (poll_count new)
            < max_wait + 1000 - (now s - start_time)))).
  - (* the ceiling is reached *)
    intros start s0 Hceil _ Hstart.
    exists (record EvCeiling s0), [EvCeiling]. repeat split; auto.
  - (* break *)
    intros start s0 s1 Hpoll Hlt _ _ Hstart.
    apply poll_facts in Hpoll as (Hlog & Hdrv & _ & _).
    exists s1, [EvPoll (now s0 - start)]. simpl in *.
    repeat split; auto.
    + apply andb_true_iff. split; [|done].
      apply andb_true_iff. split; [apply Z.leb_le|apply Z.ltb_lt]; lia.
    + right. unfold poll_count. simpl. lia.
  - (* another turn *)
    intros start s0 wait s1 Hpoll Hlt IH _ _ Hstart.
    apply poll_facts in Hpoll as (Hlog & Hdrv & Hnow & Hwait).
    simpl in Hlog, Hdrv, Hnow.
    destruct IH as (s' & new & Hrun & Hdrv' & Hlog' & Hbefore & Hcount).
    { simpl. lia. }
    exists s', (EvPoll (now s0 - start) :: EvSleep wait :: new).
    simpl in Hdrv', Hlog'. repeat split; auto.
    + congruence.
    + rewrite Hlog', Hlog, <- !app_assoc. reflexivity.
    + simpl. rewrite Hbefore.
      apply andb_true_iff. split; [|done].
      apply andb_true_iff. split; [apply Z.leb_le|apply Z.ltb_lt]; lia.
    + right. unfold poll_count in *. simpl in *.
      destruct Hcount as [-> | Hcount]; lia.
  - (* an exception leaves the loop: only the ChatGPT probe is unguarded *)
    intros start s0 e s1 Hpoll Hlt _ _ Hstart.
    apply poll_facts in Hpoll as (_ & _ & _ & Hplat & Hraise).
    specialize (Halive Hplat (now (record (EvPoll (now s0 - start)) s0))).
    by rewrite Hraise in Halive.
Qed.

(** [_wait_for_response] returns, whatever the page does, after at most 120
    turns of its loop. *)
Lemma wait_for_response_returns (settings : Settings) (w : World)
    (platform : Platform) (s : scraper) :
  driver s = true ->
  (platform = ChatGPT -> forall t, is_ok (stop_buttons (page_at w t)) = true) ->
  exists s' new,
    _wait_for_response settings w platform s = (Ok tt, s') /\
    driver s' = true /\
    log s' = log s ++ new /\
    (poll_count new <= 120)%nat /\
    polls_before_ceiling new = true.
Proof.
  intros Hdrv Halive.
  unfold _wait_for_response, bind, get, delay, random_delay, sleep, modify,
    ret, raise.
  destruct platform; simpl; rewrite ?Hdrv; simpl;
    match goal with
    | |- context [wait_loop w ?P ?start ?pre] =>
        destruct (wait_loop_bounded w P start pre Halive)
          as (s1 & new & Hrun & Hdrv1 & Hlog1 & Hbefore & Hcount);
        [simpl; lia|]; rewrite Hrun
    end;
    simpl in *; eexists; eexists;
    (split; [reflexivity|]); simpl;
    (split; [congruence|]);
    (split; [rewrite Hlog1, <- ?app_assoc; simpl; reflexivity|]);
    unfold poll_count, polls_before_ceiling in *; simpl;
    rewrite ?List.filter_app, ?length_app, ?forallb_app, ?Hbefore; simpl;
    unfold max_wait, seconds in Hcount;
    (split; [lia|reflexivity]).
Qed.

(** One turn takes the time of its driver calls, two at most, and its
    pause is of two seconds at most. *)
Lemma poll_time (w : World) (platform : Platform) (s s1 : scraper)
    (v : verdict) (L : Z) :
  (forall t, Z.of_nat (latency w t) <= L) ->
  poll w platform s = (v, s1) ->
  now s1 <= now s + 2 * L /\
  match v with Pending wait => wait <= seconds 2 | _ => True end.
Proof.
  intros Hlat.
  pose proof (Hlat (now s)) as H1.
  pose proof (Hlat (now s + Z.of_nat (latency w (now s)))) as H2.
  unfold poll, observe. destruct platform; simpl;
    repeat match goal with
           | |- context [match ?r with Ok _ => _ | Raise _ => _ end] =>
               destruct r eqn:?
           | |- context [if ?b then _ else _] => destruct b
           end;
    intros [= <- <-]; simpl; unfold seconds; split; lia.
Qed.

(** The loop is left within one turn of its ceiling. *)
Lemma wait_loop_time (w : World) (platform : Platform) (start_time : Z)
    (s : scraper) (L : Z) :
  (forall t, Z.of_nat (latency w t) <= L) ->
  now s - start_time <= max_wait + 2 * L + seconds 2 ->
  now (snd (wait_loop w platform start_time s)) - start_time
    <= max_wait + 2 * L + seconds 2.
Proof.
  intros Hlat.
  assert (HL : 0 <= L) by (pose proof (Hlat 0); lia).
  apply (wait_loop_elim w platform
    (fun start_time s res =>
       now s - start_time <= max_wait + 2 * L + seconds 2 ->
       now (snd res) - start_time <= max_wait + 2 * L + seconds 2)).
  - intros start s0 _ _ Hhead. exact Hhead.
  - intros start s0 s1 Hpoll Hlt _ _ _.
    apply (poll_time _ _ _ _ _ L Hlat) in Hpoll as [Hnow _].
    simpl in *. unfold seconds. lia.
  - intros start s0 wait s1 Hpoll Hlt IH _ _ _.
    apply (poll_time _ _ _ _ _ L Hlat) in Hpoll as [Hnow Hwait].
    apply IH. simpl in *. unfold seconds in *. lia.
  - intros start s0 e s1 Hpoll Hlt _ _ _.
    apply (poll_time _ _ _ _ _ L Hlat) in Hpoll as [Hnow _].
    simpl in *. unfold seconds. lia.
Qed.

(** [_wait_for_response] is left, whichever way, within the ceiling, the
    delays around the loop (3 s before it, 2 s after it at most) and one
    turn of the loop (two driver calls and a pause of 2 s at most). *)
Lemma wait_for_response_time (settings : Settings) (w : World)
    (platform : Platform) (s : scraper) (L : Z) :
  (forall t, Z.of_nat (latency w t) <= L) ->
  uniform w (seconds 1) (seconds 2) <= seconds 2 ->
  now (snd (_wait_for_response settings w platform s)) - now s
    <= max_wait + seconds 7 + 2 * L.
Proof.
  intros Hlat Huniform.
  assert (HL : 0 <= L) by (pose proof (Hlat 0); lia).
  unfold _wait_for_response, bind, get, delay, random_delay, sleep, modify,
    ret, raise.
  destruct platform; simpl; try destruct (driver s); simpl;
    try (unfold max_wait, seconds; lia);
    match goal with
    | |- context [wait_loop w ?P ?start ?pre] =>
        pose proof (wait_loop_time w P start pre L Hlat) as Hloop;
        destruct (wait_loop w P start pre) as [[[]|e] s1]
    end;
    simpl in *; unfold max_wait, seconds in *; lia.
Qed.

Lemma bind_ok {A B} (m : M A) (k : A -> M B) (s s' : scraper) (a : A) :
  m s = (Ok a, s') -> bind m k s = k a s'.
Proof. intros H. unfold bind. by rewrite H. Qed.

Lemma bind_raise {A B} (m : M A) (k : A -> M B) (s s' : scraper) (e : exn) :
  m s = (Raise e, s') -> bind m k s = (Raise e, s').
Proof. intros H. unfold bind. by rewrite H. Qed.

Lemma enforce_rate_limit_returns (settings : Settings) (s : scraper) :
  exists s',
    enforce_rate_limit settings s = (Ok tt, s') /\ driver s' = driver s.
Proof.
  unfold enforce_rate_limit, bind, get, modify, sleep, ret. simpl.
  destruct (last_request_time s =? 0); [by eexists|].
  destruct (_ <? _); by eexists.
Qed.

Lemma extract_response_emits (w : World) (platform : Platform) (s : scraper) :
  driver s = true ->
  exists r s' more,
    _extract_response w platform s = (r, s') /\
    log s' = log s ++ EvExtract :: more.
Proof.
  intros Hdrv.
  unfold _extract_response, bind, get, emit, modify, ask, try_except, ret, raise.
  destruct platform; simpl; rewrite ?Hdrv; simpl;
    destruct (primary_text w) as [t|e]; simpl;
    try (do 3 eexists; split; [reflexivity|reflexivity]);
    destruct (blank t); simpl;
    try (do 3 eexists; split; [reflexivity|reflexivity]);
    destruct (fallback_texts w); simpl;
    do 3 eexists; (split; [reflexivity|]); simpl;
    rewrite <- app_assoc; reflexivity.
Qed.

(** C2, as stated, fails: the ceiling is the guard of the loop, not a
    bound on the call. While the answer never finishes, on a driver that
    answers at once, [_wait_for_response] returns 121 s after the call on
    ChatGPT and 124 s after it on Gemini and Perplexity: the loop is left
    when 120 s have passed, after the 3 s that Gemini and Perplexity wait
    before it, and the 1 to 2 s that follow it are still to come. *)
Lemma wait_for_response_outlasts_ceiling :
  let after platform :=
    now (snd (_wait_for_response Config.defaults Sample.stalled platform
                (Sample.ready 1000))) - 1000 in
  max_wait = 120000 /\
  fst (_wait_for_response Config.defaults Sample.stalled ChatGPT
         (Sample.ready 1000)) = Ok tt /\
  after ChatGPT = 121000 /\ after Gemini = 124000 /\ after Perplexity = 124000.
Proof. vm_compute. repeat split. Qed.

(** C2, amended. Once the prompt is sent, [_wait_for_response] returns for
    every platform, whatever the page does and even if the completion
    condition never holds: its loop makes at most 120 turns, each begun
    before the 120 s ceiling. The call returns later than the ceiling by
    the delays around the loop and by one turn of it at most: with driver
    calls of at most [L], within 127 s and [2 L] of the call. [query] then
    goes on to [_extract_response], and it returns the text extracted
    whenever the extraction yields one. (The ChatGPT probe is not guarded,
    so there the driver is taken to answer; the steps up to sending the
    prompt are taken to succeed.) *)
Theorem wait_for_response_ceiling (settings : Settings) (w : World)
    (platform : Platform) (prompt : str) (brands : list str) (s : scraper) :
  driver s = true ->
  (platform = ChatGPT -> forall t, is_ok (stop_buttons (page_at w t)) = true) ->
  input_field w = Ok tt ->
  enter_prompt w = Ok tt ->
  send_message w = Ok tt ->
  exists sent waited new outcome final,
    enforce_rate_limit settings s = (Ok tt, sent) /\
    _wait_for_response settings w platform sent = (Ok tt, waited) /\
    log waited = log sent ++ new /\
    (poll_count new <= 120)%nat /\
    polls_before_ceiling new = true /\
    (forall L,
       (forall t, Z.of_nat (latency w t) <= L) ->
       uniform w (seconds 1) (seconds 2) <= seconds 2 ->
       now waited - now sent <= max_wait + seconds 7 + 2 * L) /\
    query settings w platform prompt brands s = (outcome, final) /\
    (exists more, log final = log waited ++ EvExtract :: more) /\
    (forall t s',
       _extract_response w platform waited = (Ok t, s') ->
       is_ok (page_source w) = true ->
       exists html,
         outcome = Ok {| text := t;
                         brands_mentioned := Brand.extract_brands t brands;
                         raw_html := html |}).
Proof.
  intros Hdrv Halive Hinput Henter Hsend.
  destruct (enforce_rate_limit_returns settings s) as (sent & Hrl & Hd1).
  destruct (wait_for_response_returns settings w platform sent)
    as (waited & new & Hw & Hd2 & Hlog & Hcnt & Hbef); [congruence|done|].
  destruct (extract_response_emits w platform waited Hd2)
    as (r & s_e & more & He & Hlog_e).
  assert (Htime : forall L,
            (forall t, Z.of_nat (latency w t) <= L) ->
            uniform w (seconds 1) (seconds 2) <= seconds 2 ->
            now waited - now sent <= max_wait + seconds 7 + 2 * L).
  { intros L Hlat Huniform.
    pose proof (wait_for_response_time settings w platform sent L Hlat Huniform)
      as H.
    by rewrite Hw in H. }
  set (convert := fun e : exn =>
                    match e with
                    | TimeoutException => RuntimeError "query timeout"
                    | _ => e
                    end).
  assert (Hquery :
    query settings w platform prompt brands s =
    match r with
    | Ok t =>
        if bool_decide (ENVIRONMENT settings = lit "development")
        then match page_source w with
             | Ok html =>
                 (Ok {| text := t;
                        brands_mentioned := Brand.extract_brands t brands;
                        raw_html := Some html |}, s_e)
             | Raise e => (Raise (convert e), s_e)
             end
        else (Ok {| text := t;
                    brands_mentioned := Brand.extract_brands t brands;
                    raw_html := None |}, s_e)
    | Raise e => (Raise (convert e), s_e)
    end).
  { unfold query. unfold bind at 1. unfold get. rewrite Hdrv.
    change (negb true) with false. cbv iota. unfold try_except.
    rewrite (bind_ok _ _ _ _ _ Hrl).
    assert (Hfind : _find_input_field w sent = (Ok tt, sent)).
    { unfold _find_input_field, try_except, ask. by rewrite Hinput. }
    rewrite (bind_ok _ _ _ _ _ Hfind).
    assert (Hen : ask (enter_prompt w) sent = (Ok tt, sent)).
    { unfold ask. by rewrite Henter. }
    rewrite (bind_ok _ _ _ _ _ Hen).
    assert (Hse : ask (send_message w) sent = (Ok tt, sent)).
    { unfold ask. by rewrite Hsend. }
    rewrite (bind_ok _ _ _ _ _ Hse).
    rewrite (bind_ok _ _ _ _ _ Hw).
    destruct r as [t|e].
    - rewrite (bind_ok _ _ _ _ _ He).
      destruct (bool_decide (ENVIRONMENT settings = lit "development")).
      + unfold bind, ask, ret. destruct (page_source w) as [html|e]; [done|].
        by destruct e.
      + reflexivity.
    - rewrite (bind_raise _ _ _ _ _ He). by destruct e. }
  exists sent, waited, new.
  destruct r as [t|e].
  - destruct (bool_decide (ENVIRONMENT settings = lit "development")).
    + destruct (page_source w) as [html|e] eqn:Hsrc.
      * do 2 eexists. repeat split; eauto.
        intros t' s' Hx _. rewrite He in Hx. injection Hx as <- <-. eauto.
      * do 2 eexists. repeat split; eauto.
        intros t' s' _ Hok. discriminate Hok.
    + do 2 eexists. repeat split; eauto.
      intros t' s' Hx _. rewrite He in Hx. injection Hx as <- <-. eauto.
  - do 2 eexists. repeat split; eauto.
    intros t' s' Hx. rewrite He in Hx. discriminate Hx.
Qed.

(** ChatGPT never stops generating: the wait gives up after 120 turns,
    within 127 s of the call, and the partial answer is extracted and
    returned. *)
Lemma wait_for_response_ceiling_witness :
  driver (Sample.ready 1000) = true /\
  exists sent waited new outcome final,
    enforce_rate_limit Config.defaults (Sample.ready 1000) = (Ok tt, sent) /\
    _wait_for_response Config.defaults Sample.stalled ChatGPT sent = (Ok tt, waited) /\
    log waited = log sent ++ new /\
    (poll_count new <= 120)%nat /\
    now waited - now sent <= 127000 /\
    query Config.defaults Sample.stalled ChatGPT (lit "Best CRM?") [lit "Jira"]
      (Sample.ready 1000) = (outcome, final).
Proof.
  split; [reflexivity|].
  destruct (wait_for_response_ceiling Config.defaults Sample.stalled ChatGPT
              (lit "Best CRM?") [lit "Jira"] (Sample.ready 1000))
    as (sent & waited & new & outcome & final & H1 & H2 & H3 & H4 & _ & Ht
        & H6 & _);
    try reflexivity.
  exists sent, waited, new, outcome, final.
  repeat split; auto.
  apply (Ht 0); [intros t; reflexivity|discriminate].
Defined.

Example stalled_answer_is_extracted :
  let '(outcome, final) :=
    query Config.defaults Sample.stalled ChatGPT (lit "Best CRM?") [lit "Jira"]
      (Sample.ready 1000) in
  outcome = Ok {| text := lit "Partial answer";
                  brands_mentioned := [];
                  raw_html := Some [] |} /\
  poll_count (log final) = 120%nat /\
  existsb (fun e => bool_decide (e = EvCeiling)) (log final) = true /\
  now final = 1000 + 120000 + 1000.
Proof. vm_compute. repeat split. Qed.

End Waiting.

(** ** Applying the stored cookies *)

Section Cookies.
Import Py Exn Config Cookie Scraper.

(** The loop never aborts: it returns, and what reached the browser is
    exactly the cookies that passed the domain test, normalized, in the
    stored order. *)
Lemma apply_cookies_offers (w : World) (current_domain : str)
    (cookies : list cookie) (n : nat) (s : scraper) :
  exists n' s',
    apply_cookies w current_domain cookies n s = (Ok n', s') /\
    log s' = log s ++ map EvAddCookie (offered current_domain cookies) /\
    (n <= n' <= n + length (offered current_domain cookies))%nat.
Proof.
  revert n s. induction cookies as [|c rest IH]; intros n s.
  - exists n, s. simpl. rewrite app_nil_r. repeat split; lia.
  - simpl. unfold bind at 1. unfold try_except, offered. simpl.
    destruct (prepare_cookie current_domain c) as [|c'|e]; simpl.
    + destruct (IH n s) as (n' & s' & -> & Hlog & Hn). eauto.
    + unfold bind, emit, modify, ask, ret.
      destruct (add_cookie w c') as [[]|e]; simpl.
      * destruct (IH (S n) (record (EvAddCookie c') s))
          as (n' & s' & -> & Hlog & Hn).
        exists n', s'. simpl in Hlog. rewrite <- app_assoc in Hlog.
        repeat split; auto; fold (offered current_domain rest) in *; lia.
      * destruct (IH n (record (EvAddCookie c') s))
          as (n' & s' & -> & Hlog & Hn).
        exists n', s'. simpl in Hlog. rewrite <- app_assoc in Hlog.
        repeat split; auto; fold (offered current_domain rest) in *; lia.
    + unfold raise. destruct (IH n s) as (n' & s' & -> & Hlog & Hn). eauto.
Qed.

(** A [sameSite] of 'None' without [secure] is removed and the cookie
    kept; every other attribute stays. *)
Lemma strip_same_site_removes (c : cookie) :
  c !! "sameSite"%string = Some (VStr (lit "None")) ->
  get_truthy c "secure" = false ->
  strip_same_site c = delete "sameSite"%string c.
Proof.
  intros Hsame Hsecure. unfold strip_same_site.
  by rewrite Hsecure, bool_decide_eq_true_2.
Qed.

Lemma strip_same_site_other_keys (c : cookie) (key : string) :
  key <> "sameSite"%string -> strip_same_site c !! key = c !! key.
Proof.
  intros Hkey. unfold strip_same_site.
  destruct (_ && _); [|done]. by rewrite lookup_delete_ne.
Qed.

(** The stored domain itself, a parent of the page's domain or a child of
    it passes the domain test. *)
Lemma related_domain_passes (current_domain cookie_domain : str) :
  related_domains current_domain cookie_domain = true ->
  domain_mismatch current_domain cookie_domain = false.
Proof.
  assert (Hself : forall d : str, contains d d = true).
  { intros d. rewrite <- (app_nil_r d) at 1. apply contains_here. }
  assert (Hsuffix : forall sub d : str, contains (sub ++ "."%char :: d) d = true).
  { intros sub d. change (sub ++ "."%char :: d) with (sub ++ ["."%char] ++ d).
    rewrite app_assoc. apply contains_app_l, Hself. }
  assert (Hcontains : forall parent child,
            is_parent_of parent child = true -> contains child parent = true).
  { intros parent child H. apply endswith_split in H as [sub ->]. apply Hsuffix. }
  unfold related_domains, domain_mismatch. intros H.
  apply orb_true_iff in H as [H|H]; [apply orb_true_iff in H as [H|H]|].
  - apply bool_decide_eq_true in H as ->. by rewrite Hself.
  - rewrite (Hcontains _ _ H). apply andb_false_r.
  - by rewrite (Hcontains _ _ H).
Qed.

(** C6, at a stored cookie of the domain gpt.com while the page is
    chatgpt.com. The stored domain is neither the page's domain nor a
    parent or a child of it, yet the two-way substring test takes it for
    related: the loop does not drop the cookie and hands it to the browser.
    A cookie of openai.com beside it is dropped, and one with a [sameSite]
    of 'None' and no [secure] is handed over without the attribute. *)
Theorem lookalike_domain_cookie_is_offered :
  let foreign : cookie :=
    <["name"%string := VStr (lit "sid")]>
      {["domain"%string := VStr (lit "gpt.com")]} in
  let other : cookie :=
    <["name"%string := VStr (lit "auth")]>
      {["domain"%string := VStr (lit ".openai.com")]} in
  let lax : cookie :=
    <["sameSite"%string := VStr (lit "None")]>
      {["domain"%string := VStr (lit ".chatgpt.com")]} in
  let w := Sample.world (Some [foreign; other; lax]) (lit "chatgpt.com")
             (Ok None) (Ok []) in
  related_domains (lit "chatgpt.com") (lit "gpt.com") = false /\
  domain_mismatch (lit "chatgpt.com") (lit "gpt.com") = false /\
  prepare_cookie (lit "chatgpt.com") foreign = Offered foreign /\
  prepare_cookie (lit "chatgpt.com") other = Skipped /\
  log (snd (_load_and_apply_cookies Config.defaults w (Sample.ready 0)))
  = [EvAddCookie foreign;
     EvAddCookie {["domain"%string := VStr (lit ".chatgpt.com")]};
     EvNavigate; EvSleep 2000].
Proof. vm_compute. repeat split. Qed.

End Cookies.

(** ** Extracting the answer *)

Section Extraction.
Import Py Exn Config Scraper.

(** C7, as stated, fails: the primary extraction is blank, the response
    element exists and its text is empty. ChatGPT and Gemini return that
    empty text, Perplexity returns its other sentinel; none returns
    'No response extracted'. *)
Lemma empty_message_is_not_the_sentinel :
  let w := Sample.world None (lit "chatgpt.com")
             (Ok (Some (lit "   "))) (Ok [lit ""]) in
  blank (Some (lit "   ")) = true /\
  fst (_extract_response w ChatGPT (Sample.ready 0)) = Ok [] /\
  fst (_extract_response w Gemini (Sample.ready 0)) = Ok [] /\
  fst (_extract_response w Perplexity (Sample.ready 0)) = Ok NO_SUBSTANTIVE /\
  [] <> NO_RESPONSE /\ NO_SUBSTANTIVE <> NO_RESPONSE.
Proof. vm_compute. repeat split; discriminate. Qed.

(** C7, amended. When the primary extraction yields nothing, or an empty
    or whitespace-only string, [_extract_response] runs the fallback
    extraction and returns without raising. A fallback text that is not
    blank is the result. When the fallback finds no response element, or
    raises, the result is 'No response extracted'. On Perplexity the result
    of the fallback is never a text of fewer than 20 characters: such a text
    is replaced by 'No substantive response extracted'. *)
Theorem extract_response_falls_back (w : World) (platform : Platform)
    (s : scraper) :
  driver s = true ->
  (exists t, primary_text w = Ok t /\ blank t = true) ->
  exists result s',
    _extract_response w platform s = (Ok result, s') /\
    log s' = log s ++ [EvExtract; EvFallback] /\
    match fallback_texts w with
    | Ok (t :: ts) =>
        (blank (Some (fallback_text platform (t :: ts))) = false ->
           result = fallback_text platform (t :: ts)) /\
        (platform = Perplexity ->
           result = NO_SUBSTANTIVE \/ (20 <= length (strip result))%nat)
    | Ok [] => result = NO_RESPONSE
    | Raise _ => result = NO_RESPONSE
    end.
Proof.
  intros Hdrv (t & Hprimary & Hblank).
  assert (Hrun : exists s',
    _extract_response w platform s =
      (Ok (match fallback_texts w with
           | Ok texts => fallback_text platform texts
           | Raise _ => NO_RESPONSE
           end), s') /\
    log s' = log s ++ [EvExtract; EvFallback]).
  { unfold _extract_response, bind, get, emit, modify, ask, try_except, ret,
      raise.
    destruct platform; cbn -[fallback_text]; rewrite ?Hdrv;
      cbn -[fallback_text]; rewrite Hprimary, Hblank; cbn -[fallback_text];
      destruct (fallback_texts w); cbn -[fallback_text];
      eexists; (split; [reflexivity|]); cbn; rewrite <- app_assoc;
      reflexivity. }
  destruct Hrun as (s' & Hrun & Hlog).
  eexists. exists s'. split; [exact Hrun|]. split; [exact Hlog|].
  destruct (fallback_texts w) as [[|t0 ts]|e]; try reflexivity.
  split; [done|]. intros ->. unfold fallback_text.
  destruct (Nat.ltb_spec (length (strip
      (join [newline] (List.filter (fun t => truthy (strip t)) (t0 :: ts))))) 20);
    [by left|by right].
Qed.

(** Perplexity shows no response element at all. *)
Lemma extract_response_falls_back_witness :
  let w := Sample.world None (lit "www.perplexity.ai") (Ok (Some [])) (Ok []) in
  driver (Sample.ready 0) = true /\
  fst (_extract_response w Perplexity (Sample.ready 0)) = Ok NO_RESPONSE.
Proof.
  intros w. split; [reflexivity|].
  destruct (extract_response_falls_back w Perplexity (Sample.ready 0))
    as (result & s' & Hrun & _ & Hres).
  - reflexivity.
  - exists (Some []). split; reflexivity.
  - rewrite Hrun. simpl in *. by rewrite Hres.
Defined.

(** A primary extraction that yields text is returned as it is, and the
    fallback is not consulted. *)
Lemma extract_response_primary (w : World) (platform : Platform)
    (s : scraper) (t : str) :
  driver s = true ->
  primary_text w = Ok (Some t) ->
  blank (Some t) = false ->
  _extract_response w platform s = (Ok t, record EvExtract s).
Proof.
  intros Hdrv Hprimary Hblank.
  unfold _extract_response, bind, get, emit, modify, ask, try_except, ret, raise.
  destruct platform; simpl; rewrite ?Hdrv; simpl;
    by rewrite Hprimary, Hblank.
Qed.

End Extraction.

(** ** The scheduler *)

Section Scheduler.
Import Py Exn Config Worker.

Variable settings : Settings.
Variable db : Store.

Lemma attempted_app (l1 l2 : list wevent) :
  attempted (l1 ++ l2) = attempted l1 ++ attempted l2.
Proof. apply omap_app. Qed.

Lemma check_running_quiet (k : worker) :
  is_running k = true ->
  stop_requested db (checks k) = false ->
  exists k',
    check_running db k = (true, k') /\
    is_running k' = true /\ errors k' = errors k /\ wlog k' = wlog k /\
    ai_source k' = ai_source k /\ checks k' = S (checks k).
Proof.
  intros Hrun Hstop. unfold check_running. rewrite Hrun, Hstop. simpl.
  eexists. split; [reflexivity|]. by simpl.
Qed.

(** One item: it is attempted, the error counter moves by one exactly when
    its processing raised, and an item that raised is reported failed. *)
Lemma process_prompt_counts (p : prompt) (k : worker) :
  exists success k',
    process_prompt settings db p k = (success, k') /\
    attempted (wlog k') = attempted (wlog k) ++ [p] /\
    errors k' =
      (errors k + if raises settings db (ai_source k) p then 1 else 0)%nat /\
    (raises settings db (ai_source k) p = true -> success = false) /\
    is_running k' = is_running k /\ ai_source k' = ai_source k /\
    checks k' = checks k.
Proof.
  unfold process_prompt, raises, try_block. simpl.
  destruct (get_brand_names db p) as [[|b bs]|e]; simpl;
    [| destruct (create_response db p) as [[response_id|]|e]; simpl;
       [ destruct (scraper_class (ai_source k)) as [platform|]; simpl;
         [ destruct (fst (Scraper.query_with_fresh_browser _ _ _ _ _ _))
             as [result|e]; simpl;
           [ destruct (update_response db response_id) as [[]|e]; simpl | ]
         | ]
       | | ]
     | ];
    do 2 eexists; (split; [reflexivity|]); simpl;
    rewrite ?attempted_app; simpl; rewrite ?app_nil_r;
    repeat split; auto; try discriminate; lia.
Qed.

Lemma process_batch_cons (p : prompt) (rest : list prompt) (k : worker) :
  process_batch settings db (p :: rest) k =
  let '(running, k1) := check_running db k in
  if negb running then k1
  else
    let '(success, k2) := process_prompt settings db p k1 in
    process_batch settings db rest (note (Pause 30) k2).
Proof. reflexivity. Qed.

Lemma run_loop_step (fuel : nat) (category : option str)
    (max_iterations : option Z) (iteration : nat) (k : worker) :
  run_loop settings db (S fuel) category max_iterations iteration k =
  let '(running, k1) := check_running db k in
  if negb running then Some (k1, iteration)
  else
    match get_pending_prompts db category (S iteration) with
    | [] =>
        run_loop settings db fuel category max_iterations (S iteration)
                 (note (Pause 300) k1)
    | p :: rest =>
        let k2 := process_batch settings db (p :: rest) k1 in
        if cap_reached max_iterations (S iteration)
        then Some (k2, S iteration)
        else run_loop settings db fuel category max_iterations (S iteration)
                      (note (Pause 60) k2)
    end.
Proof. reflexivity. Qed.

(** C1. While no stop is requested, the loop over a batch enters
    [process_prompt] for every item of the batch, in order, whatever
    happened to the items before it; and the error counter grows by
    exactly the number of items whose processing raised. *)
Theorem process_batch_resilient (batch : list prompt) (k : worker) :
  is_running k = true ->
  (forall n, stop_requested db n = false) ->
  attempted (wlog (process_batch settings db batch k))
    = attempted (wlog k) ++ batch /\
  errors (process_batch settings db batch k)
    = (errors k +
       length (List.filter (raises settings db (ai_source k)) batch))%nat.
Proof.
  intros Hrun Hstop. revert k Hrun.
  induction batch as [|p rest IH]; intros k Hrun.
  - simpl. rewrite app_nil_r. split; [done|lia].
  - rewrite process_batch_cons.
    destruct (check_running_quiet k Hrun (Hstop _))
      as (k1 & Hcheck & Hrun1 & Herr1 & Hlog1 & Hsrc1 & _).
    rewrite Hcheck. cbv beta iota. change (negb true) with false. cbv iota.
    destruct (process_prompt_counts p k1)
      as (success & k2 & Hitem & Hatt & Herr & _ & Hrun2 & Hsrc2 & _).
    rewrite Hitem. cbv beta iota.
    destruct (IH (note (Pause 30) k2)) as [IHatt IHerr].
    { simpl. congruence. }
    rewrite IHatt, IHerr. simpl.
    rewrite attempted_app, Hatt, Hlog1, Herr, Herr1, Hsrc2, Hsrc1. simpl.
    rewrite app_nil_r, <- app_assoc. split; [done|].
    destruct (raises settings db (ai_source k) p); simpl; lia.
Qed.

(** The loop of [run], once running, cannot end while the queue stays empty
    and nobody stops it: the empty-queue branch skips the iteration cap. *)
Lemma run_loop_spins (fuel : nat) (category : option str)
    (max_iterations : option Z) (iteration : nat) (k : worker) :
  (forall c n, get_pending_prompts db c n = []) ->
  (forall n, stop_requested db n = false) ->
  is_running k = true ->
  run_loop settings db fuel category max_iterations iteration k = None.
Proof.
  intros Hempty Hstop. revert iteration k.
  induction fuel as [|fuel IH]; intros iteration k Hrun; [done|].
  rewrite run_loop_step.
  destruct (check_running_quiet k Hrun (Hstop _))
    as (k1 & Hcheck & Hrun1 & _).
  rewrite Hcheck. cbv beta iota. change (negb true) with false. cbv iota.
  rewrite Hempty. apply IH. exact Hrun1.
Qed.

End Scheduler.

Section SchedulerClaims.
Import Py Exn Config Worker.

(** Three items: the session of the first crashes, the second is answered,
    the third has no brands and returns [False] without raising. All three
    are attempted; one error is counted. *)
Lemma process_batch_resilient_witness :
  let k := set_running true (new (lit "chatgpt")) in
  let batch := [Sample.prompt_a; Sample.prompt_b; Sample.prompt_c] in
  let k' := process_batch Sample.with_proxy Sample.idle batch k in
  attempted (wlog k') = batch /\ errors k' = 1%nat.
Proof.
  intros k batch k'. subst k'.
  destruct (process_batch_resilient Sample.with_proxy Sample.idle batch k)
    as [Hatt Herr]; [reflexivity|reflexivity|].
  split; [exact Hatt|]. rewrite Herr. vm_compute. reflexivity.
Defined.

Example batch_outcomes :
  let k := set_running true (new (lit "chatgpt")) in
  let batch := [Sample.prompt_a; Sample.prompt_b; Sample.prompt_c] in
  let k' := process_batch Sample.with_proxy Sample.idle batch k in
  map (fun p => fst (process_prompt Sample.with_proxy Sample.idle p k)) batch
    = [false; true; false] /\
  map (raises Sample.with_proxy Sample.idle (lit "chatgpt")) batch
    = [true; false; false] /\
  prompts_completed k' = 1%nat /\ errors k' = 1%nat.
Proof. vm_compute. repeat split. Qed.

(** C9 fails on a queue that stays empty: whatever the cap (1, say) and
    however many turns the loop is given, [run] has not returned. Every turn
    is an iteration, so the iterations exceed any cap. *)
Theorem run_ignores_cap_on_empty_queue (settings : Settings) (db : Store)
    (fuel : nat) (category : option str) (max_iterations : option Z)
    (k : worker) :
  (forall c n, get_pending_prompts db c n = []) ->
  (forall n, stop_requested db n = false) ->
  run settings db fuel category max_iterations k = None.
Proof.
  intros Hempty Hstop. unfold run.
  by rewrite (run_loop_spins settings db fuel category max_iterations 0
                (set_running true k) Hempty Hstop).
Qed.

Lemma run_ignores_cap_on_empty_queue_witness :
  run Sample.with_proxy Sample.idle 1000 None (Some 1) (new (lit "chatgpt"))
  = None.
Proof.
  apply run_ignores_cap_on_empty_queue; intros; reflexivity.
Defined.

(** With work in the queue at the first iteration the same call returns
    after that iteration. *)
Example run_stops_at_cap_after_a_batch :
  let db := Sample.store (fun n => [Sample.prompt_c]) in
  match run Sample.with_proxy db 5 None (Some 1) (new (lit "chatgpt")) with
  | Some (k, iterations) => iterations = 1%nat /\ is_running k = false
  | None => False
  end.
Proof. vm_compute. split; reflexivity. Qed.

End SchedulerClaims.

(** ** BrandMatcher: what is reported *)

Section BrandMatcherMore.
Import Py Re Brand Words.

Lemma last_char_app prev a b :
  last_char prev (a ++ b) = last_char (last_char prev a) b.
Proof. unfold last_char. apply fold_left_app. Qed.

Lemma match_here_escape (s : str) (q : pattern) prev rest :
  match_here (escape s ++ q) prev (s ++ rest)
  = match_here q (last_char prev s) rest.
Proof.
  revert prev. induction s as [|c s IH]; intros prev; [done|].
  simpl. rewrite Ascii.eqb_refl. simpl. apply IH.
Qed.

Lemma search_from_here p prev pre rest :
  match_here p (last_char prev pre) rest = true ->
  search_from p prev (pre ++ rest) = true.
Proof.
  revert prev. induction pre as [|c pre IH]; intros prev H.
  - simpl in *. destruct rest; simpl; rewrite H; done.
  - simpl. rewrite (IH (Some c) H). apply orb_true_r.
Qed.

(** A whole word is found by the pattern [\b word \b]. *)
Lemma search_whole_word hay needle :
  whole_word_in hay needle -> search (word_pattern needle) hay = true.
Proof.
  intros (pre & post & -> & Hfirst & Hlast & Hbefore & Hafter).
  apply search_from_here. unfold word_pattern.
  change (match_here (Bound :: escape needle ++ [Bound])
            (last_char None pre) (needle ++ post))
    with (at_boundary (last_char None pre) (needle ++ post) &&
          match_here (escape needle ++ [Bound])
            (last_char None pre) (needle ++ post)).
  rewrite match_here_escape. simpl.
  assert (Hw : word_after (needle ++ post) = true).
  { destruct needle; [discriminate|exact Hfirst]. }
  assert (Hl : word_before (last_char (last_char None pre) needle) = true).
  { destruct needle as [|c needle]; [discriminate|].
    unfold last_char in *. simpl in *.
    clear - Hlast. revert c Hlast. induction needle as [|d needle IH];
      intros c H; simpl in *; [done|]. by apply IH. }
  unfold at_boundary. by rewrite Hbefore, Hw, Hl, Hafter.
Qed.

Lemma form_found_is_mentioned text_lower text_normalized brand form :
  form ∈ forms brand ->
  search (word_pattern (lower form)) text_lower = true ->
  _is_brand_mentioned text_lower text_normalized brand = true.
Proof.
  intros Hform Hfound. unfold _is_brand_mentioned.
  apply elem_of_cons in Hform as [-> | Hvar].
  - by rewrite Hfound.
  - repeat match goal with
           | |- (if ?c then true else _) = true => destruct c; [done|]
           end.
    apply existsb_exists. exists form. split; [|exact Hfound].
    by apply list_elem_of_In.
Qed.

Lemma collect_mentioned_elem tl tn brands b :
  b ∈ collect_mentioned tl tn brands <->
  b ∈ brands /\ _is_brand_mentioned tl tn b = true.
Proof.
  unfold collect_mentioned.
  assert (H : forall acc : gset str,
            b ∈ foldl (fun mentioned brand =>
                         if _is_brand_mentioned tl tn brand
                         then {[brand]} ∪ mentioned else mentioned) acc brands
            <-> b ∈ acc \/ (b ∈ brands /\ _is_brand_mentioned tl tn b = true)).
  { induction brands as [|c brands IH]; intros acc; simpl.
    - split; [by left|]. intros [H|[H _]]; [done|by apply elem_of_nil in H].
    - rewrite IH. destruct (_is_brand_mentioned tl tn c) eqn:Hc.
      + rewrite elem_of_union, elem_of_singleton, elem_of_cons.
        split.
        * intros [[->|H]|H]; [right; split; [by left|done]|by left|].
          destruct H as [H Hm]. right. split; [by right|done].
        * intros [H|[[->|H] Hm]];
            [left; by right|left; by left|right; by split].
      + rewrite elem_of_cons. split.
        * intros [H|[H Hm]]; [by left|right; split; [by right|done]].
        * intros [H|[[->|H] Hm]]; [by left|congruence|by right]. }
  rewrite H, elem_of_empty. tauto.
Qed.

Lemma extract_brands_elem text brands b :
  b ∈ extract_brands text brands <->
  text <> [] /\ b ∈ brands /\
  _is_brand_mentioned (lower text) (sub_spaces (sub_punct (lower text))) b = true.
Proof.
  unfold extract_brands. destruct text as [|c text]; cbn [truthy negb orb].
  - split; [intros H; by apply elem_of_nil in H|by intros [? _]].
  - destruct brands as [|b0 brands].
    + split; [intros H; by apply elem_of_nil in H|].
      intros (_ & H & _). by apply elem_of_nil in H.
    + rewrite elem_of_elements, collect_mentioned_elem.
      split; [intros [H Hm]; by repeat split|by intros (_ & H & Hm)].
Qed.

(** X1. A candidate is reported whenever one of its forms (its name, an
    alias of the table, its name without a listed suffix) stands in the
    text as a whole word, in any letter case. A word character is what
    Python's [\w] takes for one, accented letters included, so that a form
    followed at once by such a letter does not stand as a whole word; texts
    and brands are strings over the code points below 256. *)
Theorem whole_word_form_is_reported (text : str) (brands : list str)
    (brand form : str) :
  brand ∈ brands ->
  form ∈ forms brand ->
  whole_word_in (lower text) (lower form) ->
  brand ∈ extract_brands text brands.
Proof.
  intros Hin Hform Hword. apply extract_brands_elem.
  split; [|split; [exact Hin|]].
  - destruct Hword as (pre & post & H & Hfirst & _).
    intros ->. simpl in H. destruct pre; simpl in H; [|discriminate].
    destruct (lower form); [discriminate|discriminate].
  - eapply form_found_is_mentioned; [exact Hform|].
    by apply search_whole_word.
Qed.

Lemma whole_word_form_is_reported_witness :
  lit "Salesforce" ∈ extract_brands (lit "Teams on SFDC, mostly.")
                       [lit "Jira"; lit "Salesforce"].
Proof.
  apply (whole_word_form_is_reported _ _ (lit "Salesforce") (lit "sfdc")).
  - apply list_elem_of_further, list_elem_of_here.
  - apply list_elem_of_further, list_elem_of_here.
  - exists (lit "teams on "), (lit ", mostly."). repeat split; reflexivity.
Defined.

(** An accented letter continues the word: no whole word "jira" here. *)
Example accented_letter_continues_the_word :
  extract_brands (lit "Jira" ++ [ascii_of_nat 228] ++ lit "hnliche Tools")
    [lit "Jira"] = [].
Proof. vm_compute. reflexivity. Qed.

(** X2. The result depends on the candidate list as a set only: two lists
    with the same elements, in any order and with any repetitions, give the
    same brands (up to the order of the result, which is that of a set). *)
Theorem extract_brands_candidates_as_set (text : str) (brands1 brands2 : list str) :
  (forall b, b ∈ brands1 <-> b ∈ brands2) ->
  extract_brands text brands1 ≡ₚ extract_brands text brands2.
Proof.
  intros Hsame. apply NoDup_Permutation.
  - unfold extract_brands. destruct (_ || _); [constructor|apply NoDup_elements].
  - unfold extract_brands. destruct (_ || _); [constructor|apply NoDup_elements].
  - intros b. rewrite !extract_brands_elem, Hsame. done.
Qed.

Lemma extract_brands_candidates_as_set_witness :
  extract_brands (lit "Jira or Asana?") [lit "Asana"; lit "Jira"; lit "Asana"]
  ≡ₚ extract_brands (lit "Jira or Asana?") [lit "Jira"; lit "Asana"].
Proof.
  apply extract_brands_candidates_as_set.
  intros b. rewrite !elem_of_cons. tauto.
Defined.

End BrandMatcherMore.

(** ** What a computation of the session leaves alone *)

Section Frames.
Import Py Exn Config Cookie Scraper.

Variable R : scraper -> scraper -> Prop.
Hypothesis R_refl : forall s, R s s.
Hypothesis R_trans : forall a b c, R a b -> R b c -> R a c.

Lemma frame_ret {A} (a : A) s : R s (snd (ret a s)).
Proof. apply R_refl. Qed.

Lemma frame_raise {A} (e : exn) s : R s (snd (raise (A := A) e s)).
Proof. apply R_refl. Qed.

Lemma frame_ask {A} (r : result A) s : R s (snd (ask r s)).
Proof. apply R_refl. Qed.

Lemma frame_get {A} (f : scraper -> A) s : R s (snd (get f s)).
Proof. apply R_refl. Qed.

Lemma frame_bind {A B} (m : M A) (k : A -> M B) :
  (forall s, R s (snd (m s))) ->
  (forall a s, R s (snd (k a s))) ->
  forall s, R s (snd (bind m k s)).
Proof.
  intros Hm Hk s. unfold bind. specialize (Hm s).
  destruct (m s) as [[a|e] s1]; simpl in *; [|exact Hm].
  eapply R_trans; [exact Hm|apply Hk].
Qed.

Lemma frame_try_except {A} (m : M A) (h : exn -> M A) :
  (forall s, R s (snd (m s))) ->
  (forall e s, R s (snd (h e s))) ->
  forall s, R s (snd (try_except m h s)).
Proof.
  intros Hm Hh s. unfold try_except. specialize (Hm s).
  destruct (m s) as [[a|e] s1]; simpl in *; [exact Hm|].
  eapply R_trans; [exact Hm|apply Hh].
Qed.

Lemma frame_try_finally {A} (m : M A) (final : M unit) :
  (forall s, R s (snd (m s))) ->
  (forall s, R s (snd (final s))) ->
  forall s, R s (snd (try_finally m final s)).
Proof.
  intros Hm Hf s. unfold try_finally. specialize (Hm s).
  destruct (m s) as [r s1]. specialize (Hf s1).
  destruct (final s1) as [[[]|e] s2]; simpl in *; eapply R_trans; eauto.
Qed.

(** The state changes a session is made of: events of the kinds [allowed]
    and the passing of time. *)
Variable allowed : event -> Prop.
Hypothesis R_record : forall e s, allowed e -> R s (record e s).
Hypothesis R_advance : forall ms s, R s (advance ms s).

Lemma frame_emit e s : allowed e -> R s (snd (emit e s)).
Proof. apply R_record. Qed.

Hypothesis allowed_sleep : forall ms, allowed (EvSleep ms).

Lemma frame_sleep ms s : R s (snd (sleep ms s)).
Proof.
  unfold sleep, modify. simpl.
  eapply R_trans; [apply R_record, allowed_sleep|apply R_advance].
Qed.

Lemma frame_random_delay settings w lo hi s :
  R s (snd (random_delay settings w lo hi s)).
Proof. apply frame_sleep. Qed.

Hypothesis allowed_navigate : allowed EvNavigate.

Lemma frame_driver_get w n s : R s (snd (driver_get w n s)).
Proof.
  revert s. unfold driver_get. apply frame_bind; intros.
  - by apply frame_emit.
  - apply frame_ask.
Qed.

Hypothesis allowed_add_cookie : forall c, allowed (EvAddCookie c).

Lemma frame_apply_cookies w d cookies n s :
  R s (snd (apply_cookies w d cookies n s)).
Proof.
  revert n s. induction cookies as [|c rest IH]; intros n s; [apply R_refl|].
  simpl. revert s. apply frame_bind; [|intros; apply IH].
  apply frame_try_except; [|intros; apply frame_ret].
  destruct (prepare_cookie d c); intros s.
  - apply frame_ret.
  - revert s. apply frame_bind; [intros; by apply frame_emit|intros _].
    apply frame_bind; intros; [apply frame_ask|apply frame_ret].
  - apply frame_raise.
Qed.

Lemma frame_load_and_apply_cookies settings w s :
  R s (snd (_load_and_apply_cookies settings w s)).
Proof.
  unfold _load_and_apply_cookies.
  destruct (cookies_file w) as [[|c cs]|]; try apply R_refl.
  revert s. apply frame_bind; [intros; apply frame_ask|intros d].
  apply frame_bind; [intros; apply frame_apply_cookies|intros n].
  destruct (Nat.ltb 0 n); [|intros; apply frame_ret].
  apply frame_bind; intros; [apply frame_driver_get|apply frame_random_delay].
Qed.

Lemma frame_check_login_status w n s : R s (snd (check_login_status w n s)).
Proof.
  revert s. unfold check_login_status.
  apply frame_try_except; [|intros; apply frame_ret].
  apply frame_bind; intros; [apply frame_ask|apply frame_ret].
Qed.

Lemma frame_handle_manual_login w s : R s (snd (_handle_manual_login w s)).
Proof.
  revert s. unfold _handle_manual_login, delay.
  apply frame_bind; [intros; apply frame_sleep|intros _].
  apply frame_bind; intros; [apply frame_ask|apply frame_ret].
Qed.

(** What the steps of [query] after the rate limiter do. *)
Section QuerySteps.

Hypothesis allowed_poll : forall elapsed, allowed (EvPoll elapsed).
Hypothesis allowed_ceiling : allowed EvCeiling.
Hypothesis allowed_extract : allowed EvExtract.
Hypothesis allowed_fallback : allowed EvFallback.

Lemma frame_poll w platform s : R s (snd (poll w platform s)).
Proof.
  unfold poll, observe. destruct platform; simpl;
    repeat match goal with
           | |- context [match ?r with Ok _ => _ | Raise _ => _ end] =>
               destruct r
           | |- context [if ?b then _ else _] => destruct b
           end;
    simpl; eauto using R_advance.
Qed.

Lemma frame_wait_loop w platform start_time s :
  R s (snd (wait_loop w platform start_time s)).
Proof.
  apply (wait_loop_elim w platform (fun _ s res => R s (snd res))).
  - intros start s0 _ _. simpl. by apply R_record.
  - intros start s0 s1 Hpoll _ _ _. simpl.
    eapply R_trans; [by apply (R_record (EvPoll (now s0 - start)))|].
    pose proof (frame_poll w platform (record (EvPoll (now s0 - start)) s0))
      as H. by rewrite Hpoll in H.
  - intros start s0 wait s1 Hpoll _ IH _ _.
    eapply R_trans; [by apply (R_record (EvPoll (now s0 - start)))|].
    eapply R_trans.
    { pose proof (frame_poll w platform (record (EvPoll (now s0 - start)) s0))
        as H. rewrite Hpoll in H. exact H. }
    eapply R_trans; [|exact IH].
    eapply R_trans; [apply R_record, allowed_sleep|apply R_advance].
  - intros start s0 e s1 Hpoll _ _ _. simpl.
    eapply R_trans; [by apply (R_record (EvPoll (now s0 - start)))|].
    pose proof (frame_poll w platform (record (EvPoll (now s0 - start)) s0))
      as H. by rewrite Hpoll in H.
Qed.

Lemma frame_wait_for_response settings w platform s :
  R s (snd (_wait_for_response settings w platform s)).
Proof.
  revert s. unfold _wait_for_response, delay.
  apply frame_bind.
  { destruct platform; intros s;
      [apply frame_ret|apply frame_sleep|].
    revert s. apply frame_bind; [intros; apply frame_get|intros d].
    destruct (negb d); intros; [apply frame_raise|apply frame_sleep]. }
  intros _. apply frame_bind; [intros; apply frame_get|intros start].
  apply frame_bind; intros;
    [apply frame_wait_loop|apply frame_random_delay].
Qed.

Lemma frame_extract_response w platform s :
  R s (snd (_extract_response w platform s)).
Proof.
  revert s. unfold _extract_response.
  apply frame_bind.
  { destruct platform; intros s; try apply frame_ret.
    revert s. apply frame_bind; [intros; apply frame_get|intros d].
    destruct (negb d); intros; [apply frame_raise|apply frame_ret]. }
  intros _. apply frame_bind; [intros; by apply frame_emit|intros _].
  apply frame_bind; [intros; apply frame_ask|intros t].
  destruct (blank t); [|intros; apply frame_ret].
  apply frame_try_except; [|intros; apply frame_ret].
  apply frame_bind; [intros; by apply frame_emit|intros _].
  apply frame_bind; intros; [apply frame_ask|apply frame_ret].
Qed.

Lemma frame_find_input_field w s : R s (snd (_find_input_field w s)).
Proof.
  revert s. unfold _find_input_field.
  apply frame_try_except; [intros; apply frame_ask|].
  intros []; intros; apply frame_raise.
Qed.

(** [query] from the step after the rate limiter on. *)
Lemma frame_query_steps settings w platform (brands : list str) s :
  R s (snd ((_find_input_field w ;;
             ask (enter_prompt w) ;;
             ask (send_message w) ;;
             _wait_for_response settings w platform ;;
             response_text <- _extract_response w platform ;;
             raw_html <-
               (if bool_decide (ENVIRONMENT settings = lit "development")
                then html <- ask (page_source w) ;; ret (Some html)
                else ret None) ;;
             let brands_mentioned :=
               Brand.extract_brands response_text brands in
             ret {| text := response_text;
                    brands_mentioned := brands_mentioned;
                    raw_html := raw_html |})%session s)).
Proof.
  revert s.
  apply frame_bind; [intros; apply frame_find_input_field|intros _].
  apply frame_bind; [intros; apply frame_ask|intros _].
  apply frame_bind; [intros; apply frame_ask|intros _].
  apply frame_bind; [intros; apply frame_wait_for_response|intros _].
  apply frame_bind; [intros; apply frame_extract_response|intros t].
  apply frame_bind; [|intros; apply frame_ret].
  case_bool_decide; [|intros; apply frame_ret].
  apply frame_bind; intros; [apply frame_ask|apply frame_ret].
Qed.

End QuerySteps.

(** [initialize] also takes a driver and starts the screenshot thread. *)
Hypothesis allowed_launch : forall how, allowed (EvLaunch how).
Hypothesis allowed_thread_start : allowed EvThreadStart.
Hypothesis R_set_driver : forall s, R s (set_driver true s).
Hypothesis R_set_stop : forall b s, R s (set_stop_screenshots b s).
Hypothesis R_set_thread : forall b s, R s (set_screenshot_thread b s).

Lemma frame_launch w how site s : R s (snd (launch w how site s)).
Proof.
  revert s. unfold launch.
  apply frame_bind; [intros; by apply frame_emit|intros _].
  apply frame_bind; [intros; apply frame_ask|intros _ s].
  apply R_set_driver.
Qed.

Lemma frame_launch_browser settings w s : R s (snd (launch_browser settings w s)).
Proof.
  revert s. unfold launch_browser. apply frame_try_except.
  - apply frame_bind; [intros; apply frame_ask|].
    intros [v|] s; apply frame_launch.
  - intros _. apply frame_try_except; intros; apply frame_launch.
Qed.

Lemma frame_start_screenshot_capture settings w s :
  R s (snd (_start_screenshot_capture settings w s)).
Proof.
  unfold _start_screenshot_capture. destruct (HEADLESS settings); [|apply R_refl].
  revert s. apply frame_bind; [intros; apply frame_ask|intros _].
  apply frame_bind; [intros; apply R_set_stop|intros _].
  apply frame_bind; [intros; apply R_set_thread|intros _].
  apply frame_bind; [intros; apply frame_ask|intros _].
  apply frame_bind; [intros; apply R_set_thread|intros _ s].
  by apply frame_emit.
Qed.

Lemma frame_initialize settings w load_cookies s :
  R s (snd (initialize settings w load_cookies s)).
Proof.
  revert s. unfold initialize.
  apply frame_try_except; [|intros; apply frame_ret].
  destruct (negb (_setup_proxy settings w)); [intros; apply frame_ret|].
  apply frame_bind; [intros; apply frame_ask|intros _].
  apply frame_bind; [intros; apply frame_launch_browser|intros _].
  apply frame_bind; [intros; apply frame_start_screenshot_capture|intros _].
  apply frame_bind; [intros; apply frame_driver_get|intros _].
  apply frame_bind; [intros; apply frame_random_delay|intros _].
  apply frame_bind.
  { destruct load_cookies; intros;
      [apply frame_load_and_apply_cookies|apply frame_ret]. }
  intros _.
  apply frame_bind; [intros; apply frame_check_login_status|intros logged].
  destruct (negb logged && load_cookies); [|intros; apply frame_ret].
  apply frame_bind; [intros; apply frame_handle_manual_login|intros _].
  apply frame_bind; [intros; apply frame_check_login_status|intros logged'].
  destruct (negb logged'); intros; apply frame_ret.
Qed.

End Frames.

(** ** The session: rate limiting, initialization, teardown, query *)

Section SessionMore.
Import Py Exn Config Cookie Scraper Observations.

Lemma bind_inv_ok {A B} (m : M A) (k : A -> M B) (s s' : scraper) (b : B) :
  bind m k s = (Ok b, s') ->
  exists a s1, m s = (Ok a, s1) /\ k a s1 = (Ok b, s').
Proof. unfold bind. destruct (m s) as [[a|e] s1]; [eauto|discriminate]. Qed.

Lemma bind_inv_raise {A B} (m : M A) (k : A -> M B) (s s' : scraper) (e : exn) :
  bind m k s = (Raise e, s') ->
  m s = (Raise e, s') \/ exists a s1, m s = (Ok a, s1) /\ k a s1 = (Raise e, s').
Proof. unfold bind. destruct (m s) as [[a|e0] s1]; [eauto|intros [= <- <-]; auto]. Qed.

(** Two calls of [enforce_rate_limit] on the same scraper, whatever
    happens in between as long as the recorded start is kept: the start
    recorded by the second is at least the minimum spacing after the start
    recorded by the first. *)
Lemma enforce_rate_limit_twice (settings : Settings) (s0 s2 : scraper) :
  0 < now s0 ->
  last_request_time s2
    = last_request_time (snd (enforce_rate_limit settings s0)) ->
  seconds (RATE_LIMIT_DELAY settings)
    <= last_request_time (snd (enforce_rate_limit settings s2))
       - last_request_time (snd (enforce_rate_limit settings s0)).
Proof.
  intros Hclock Hkeep.
  assert (Hlast : 0 < last_request_time (snd (enforce_rate_limit settings s0))).
  { unfold enforce_rate_limit, bind, get, modify, sleep, ret. simpl.
    destruct (last_request_time s0 =? 0); [simpl; lia|].
    destruct (Z.ltb_spec (now s0 - last_request_time s0)
                (seconds (RATE_LIMIT_DELAY settings))); simpl; lia. }
  revert Hkeep Hlast.
  generalize (last_request_time (snd (enforce_rate_limit settings s0))).
  intros last1 Hkeep Hlast.
  unfold enforce_rate_limit, bind, get, modify, sleep, ret. simpl.
  rewrite Hkeep.
  destruct (Z.eqb_spec last1 0); [lia|].
  destruct (Z.ltb_spec (now s2 - last1)
              (seconds (RATE_LIMIT_DELAY settings))); simpl; lia.
Qed.

(** X4. [initialize] does not touch the rate limiter, so the first request
    of a scraper that was fresh before it is never held back: the call of
    [enforce_rate_limit] that follows records the time and neither sleeps
    nor does anything else. *)
Theorem fresh_session_is_not_rate_limited (settings : Settings) (w : World)
    (load_cookies : bool) (s : scraper) :
  last_request_time s = 0 ->
  let s1 := snd (initialize settings w load_cookies s) in
  enforce_rate_limit settings s1 = (Ok tt, set_last_request_time (now s1) s1).
Proof.
  intros Hfresh s1.
  assert (Hkeep : last_request_time s1 = last_request_time s).
  { apply (frame_initialize
             (fun a b => last_request_time b = last_request_time a)
             ltac:(done) ltac:(intros a b c Hab Hbc; congruence)
             (fun _ => True)); done. }
  unfold enforce_rate_limit, bind, get, modify. simpl.
  by rewrite Hkeep, Hfresh.
Qed.

Lemma fresh_session_is_not_rate_limited_witness :
  let s1 := snd (initialize Sample.with_proxy Sample.stalled true (init 1000)) in
  enforce_rate_limit Sample.with_proxy s1
    = (Ok tt, set_last_request_time (now s1) s1).
Proof.
  apply (fresh_session_is_not_rate_limited Sample.with_proxy Sample.stalled
           true (init 1000)).
  reflexivity.
Defined.

Ltac keeps_side :=
  try solve [unfold keeps_driver; intros; auto].

Ltac keeps_bind :=
  apply (frame_bind keeps_driver); keeps_side.

Ltac keeps_by lem :=
  intros;
  first [eapply (lem keeps_driver) with (allowed := fun _ => True)
        |apply (lem keeps_driver)];
  keeps_side.

Lemma launch_ok (w : World) (how : launcher) (site : nat) (s s' : scraper) :
  launch w how site s = (Ok tt, s') -> driver s' = true.
Proof.
  unfold launch, bind, emit, modify, ask. simpl.
  destruct (launches w site) as [[]|e]; [|discriminate].
  by intros [= <-].
Qed.

Lemma launch_browser_ok (settings : Settings) (w : World) (s s' : scraper) :
  launch_browser settings w s = (Ok tt, s') -> driver s' = true.
Proof.
  unfold launch_browser, try_except.
  destruct (bind (ask (chrome_version w)) _ s) as [[[]|e] s1] eqn:Hfirst.
  - intros [= <-]. apply bind_inv_ok in Hfirst as (v & s2 & _ & Hl).
    destruct v; eapply launch_ok; exact Hl.
  - destruct (launch w UcAuto 1 s1) as [[[]|e1] s2] eqn:Hsecond.
    + intros [= <-]. eapply launch_ok; exact Hsecond.
    + apply launch_ok.
Qed.

(** A successful [initialize] leaves a driver held. *)
Lemma initialize_true_holds_driver (settings : Settings) (w : World)
    (load_cookies : bool) (s s' : scraper) :
  initialize settings w load_cookies s = (Ok true, s') -> driver s' = true.
Proof.
  unfold initialize, try_except.
  match goal with |- context [match ?body s with _ => _ end] =>
    destruct (body s) as [[success|e] s1] eqn:Hbody end;
    [|discriminate].
  intros [= -> ->].
  destruct (_setup_proxy settings w); [|discriminate]. simpl in Hbody.
  apply bind_inv_ok in Hbody as (_ & s2 & _ & Hbody).
  apply bind_inv_ok in Hbody as ([] & s3 & Hlaunch & Hbody).
  apply launch_browser_ok in Hlaunch.
  cut (driver (snd (Ok true, s')) = true); [done|]. rewrite <- Hbody.
  revert Hlaunch. generalize s3.
  keeps_bind; first [keeps_by frame_start_screenshot_capture|intros _].
  keeps_bind; first [keeps_by frame_driver_get|intros _].
  keeps_bind; first [keeps_by frame_random_delay|intros _].
  keeps_bind;
    first [destruct load_cookies;
             [keeps_by frame_load_and_apply_cookies
             |solve [unfold keeps_driver; auto]]
          |intros _].
  keeps_bind; first [keeps_by frame_check_login_status|intros logged].
  destruct (negb logged && load_cookies); [|solve [unfold keeps_driver; auto]].
  keeps_bind; first [keeps_by frame_handle_manual_login|intros _].
  keeps_bind; first [keeps_by frame_check_login_status|intros logged'].
  destruct (negb logged'); unfold keeps_driver; auto.
Qed.

(** X5. When [initialize] returns [True], the proxy gate was passed, a
    driver is held, the page was loaded, and, when cookies were to be
    loaded, the login element was found, at once or after the manual login.
    (Without [load_cookies] the login is not required.) *)
Theorem initialize_success (settings : Settings) (w : World)
    (load_cookies : bool) (s s' : scraper) :
  initialize settings w load_cookies s = (Ok true, s') ->
  _setup_proxy settings w = true /\
  driver s' = true /\
  navigate w 0 = Ok tt /\
  (load_cookies = true ->
     login_element w 0 = Ok tt \/ login_element w 1 = Ok tt).
Proof.
  intros Hinit.
  pose proof (initialize_true_holds_driver _ _ _ _ _ Hinit) as Hheld.
  revert Hinit. unfold initialize, try_except.
  match goal with |- context [match ?body s with _ => _ end] =>
    destruct (body s) as [[success|e] s1] eqn:Hbody end;
    [|discriminate].
  intros [= -> ->].
  destruct (_setup_proxy settings w); [|discriminate]. simpl in Hbody.
  apply bind_inv_ok in Hbody as (_ & s2 & _ & Hbody).
  apply bind_inv_ok in Hbody as ([] & s3 & _ & Hbody).
  split; [done|]. split; [exact Hheld|].
  apply bind_inv_ok in Hbody as ([] & s4 & _ & Hbody).
  apply bind_inv_ok in Hbody as ([] & s5 & Hnav & Hbody).
  apply bind_inv_ok in Hbody as ([] & s6 & _ & Hbody).
  apply bind_inv_ok in Hbody as ([] & s7 & _ & Hbody).
  apply bind_inv_ok in Hbody as (logged & s8 & Hlogin & Hbody).
  assert (Hcheck : forall n a b,
            check_login_status w n a = (Ok true, b) ->
            login_element w n = Ok tt).
  { intros n a b. unfold check_login_status, try_except, bind, ask, ret.
    destruct (login_element w n) as [[]|e]; [done|discriminate]. }
  split.
  - revert Hnav. unfold driver_get, bind, emit, modify, ask. simpl.
    destruct (navigate w 0) as [[]|e]; [done|discriminate].
  - intros ->. destruct logged; [left; eapply Hcheck; exact Hlogin|].
    simpl in Hbody.
    apply bind_inv_ok in Hbody as ([] & s9 & _ & Hbody).
    apply bind_inv_ok in Hbody as (logged' & s10 & Hlogin' & Hbody).
    destruct logged'; [right; eapply Hcheck; exact Hlogin'|discriminate].
Qed.

(** The login element shows only after the manual login. *)
Lemma initialize_success_witness :
  let w := Faults.with_login
             (fun n => if Nat.eqb n 0 then Raise NoSuchElementException
                       else Ok tt)
             (fun _ => Ok tt) Sample.stalled in
  driver (snd (initialize Sample.with_proxy w true (init 1000))) = true /\
  login_element w 1 = Ok tt.
Proof.
  intros w.
  destruct (initialize Sample.with_proxy w true (init 1000)) as [r s'] eqn:Hrun.
  assert (Hr : r = Ok true).
  { apply (f_equal fst) in Hrun. simpl in Hrun. rewrite <- Hrun.
    vm_compute. reflexivity. }
  subst r.
  destruct (initialize_success _ _ _ _ _ Hrun) as (_ & Hdrv & _ & Hlogin).
  split; [exact Hdrv|]. reflexivity.
Defined.

Lemma try_except_inv_ok {A} (m : M A) (h : exn -> M A) (s s' : scraper) (a : A) :
  try_except m h s = (Ok a, s') ->
  m s = (Ok a, s') \/ exists e s1, m s = (Raise e, s1) /\ h e s1 = (Ok a, s').
Proof.
  unfold try_except. destruct (m s) as [[a0|e] s1]; [auto|].
  intros H. right. eauto.
Qed.

(** X6. A second [cleanup] after a first. When the scraper has no
    screenshot thread, or one that was started, both calls return; the
    second raises the stop flag again and calls the join again if there is
    a thread, but asks the browser to quit again only if a driver was held
    and the first quit raised, and the driver is still held after it only
    if that second quit raised as well. When the thread was never started,
    each call raises at its join: the browser is never asked to quit and
    the driver stays as it was. *)
Theorem second_cleanup_quits_only_after_failure (w : World) (s : scraper) :
  let s1 := snd (cleanup w s) in
  let s2 := snd (cleanup w s1) in
  let first := quit w (quits (log s)) in
  let second := quit w (S (quits (log s))) in
  if joinable s then
    fst (cleanup w s) = Ok tt /\ fst (cleanup w s1) = Ok tt /\
    log s2 = log s1 ++ EvStopFlag ::
               (match _screenshot_thread s with
                | Some _ => [EvJoin (seconds 2)]
                | None => []
                end) ++
               (if driver s && negb (is_ok first) then [EvQuit] else []) /\
    driver s2 = driver s && negb (is_ok first) && negb (is_ok second)
  else
    is_ok (fst (cleanup w s)) = false /\ is_ok (fst (cleanup w s1)) = false /\
    quits (log s2) = quits (log s) /\ driver s2 = driver s.
Proof.
  intros s1 s2 first second. subst s1 s2 first second.
  destruct (cleanup_trace w s) as (s1 & Hc1 & Hlog1 & _ & Hth1 & Hdrv1).
  rewrite !Hc1. cbn [fst snd].
  destruct (cleanup_trace w s1) as (s2 & Hc2 & Hlog2 & _ & _ & Hdrv2).
  rewrite !Hc2. cbn [fst snd].
  assert (Hj : joinable s1 = joinable s) by (unfold joinable; by rewrite Hth1).
  rewrite Hj in *.
  assert (Hq : quits (log s1)
               = (quits (log s) + if driver s && joinable s then 1 else 0)%nat).
  { rewrite Hlog1, quits_app. f_equal. unfold cleanup_events.
    destruct (_screenshot_thread s) as [[|]|], (driver s && joinable s);
      reflexivity. }
  destruct (joinable s); cbn [andb negb] in *.
  - split; [done|]. split; [done|]. split.
    + rewrite Hlog2. unfold cleanup_events.
      by rewrite Hth1, Hdrv1, Hj, andb_true_r.
    + rewrite Hdrv2, Hdrv1, Hq.
      destruct (driver s); [|done]. cbn [andb]. by rewrite Nat.add_1_r.
  - split; [done|]. split; [done|]. split.
    + rewrite Hlog2, quits_app, Hq, andb_false_r, Nat.add_0_r.
      unfold cleanup_events. rewrite Hj, andb_false_r.
      destruct (_screenshot_thread s1); cbn; lia.
    + by rewrite Hdrv2, Hdrv1, !andb_true_r.
Qed.

(** X7. [query] never raises [TimeoutException]: a timeout of any of its
    steps leaves it as a [RuntimeError]. *)
Theorem query_never_raises_timeout (settings : Settings) (w : World)
    (platform : Platform) (prompt : str) (brands : list str)
    (s s' : scraper) (e : exn) :
  query settings w platform prompt brands s = (Raise e, s') ->
  e <> TimeoutException.
Proof.
  unfold query. unfold bind at 1. unfold get.
  destruct (driver s); cbn [negb];
    [|unfold raise; intros [= <- _]; discriminate].
  unfold try_except.
  match goal with |- context [match ?body s with _ => _ end] =>
    destruct (body s) as [[r|e0] s1] end; [discriminate|].
  destruct e0; unfold raise; intros [= <- _]; discriminate.
Qed.

(** The send step times out. *)
Lemma query_never_raises_timeout_witness :
  let w := Faults.with_steps (Raise TimeoutException) (Ok tt) Sample.stalled in
  exists e,
    fst (query Sample.with_proxy w ChatGPT (lit "Best CRM?") [lit "HubSpot"]
           (Sample.ready 1000)) = Raise e /\
    e <> TimeoutException.
Proof.
  intros w.
  destruct (query Sample.with_proxy w ChatGPT (lit "Best CRM?") [lit "HubSpot"]
              (Sample.ready 1000)) as [r s'] eqn:Hrun.
  assert (Hr : r = Raise (RuntimeError "query timeout")).
  { apply (f_equal fst) in Hrun. simpl in Hrun. rewrite <- Hrun.
    vm_compute. reflexivity. }
  subst r. eexists. split; [reflexivity|].
  exact (query_never_raises_timeout _ _ _ _ _ _ _ _ Hrun).
Defined.

(** X8. When [query] returns a response, a driver was held, the input
    field was found and the prompt entered and sent; the brands of the
    response are those [extract_brands] finds in its text among the
    brands asked for; and the page source is attached exactly in the
    development environment. *)
Theorem query_result (settings : Settings) (w : World) (platform : Platform)
    (prompt : str) (brands : list str) (s s' : scraper) (r : ScraperResponse) :
  query settings w platform prompt brands s = (Ok r, s') ->
  driver s = true /\
  input_field w = Ok tt /\ enter_prompt w = Ok tt /\ send_message w = Ok tt /\
  brands_mentioned r = Brand.extract_brands (text r) brands /\
  (raw_html r = None <-> ENVIRONMENT settings <> lit "development").
Proof.
  intros Hq. unfold query in Hq.
  apply bind_inv_ok in Hq as (d & s0 & Hd & Hq).
  unfold get in Hd. injection Hd as <- <-.
  destruct (driver s); cbn [negb] in Hq; [|discriminate].
  apply try_except_inv_ok in Hq as [Hq | (e & s1 & _ & Hh)];
    [|by destruct e].
  apply bind_inv_ok in Hq as ([] & s1 & _ & Hq).
  apply bind_inv_ok in Hq as ([] & s2 & Hfield & Hq).
  apply bind_inv_ok in Hq as ([] & s3 & Henter & Hq).
  apply bind_inv_ok in Hq as ([] & s4 & Hsend & Hq).
  apply bind_inv_ok in Hq as ([] & s5 & _ & Hq).
  apply bind_inv_ok in Hq as (t & s6 & _ & Hq).
  apply bind_inv_ok in Hq as (html & s7 & Hhtml & Hq).
  unfold ret in Hq. injection Hq as <- <-. cbn [text brands_mentioned raw_html].
  split; [done|]. split.
  { revert Hfield. unfold _find_input_field, try_except, ask.
    destruct (input_field w) as [[]|[]]; done. }
  split; [unfold ask in Henter; congruence|].
  split; [unfold ask in Hsend; congruence|].
  split; [done|].
  case_bool_decide as Henv.
  - apply bind_inv_ok in Hhtml as (h & s8 & _ & Hhtml).
    unfold ret in Hhtml. injection Hhtml as <- _. split; [discriminate|done].
  - unfold ret in Hhtml. injection Hhtml as <- _. done.
Qed.

(** The answer never finishes; what is on the page at the ceiling is
    returned, with the one brand it names. *)
Lemma query_result_witness :
  let w := Sample.world None (lit "chatgpt.com")
             (Ok (Some (lit "HubSpot is a fine choice."))) (Ok []) in
  exists r,
    fst (query Sample.with_proxy w ChatGPT (lit "Best CRM?")
           [lit "HubSpot"; lit "Jira"] (Sample.ready 1000)) = Ok r /\
    brands_mentioned r = [lit "HubSpot"] /\ raw_html r = None.
Proof.
  intros w.
  destruct (query Sample.with_proxy w ChatGPT (lit "Best CRM?")
              [lit "HubSpot"; lit "Jira"] (Sample.ready 1000))
    as [[r|e] s'] eqn:Hrun.
  - destruct (query_result _ _ _ _ _ _ _ _ Hrun)
      as (_ & _ & _ & _ & Hbrands & Hhtml).
    exists r. split; [reflexivity|]. split.
    + rewrite Hbrands.
      assert (Ht : text r = lit "HubSpot is a fine choice.").
      { assert (Hc : fst (query Sample.with_proxy w ChatGPT (lit "Best CRM?")
                            [lit "HubSpot"; lit "Jira"] (Sample.ready 1000))
                     = Ok {| text := lit "HubSpot is a fine choice.";
                             brands_mentioned := [lit "HubSpot"];
                             raw_html := None |}) by (vm_compute; reflexivity).
        rewrite Hrun in Hc. cbn [fst] in Hc. by injection Hc as ->. }
      rewrite Ht. vm_compute. reflexivity.
    + apply Hhtml. vm_compute. discriminate.
  - exfalso. apply (f_equal fst) in Hrun. revert Hrun. vm_compute. discriminate.
Defined.

(** X9. While no turn of the completion loop finds the answer finished,
    the loop goes on to the ceiling: it returns without raising, not
    before 120 s have passed since it began, and the last thing it does is
    to give up. *)
Theorem unfinished_answer_waits_to_ceiling (w : World) (platform : Platform)
    (start_time : Z) (s : scraper) :
  (forall s0, exists wait, fst (poll w platform s0) = Pending wait) ->
  exists s',
    wait_loop w platform start_time s = (Ok tt, s') /\
    max_wait <= now s' - start_time /\
    last (log s') = Some EvCeiling.
Proof.
  intros Hbusy.
  apply (wait_loop_elim w platform
    (fun start_time s res =>
       exists s', res = (Ok tt, s') /\ max_wait <= now s' - start_time /\
                  last (log s') = Some EvCeiling)).
  - intros start s0 Hceil _. exists (record EvCeiling s0). simpl.
    split; [done|]. split; [lia|]. apply last_snoc.
  - intros start s0 s1 Hpoll Hlt _ _.
    destruct (Hbusy (record (EvPoll (now s0 - start)) s0)) as [wait Hw].
    by rewrite Hpoll in Hw.
  - intros start s0 wait s1 Hpoll Hlt IH _ _. exact IH.
  - intros start s0 e s1 Hpoll Hlt _ _.
    destruct (Hbusy (record (EvPoll (now s0 - start)) s0)) as [wait Hw].
    by rewrite Hpoll in Hw.
Qed.

Lemma unfinished_answer_waits_to_ceiling_witness :
  exists s',
    wait_loop Sample.stalled Gemini 1000 (Sample.ready 1000) = (Ok tt, s') /\
    max_wait <= now s' - 1000 /\
    last (log s') = Some EvCeiling.
Proof.
  apply unfinished_answer_waits_to_ceiling.
  intros s0. eexists. reflexivity.
Defined.

(** X10. With a driver held, [_extract_response] raises only what the
    extraction script itself raised, and then nothing else was tried; a
    failure of the alternative extraction never leaves the function. *)
Theorem extract_response_raises_only_primary (w : World) (platform : Platform)
    (s s' : scraper) (e : exn) :
  driver s = true ->
  _extract_response w platform s = (Raise e, s') ->
  primary_text w = Raise e /\ s' = record EvExtract s.
Proof.
  intros Hdrv.
  unfold _extract_response, bind, get, emit, modify, ask, try_except, ret, raise.
  destruct platform; cbn -[fallback_text blank]; rewrite ?Hdrv;
    cbn -[fallback_text blank];
    (destruct (primary_text w) as [t|e0]; cbn -[fallback_text blank];
      [destruct (blank t); cbn -[fallback_text blank];
         [destruct (fallback_texts w); cbn -[fallback_text blank]|];
         discriminate
      |by intros [= <- <-]]).
Qed.

Lemma extract_response_raises_only_primary_witness :
  let w := Sample.world None (lit "chatgpt.com")
             (Raise (OtherError "page crashed")) (Ok []) in
  primary_text w = Raise (OtherError "page crashed").
Proof.
  intros w.
  apply (extract_response_raises_only_primary w Perplexity (Sample.ready 0)
           (record EvExtract (Sample.ready 0))); reflexivity.
Defined.

End SessionMore.

(** ** Cookies: what reaches the browser *)

Section CookiesMore.
Import Py Exn Config Cookie Scraper Observations.

(** The count [apply_cookies] returns is the number of cookies the browser
    accepted; the loop takes no time and keeps the driver. *)
Lemma apply_cookies_count (w : World) (current_domain : str)
    (cookies : list cookie) (n : nat) (s : scraper) :
  exists s',
    apply_cookies w current_domain cookies n s
      = (Ok (n + length (accepted w current_domain cookies))%nat, s') /\
    log s' = log s ++ map EvAddCookie (offered current_domain cookies) /\
    now s' = now s /\ driver s' = driver s.
Proof.
  revert n s. induction cookies as [|c rest IH]; intros n s.
  - exists s. simpl. rewrite app_nil_r, Nat.add_0_r. done.
  - simpl. unfold bind at 1. unfold try_except, accepted, offered. simpl.
    destruct (prepare_cookie current_domain c) as [|c'|e]; simpl.
    + destruct (IH n s) as (s' & -> & Hlog & Hrest). eauto.
    + unfold bind, emit, modify, ask, ret.
      destruct (add_cookie w c') as [[]|e]; simpl.
      * destruct (IH (S n) (record (EvAddCookie c') s))
          as (s' & -> & Hlog & Hnow & Hdrv).
        exists s'. simpl in Hlog. rewrite <- app_assoc in Hlog.
        split; [|done]. unfold accepted, offered. f_equal. f_equal.
        apply Nat.add_succ_comm.
      * destruct (IH n (record (EvAddCookie c') s))
          as (s' & -> & Hlog & Hnow & Hdrv).
        exists s'. simpl in Hlog. rewrite <- app_assoc in Hlog. done.
    + unfold raise. destruct (IH n s) as (s' & -> & Hlog & Hrest). eauto.
Qed.

(** X11. [_load_and_apply_cookies], the page's domain being known: every
    stored cookie that passes the domain test is handed to the browser, in
    the stored order and nothing else; the page is then reloaded exactly
    when the browser accepted one of them. With no cookie accepted (none
    stored, none passing, or all rejected) the function returns at once. *)
Theorem cookies_reload_iff_accepted (settings : Settings) (w : World)
    (s : scraper) (d : str) :
  document_domain w = Ok d ->
  let cookies := default [] (cookies_file w) in
  let run := _load_and_apply_cookies settings w s in
  exists more,
    log (snd run) = log s ++ map EvAddCookie (offered d cookies) ++ more /\
    (accepted w d cookies = [] -> more = [] /\ fst run = Ok tt) /\
    (accepted w d cookies <> [] -> exists rest, more = EvNavigate :: rest).
Proof.
  intros Hdomain cookies run. subst cookies run.
  destruct (cookies_file w) as [[|c cs]|] eqn:Hfile; simpl default.
  1,3: exists []; unfold _load_and_apply_cookies; rewrite Hfile; simpl;
       rewrite app_nil_r; repeat split; done.
  destruct (apply_cookies_count w d (c :: cs) 0 s)
    as (s1 & Hrun & Hlog & _).
  assert (Heq : _load_and_apply_cookies settings w s =
            (if Nat.ltb 0 (length (accepted w d (c :: cs)))
             then bind (driver_get w 1)
                    (fun _ => random_delay settings w (seconds 2) (seconds 4))
             else ret tt) s1).
  { unfold _load_and_apply_cookies. rewrite Hfile.
    unfold bind at 1. unfold ask. rewrite Hdomain.
    unfold bind at 1. rewrite Hrun. reflexivity. }
  rewrite Heq. clear Heq.
  destruct (accepted w d (c :: cs)) as [|a rest] eqn:Hacc;
    cbn [length Nat.ltb Nat.leb].
  - exists []. unfold ret. cbn [fst snd].
    rewrite app_nil_r. repeat split; done.
  - unfold driver_get, random_delay, sleep, bind, emit, modify, ask.
    cbn [fst snd].
    destruct (navigate w 1) as [[]|e]; cbn [fst snd];
      eexists; (split; [cbn [log record advance]; rewrite Hlog, <- ?app_assoc;
                        reflexivity|]);
      (split; [done|eauto]).
Qed.

(** Of three stored cookies one is foreign; the two others are offered and
    accepted, and the page is reloaded. *)
Lemma cookies_reload_iff_accepted_witness :
  let own : cookie := {["domain"%string := VStr (lit ".chatgpt.com")]} in
  let other : cookie := {["domain"%string := VStr (lit ".openai.com")]} in
  let bare : cookie := {["name"%string := VStr (lit "sid")]} in
  let w := Sample.world (Some [own; other; bare]) (lit "chatgpt.com")
             (Ok None) (Ok []) in
  exists more,
    log (snd (_load_and_apply_cookies Config.defaults w (Sample.ready 0)))
      = [EvAddCookie own; EvAddCookie bare] ++ more /\
    exists rest, more = EvNavigate :: rest.
Proof.
  intros own other bare w.
  destruct (cookies_reload_iff_accepted Config.defaults w (Sample.ready 0)
              (lit "chatgpt.com") eq_refl) as (more & Hlog & _ & Hsome).
  exists more. split; [exact Hlog|]. apply Hsome. vm_compute. discriminate.
Defined.

(** X12. The domain test never drops a cookie it should keep: a cookie
    that is skipped has a stored domain, and that domain (without its
    leading dot) is neither the page's domain nor a parent or a child of
    it. *)
Theorem skipped_cookie_is_unrelated (current_domain : str) (c : cookie) :
  prepare_cookie current_domain c = Skipped ->
  exists stored,
    c !! "domain"%string = Some (VStr stored) /\
    related_domains current_domain
      (if startswith stored (lit ".") then drop 1 stored else stored) = false.
Proof.
  unfold prepare_cookie.
  destruct (c !! "domain"%string) as [[| | |stored]|]; try discriminate.
  destruct (domain_mismatch current_domain _) eqn:Hmis; [|discriminate].
  intros _. exists stored. split; [done|].
  destruct (related_domains current_domain _) eqn:Hrel; [|done].
  apply related_domain_passes in Hrel. congruence.
Qed.

Lemma skipped_cookie_is_unrelated_witness :
  related_domains (lit "chatgpt.com") (lit "openai.com") = false.
Proof.
  assert (Hskip : prepare_cookie (lit "chatgpt.com")
                    {["domain"%string := VStr (lit ".openai.com")]} = Skipped)
    by (vm_compute; reflexivity).
  destruct (skipped_cookie_is_unrelated _ _ Hskip)
    as (stored & Hstored & Hrel).
  assert (Hdom : ({["domain"%string := VStr (lit ".openai.com")]} : cookie)
                   !! "domain"%string = Some (VStr (lit ".openai.com")))
    by (vm_compute; reflexivity).
  rewrite Hdom in Hstored. injection Hstored as <-. exact Hrel.
Defined.

(** X13. A cookie handed to the browser is the stored cookie, except
    possibly for [sameSite], which is either as stored or removed; and it
    never says [sameSite] 'None' without a true [secure]. *)
Theorem offered_cookie_is_normalized (current_domain : str) (c c' : cookie) :
  prepare_cookie current_domain c = Offered c' ->
  (forall key, key <> "sameSite"%string -> c' !! key = c !! key) /\
  (c' !! "sameSite"%string = c !! "sameSite"%string \/
   c' !! "sameSite"%string = None) /\
  (c' !! "sameSite"%string = Some (VStr (lit "None")) ->
   get_truthy c' "secure" = true).
Proof.
  intros Hprep.
  assert (Hc : c' = strip_same_site c).
  { revert Hprep. unfold prepare_cookie.
    destruct (c !! "domain"%string) as [[| | |stored]|]; try discriminate;
      [destruct (domain_mismatch _ _); [discriminate|]|]; by intros [= <-]. }
  subst c'. split; [intros key Hkey; by apply strip_same_site_other_keys|].
  unfold strip_same_site.
  destruct (bool_decide (c !! "sameSite"%string = Some (VStr (lit "None"))))
    eqn:Hsame; destruct (get_truthy c "secure") eqn:Hsecure; simpl.
  - split; [by left|done].
  - rewrite lookup_delete_eq. split; [by right|done].
  - split; [by left|done].
  - split; [by left|]. intros H.
    apply bool_decide_eq_false in Hsame. done.
Qed.

Lemma offered_cookie_is_normalized_witness :
  let stored : cookie :=
    <["sameSite"%string := VStr (lit "None")]>
      {["domain"%string := VStr (lit ".chatgpt.com")]} in
  let handed : cookie := {["domain"%string := VStr (lit ".chatgpt.com")]} in
  prepare_cookie (lit "chatgpt.com") stored = Offered handed /\
  handed !! "domain"%string = stored !! "domain"%string.
Proof.
  intros stored handed.
  assert (Hprep : prepare_cookie (lit "chatgpt.com") stored = Offered handed)
    by (vm_compute; reflexivity).
  split; [exact Hprep|].
  destruct (offered_cookie_is_normalized _ _ _ Hprep) as (Hkeys & _).
  by apply Hkeys.
Defined.

End CookiesMore.

(** ** The scheduler: outcomes, stopping, the iteration cap *)

Section SchedulerMore.
Import Py Exn Config Worker.

Variable settings : Settings.
Variable db : Store.

(** While nobody stops the worker, a batch leaves it running. *)
Lemma process_batch_quiet (batch : list prompt) (k : worker) :
  is_running k = true ->
  (forall n, stop_requested db n = false) ->
  is_running (process_batch settings db batch k) = true.
Proof.
  intros Hrun Hstop. revert k Hrun.
  induction batch as [|p rest IH]; intros k Hrun; [done|].
  rewrite process_batch_cons.
  destruct (check_running_quiet db k Hrun (Hstop _))
    as (k1 & Hcheck & Hrun1 & _).
  rewrite Hcheck. cbv beta iota. change (negb true) with false. cbv iota.
  destruct (process_prompt_counts settings db p k1)
    as (success & k2 & Hitem & _ & _ & _ & Hrun2 & _).
  rewrite Hitem. cbv beta iota. apply IH. simpl. congruence.
Qed.

(** X14. What one call of [process_prompt] leaves behind. It returns
    [True] exactly when it marked the record it created as completed, and
    then it counted one completion and no error. When it returns [False]
    it counted no completion, and either marked nothing (and counted at
    most one error) or marked the record it created as failed and counted
    one error. No record is marked twice. *)
Theorem process_prompt_outcome (p : prompt) (k : worker) :
  let k' := snd (process_prompt settings db p k) in
  exists marks,
    wlog k' = wlog k ++ Attempt p :: marks /\
    if fst (process_prompt settings db p k) then
      exists response_id,
        create_response db p = Ok (Some response_id) /\
        marks = [Completed response_id] /\
        prompts_completed k' = S (prompts_completed k) /\
        errors k' = errors k
    else
      prompts_completed k' = prompts_completed k /\
      ((marks = [] /\ (errors k' <= S (errors k))%nat) \/
       exists response_id,
         create_response db p = Ok (Some response_id) /\
         marks = [Failed response_id] /\
         errors k' = S (errors k)).
Proof.
  unfold process_prompt, try_block. simpl.
  destruct (get_brand_names db p) as [[|b bs]|e]; simpl;
    [| destruct (create_response db p) as [[response_id|]|e]; simpl;
       [ destruct (scraper_class (ai_source k)) as [platform|]; simpl;
         [ destruct (fst (Scraper.query_with_fresh_browser _ _ _ _ _ _))
             as [result|e]; simpl;
           [ destruct (update_response db response_id) as [[]|e]; simpl | ]
         | ]
       | | ]
     | ];
    eexists; (split; [rewrite <- ?app_assoc; simpl; reflexivity|]);
    eauto 10.
Qed.

(** X15. A worker whose [ai_source] is none of the three platforms
    creates the response record and then gives up without raising: the
    item is not counted as an error and the record it created is never
    marked, neither completed nor failed. *)
Theorem unsupported_source_leaves_record_unmarked (p : prompt) (k : worker)
    (response_id : str) (b : str) (bs : list str) :
  scraper_class (ai_source k) = None ->
  get_brand_names db p = Ok (b :: bs) ->
  create_response db p = Ok (Some response_id) ->
  process_prompt settings db p k = (false, note (Attempt p) k).
Proof.
  intros Hclass Hbrands Hcreate.
  unfold process_prompt, try_block. simpl.
  by rewrite Hbrands, Hcreate, Hclass.
Qed.

(** X16. A stop request is honoured before the next item: if [stop()]
    is first seen at the [n]-th read of [is_running] within a batch, the
    first [n] items have been attempted, in order, and no other; the
    worker is left stopped. *)
Theorem process_batch_stops_at_request (batch : list prompt) (k : worker)
    (n : nat) :
  is_running k = true ->
  (forall i, (i < n)%nat -> stop_requested db (checks k + i) = false) ->
  stop_requested db (checks k + n) = true ->
  (n < length batch)%nat ->
  attempted (wlog (process_batch settings db batch k))
    = attempted (wlog k) ++ take n batch /\
  is_running (process_batch settings db batch k) = false.
Proof.
  revert k n. induction batch as [|p rest IH]; intros k n Hrun Hquiet Hstop Hn;
    [simpl in Hn; lia|].
  rewrite process_batch_cons.
  destruct n as [|n].
  - rewrite Nat.add_0_r in Hstop.
    unfold check_running. rewrite Hrun, Hstop. simpl.
    by rewrite app_nil_r.
  - assert (Hnow : stop_requested db (checks k) = false).
    { rewrite <- (Nat.add_0_r (checks k)). apply Hquiet. lia. }
    destruct (check_running_quiet db k Hrun Hnow)
      as (k1 & Hcheck & Hrun1 & _ & Hlog1 & _ & Hchecks1).
    rewrite Hcheck. cbv beta iota. change (negb true) with false. cbv iota.
    destruct (process_prompt_counts settings db p k1)
      as (success & k2 & Hitem & Hatt & _ & _ & Hrun2 & _ & Hchecks2).
    rewrite Hitem. cbv beta iota.
    destruct (IH (note (Pause 30) k2) n) as [IHatt IHrun].
    + simpl. congruence.
    + intros i Hi. simpl. rewrite Hchecks2, Hchecks1.
      replace (S (checks k) + i)%nat with (checks k + S i)%nat by lia.
      apply Hquiet. lia.
    + simpl. rewrite Hchecks2, Hchecks1.
      replace (S (checks k) + n)%nat with (checks k + S n)%nat by lia.
      exact Hstop.
    + simpl in Hn. lia.
    + split; [|exact IHrun].
      rewrite IHatt. simpl. rewrite attempted_app, Hatt, Hlog1. simpl.
      by rewrite app_nil_r, <- app_assoc.
Qed.

Lemma run_loop_reaches_cap (fuel : nat) (category : option str) (n : nat)
    (iteration : nat) (k : worker) :
  (forall c i, get_pending_prompts db c i <> []) ->
  (forall i, stop_requested db i = false) ->
  is_running k = true ->
  (iteration < n)%nat -> (n - iteration <= fuel)%nat ->
  exists k',
    run_loop settings db fuel category (Some (Z.of_nat n)) iteration k
      = Some (k', n).
Proof.
  intros Hwork Hstop. revert iteration k.
  induction fuel as [|fuel IH]; intros iteration k Hrun Hlt Hfuel; [lia|].
  rewrite run_loop_step.
  destruct (check_running_quiet db k Hrun (Hstop _))
    as (k1 & Hcheck & Hrun1 & _).
  rewrite Hcheck. cbv beta iota. change (negb true) with false. cbv iota.
  destruct (get_pending_prompts db category (S iteration)) as [|p rest] eqn:Hq;
    [by apply Hwork in Hq|].
  cbv zeta. unfold cap_reached.
  destruct (Nat.eq_dec (S iteration) n) as [<-|Hne].
  - replace (negb (Z.of_nat (S iteration) =? 0)) with true
      by (symmetry; apply negb_true_iff, Z.eqb_neq; lia).
    rewrite Z.leb_refl. simpl. eauto.
  - replace (Z.of_nat n <=? Z.of_nat (S iteration)) with false
      by (symmetry; apply Z.leb_gt; lia).
    rewrite andb_false_r.
    apply IH; [|lia|lia].
    unfold note. cbn [is_running]. by apply process_batch_quiet.
Qed.

(** X17. With work in the queue at every iteration and no stop request,
    [run] with a cap of [n >= 1] iterations returns after exactly [n]
    iterations (given that many turns of the loop), and leaves the worker
    stopped. *)
Theorem run_returns_at_cap (fuel : nat) (category : option str) (n : nat)
    (k : worker) :
  (forall c i, get_pending_prompts db c i <> []) ->
  (forall i, stop_requested db i = false) ->
  (0 < n <= fuel)%nat ->
  exists k',
    run settings db fuel category (Some (Z.of_nat n)) k = Some (k', n) /\
    is_running k' = false.
Proof.
  intros Hwork Hstop [Hpos Hfuel]. unfold run.
  destruct (run_loop_reaches_cap fuel category n 0 (set_running true k)
              Hwork Hstop eq_refl Hpos) as (k' & ->); [lia|].
  eauto.
Qed.

Lemma run_loop_unbounded (fuel : nat) (category : option str)
    (max_iterations : option Z) (iteration : nat) (k : worker) :
  max_iterations = None \/ max_iterations = Some 0 ->
  (forall i, stop_requested db i = false) ->
  is_running k = true ->
  run_loop settings db fuel category max_iterations iteration k = None.
Proof.
  intros Hcap Hstop. revert iteration k.
  induction fuel as [|fuel IH]; intros iteration k Hrun; [done|].
  rewrite run_loop_step.
  destruct (check_running_quiet db k Hrun (Hstop _))
    as (k1 & Hcheck & Hrun1 & _).
  rewrite Hcheck. cbv beta iota. change (negb true) with false. cbv iota.
  destruct (get_pending_prompts db category (S iteration)) as [|p rest];
    [by apply IH|].
  cbv zeta.
  replace (cap_reached max_iterations (S iteration)) with false
    by (by destruct Hcap as [-> | ->]).
  apply IH. unfold note. cbn [is_running]. by apply process_batch_quiet.
Qed.

(** X18. Without a cap ([max_iterations] [None]) and also with a cap of
    0, [run] does not return as long as nobody stops the worker, whatever
    the queue holds and however many turns the loop is given. *)
Theorem run_without_cap_never_returns (fuel : nat) (category : option str)
    (max_iterations : option Z) (k : worker) :
  max_iterations = None \/ max_iterations = Some 0 ->
  (forall i, stop_requested db i = false) ->
  run settings db fuel category max_iterations k = None.
Proof.
  intros Hcap Hstop. unfold run.
  by rewrite (run_loop_unbounded fuel category max_iterations 0
                (set_running true k) Hcap Hstop).
Qed.

End SchedulerMore.

Section SchedulerMoreWitnesses.
Import Py Exn Config Worker.

Lemma unsupported_source_leaves_record_unmarked_witness :
  let k := new (lit "claude") in
  process_prompt Sample.with_proxy Sample.idle Sample.prompt_b k
    = (false, note (Attempt Sample.prompt_b) k).
Proof.
  intros k.
  apply (unsupported_source_leaves_record_unmarked Sample.with_proxy
           Sample.idle Sample.prompt_b k (lit "r-p2") (lit "HubSpot")
           [lit "Jira"]); reflexivity.
Defined.

(** [stop()] arrives while the first of three items is processed. *)
Lemma process_batch_stops_at_request_witness :
  let db := {|
    get_pending_prompts := get_pending_prompts Sample.idle;
    get_brand_names := get_brand_names Sample.idle;
    create_response := create_response Sample.idle;
    update_response := update_response Sample.idle;
    session_world := session_world Sample.idle;
    session_clock := session_clock Sample.idle;
    stop_requested := fun n => Nat.leb 1 n
  |} in
  let k := set_running true (new (lit "chatgpt")) in
  let batch := [Sample.prompt_c; Sample.prompt_b; Sample.prompt_a] in
  attempted (wlog (process_batch Sample.with_proxy db batch k))
    = [Sample.prompt_c] /\
  is_running (process_batch Sample.with_proxy db batch k) = false.
Proof.
  intros db k batch.
  apply (process_batch_stops_at_request Sample.with_proxy db batch k 1).
  - reflexivity.
  - intros i Hi. assert (i = 0)%nat as -> by lia. reflexivity.
  - reflexivity.
  - simpl. lia.
Defined.

Lemma run_returns_at_cap_witness :
  let db := Sample.store (fun _ => [Sample.prompt_c]) in
  exists k',
    run Sample.with_proxy db 5 None (Some 2) (new (lit "chatgpt"))
      = Some (k', 2%nat) /\
    is_running k' = false.
Proof.
  intros db.
  apply (run_returns_at_cap Sample.with_proxy db 5 None 2 (new (lit "chatgpt"))).
  - intros c i. discriminate.
  - intros i. reflexivity.
  - lia.
Defined.

Lemma run_without_cap_never_returns_witness :
  run Sample.with_proxy (Sample.store (fun _ => [Sample.prompt_c])) 50 None
    (Some 0) (new (lit "chatgpt")) = None.
Proof.
  apply run_without_cap_never_returns; [by right|intros i; reflexivity].
Defined.

End SchedulerMoreWitnesses.

(** ** Queries on a scraper that is kept *)

Section QueriesSpaced.
Import Py Exn Config Cookie Scraper Observations.

(** After the rate limiter, a query neither takes nor releases a driver
    and leaves the recorded start alone. *)
Lemma query_after_rate_limit (settings : Settings) (w : World)
    (platform : Platform) (prompt : str) (brands : list str) (s : scraper) :
  driver s = true ->
  last_request_time (snd (query settings w platform prompt brands s))
    = last_request_time (snd (enforce_rate_limit settings s)) /\
  driver (snd (query settings w platform prompt brands s)) = true.
Proof.
  intros Hdrv.
  destruct (enforce_rate_limit_returns settings s) as (s1 & Hrl & Hdrv1).
  assert (Hq : exists r s2,
             query settings w platform prompt brands s = (r, s2) /\
             last_request_time s2 = last_request_time s1 /\
             driver s2 = driver s1).
  { unfold query. unfold bind at 1. unfold get. rewrite Hdrv. cbn [negb].
    unfold try_except. rewrite (bind_ok _ _ _ _ _ Hrl).
    match goal with |- context [match ?steps s1 with _ => _ end] =>
      assert (Hsteps : last_request_time (snd (steps s1)) = last_request_time s1
                       /\ driver (snd (steps s1)) = driver s1);
      [|destruct (steps s1) as [[r|e] s2]; cbn [snd] in Hsteps;
        [|destruct e; unfold raise]; eauto]
    end.
    apply (frame_query_steps
             (fun a b => last_request_time b = last_request_time a /\
                         driver b = driver a)
             ltac:(done)
             ltac:(intros a b c [] []; split; congruence)
             (fun _ => True)); done. }
  destruct Hq as (r & s2 & -> & Hlast & Hheld). rewrite Hrl. cbn [snd].
  split; congruence.
Qed.

(** [query] leaves the screenshot thread as it is. *)
Lemma query_keeps_thread (settings : Settings) (w : World)
    (platform : Platform) (prompt : str) (brands : list str) (s : scraper) :
  _screenshot_thread (snd (query settings w platform prompt brands s))
    = _screenshot_thread s.
Proof.
  unfold query. unfold bind at 1. unfold get.
  destruct (driver s); cbn [negb]; [|done].
  destruct (enforce_rate_limit settings s) as [r1 s1] eqn:Hrl.
  assert (H1 : r1 = Ok tt /\ _screenshot_thread s1 = _screenshot_thread s).
  { revert Hrl. unfold enforce_rate_limit, bind, get, modify, sleep, ret.
    cbn. destruct (last_request_time s =? 0); [by intros [= <- <-]|].
    destruct (_ <? _); by intros [= <- <-]. }
  destruct H1 as [-> H1].
  unfold try_except. rewrite (bind_ok _ _ _ _ _ Hrl).
  match goal with |- context [match ?steps s1 with _ => _ end] =>
    assert (Hsteps : _screenshot_thread (snd (steps s1)) = _screenshot_thread s1);
    [|destruct (steps s1) as [[r|e] s2]; cbn [snd] in Hsteps;
      [|destruct e; unfold raise]; cbn [snd]; congruence]
  end.
  apply (frame_query_steps
           (fun a b => _screenshot_thread b = _screenshot_thread a)
           ltac:(done)
           ltac:(intros a b c ? ?; congruence)
           (fun _ => True)); done.
Qed.

(** X3. Two queries on the same scraper that holds its driver, the
    recorded start being kept in between: whether they succeed or raise,
    the second is started (its start recorded, after any wait) at least
    [RATE_LIMIT_DELAY] after the first. *)
Theorem consecutive_queries_spaced (settings : Settings) (w1 w2 : World)
    (platform : Platform) (prompt1 prompt2 : str) (brands1 brands2 : list str)
    (s0 s1 s2 s3 : scraper) (r1 r2 : result ScraperResponse) :
  0 < now s0 -> driver s0 = true ->
  query settings w1 platform prompt1 brands1 s0 = (r1, s1) ->
  last_request_time s2 = last_request_time s1 -> driver s2 = true ->
  query settings w2 platform prompt2 brands2 s2 = (r2, s3) ->
  seconds (RATE_LIMIT_DELAY settings)
    <= last_request_time s3 - last_request_time s1.
Proof.
  intros Hclock Hdrv0 Hq1 Hkeep Hdrv2 Hq2.
  destruct (query_after_rate_limit settings w1 platform prompt1 brands1 s0 Hdrv0)
    as [Hlast1 _].
  destruct (query_after_rate_limit settings w2 platform prompt2 brands2 s2 Hdrv2)
    as [Hlast3 _].
  rewrite Hq1 in Hlast1. rewrite Hq2 in Hlast3. cbn [snd] in *.
  rewrite Hlast3, Hlast1. apply enforce_rate_limit_twice; [done|congruence].
Qed.

(** A second question one minute after the first answer. *)
Lemma consecutive_queries_spaced_witness :
  let ask s := query Sample.with_proxy Sample.stalled ChatGPT
                 (lit "Best CRM?") [lit "HubSpot"] s in
  let s1 := snd (ask (Sample.ready 1000)) in
  let s3 := snd (ask (advance 60000 s1)) in
  seconds (RATE_LIMIT_DELAY Sample.with_proxy)
    <= last_request_time s3 - last_request_time s1.
Proof.
  intros ask s1 s3. subst s3 s1 ask. cbv beta.
  assert (Hheld : driver (snd (query Sample.with_proxy Sample.stalled ChatGPT
                                 (lit "Best CRM?") [lit "HubSpot"]
                                 (Sample.ready 1000))) = true)
    by (vm_compute; reflexivity).
  destruct (query Sample.with_proxy Sample.stalled ChatGPT (lit "Best CRM?")
              [lit "HubSpot"] (Sample.ready 1000)) as [r1 s1] eqn:Hq1.
  cbn [snd] in *.
  destruct (query Sample.with_proxy Sample.stalled ChatGPT (lit "Best CRM?")
              [lit "HubSpot"] (advance 60000 s1)) as [r2 s3] eqn:Hq2.
  cbn [snd].
  apply (consecutive_queries_spaced _ _ _ _ _ _ _ _ _ _ _ _ _ _
           (eq_refl : 0 < now (Sample.ready 1000)) eq_refl Hq1
           (eq_refl : last_request_time (advance 60000 s1)
                      = last_request_time s1)
           Hheld Hq2).
Defined.

End QueriesSpaced.

(** ** The proxy gate, exactly *)

Section ProxyGateMore.
Import Py Exn Config Scraper.

(** X19. [_setup_proxy] passes exactly when proxying is off, or when both
    credentials are set, a proxy port is configured and the connectivity
    test is answered with status 200. *)
Theorem setup_proxy_passes_iff (settings : Settings) (w : World) :
  _setup_proxy settings w = true <->
  USE_PROXY settings = false \/
  (truthy (OXYLABS_USERNAME settings) = true /\
   truthy (OXYLABS_PASSWORD settings) = true /\
   proxy_ports w <> [] /\
   proxy_status w = Ok 200%nat).
Proof.
  unfold _setup_proxy, test_proxy, get_proxy_dict, get_random_proxy.
  destruct (USE_PROXY settings); simpl; [|by split; [left|]].
  destruct (truthy (OXYLABS_USERNAME settings)); simpl;
    [|split; [done|intros [|(? & _)]; done]].
  destruct (truthy (OXYLABS_PASSWORD settings)); simpl;
    [|split; [done|intros [|(_ & ? & _)]; done]].
  destruct (proxy_ports w) as [|port ports]; simpl;
    [split; [done|intros [|(_ & _ & ? & _)]; done]|].
  destruct (proxy_status w) as [status|e]; simpl;
    [|split; [done|intros [|(_ & _ & _ & ?)]; done]].
  destruct (Nat.eqb_spec status 200) as [->|Hne]; simpl.
  - split; [intros _; right; done|done].
  - split; [done|intros [|(_ & _ & _ & [= ?])]; done].
Qed.

End ProxyGateMore.

(** ** The store: which prompts are pending *)

Section Store.
Import Py Exn Worker.

Variable recent : prompt -> result bool.

Lemma pending_loop_answered (prompts : list prompt) (limit : Z)
    (pending : list prompt) :
  (forall p, p ∈ prompts -> is_ok (recent p) = true) ->
  Z.of_nat (length pending) < limit ->
  Database.pending_loop recent prompts limit pending
    = Ok (pending ++
          take (Z.to_nat limit - length pending)
               (List.filter (Database.is_pending recent) prompts)).
Proof.
  revert pending. induction prompts as [|p rest IH]; intros pending Hok Hroom.
  - simpl. by rewrite take_nil, app_nil_r.
  - assert (Hp : is_ok (recent p) = true) by (apply Hok; left).
    assert (Hrest : forall q, q ∈ rest -> is_ok (recent q) = true)
      by (intros q Hq; apply Hok; by right).
    simpl. unfold Database.is_pending at 1.
    destruct (recent p) as [[|]|e]; [| |done]; simpl.
    + destruct (Z.leb_spec limit (Z.of_nat (length pending))); [lia|].
      by apply IH.
    + rewrite length_app. simpl.
      destruct (Z.leb_spec limit (Z.of_nat (length pending + 1))) as [Hfull|Hmore].
      * replace (Z.to_nat limit - length pending)%nat with 1%nat by lia.
        simpl. by rewrite take_0.
      * rewrite IH; [|done|rewrite length_app; simpl; lia].
        rewrite length_app. simpl.
        replace (Z.to_nat limit - length pending)%nat
          with (S (Z.to_nat limit - (length pending + 1)))%nat by lia.
        simpl. by rewrite <- app_assoc.
Qed.

(** X20. When every probe for a recent response is answered and the limit
    is at least 1, [get_pending_prompts] returns the first [limit] prompts
    without a recent response, in the order of the prompt list (all of them
    if there are fewer). *)
Theorem get_pending_prompts_first_pending (prompts : list prompt) (limit : Z) :
  (forall p, p ∈ prompts -> is_ok (recent p) = true) ->
  1 <= limit ->
  Database.get_pending_prompts recent prompts limit
    = take (Z.to_nat limit) (List.filter (Database.is_pending recent) prompts).
Proof.
  intros Hok Hlimit. unfold Database.get_pending_prompts.
  rewrite pending_loop_answered; [|done|simpl; lia].
  simpl. by rewrite Nat.sub_0_r.
Qed.

Lemma pending_loop_bound (prompts : list prompt) (limit : Z)
    (pending l : list prompt) :
  Database.pending_loop recent prompts limit pending = Ok l ->
  (length l <= Nat.max (S (length pending)) (Z.to_nat limit))%nat.
Proof.
  revert pending. induction prompts as [|p rest IH]; intros pending.
  - simpl. intros [= <-]. lia.
  - simpl. destruct (recent p) as [has_rows|e]; [|discriminate].
    set (pending' := if negb has_rows then pending ++ [p] else pending).
    assert (Hlen : (length pending' <= S (length pending))%nat).
    { subst pending'. destruct has_rows; simpl; rewrite ?length_app; simpl; lia. }
    destruct (Z.leb_spec limit (Z.of_nat (length pending'))) as [Hfull|Hmore].
    + intros [= <-]. lia.
    + intros Hrun. apply IH in Hrun. lia.
Qed.

(** X21. [get_pending_prompts] never returns more than [limit] prompts,
    except that a limit below 1 still lets one prompt through: the limit
    is only tested after a prompt has been looked at. *)
Theorem get_pending_prompts_bound (prompts : list prompt) (limit : Z) :
  (length (Database.get_pending_prompts recent prompts limit)
     <= Z.to_nat (Z.max 1 limit))%nat.
Proof.
  unfold Database.get_pending_prompts.
  destruct (Database.pending_loop recent prompts limit []) as [l|e] eqn:Hrun;
    [|simpl; lia].
  apply pending_loop_bound in Hrun. simpl in Hrun. lia.
Qed.

Lemma pending_loop_raises (before after : list prompt) (p : prompt) (e : exn)
    (limit : Z) (pending : list prompt) :
  (forall q, q ∈ before -> is_ok (recent q) = true) ->
  recent p = Raise e ->
  Z.of_nat (length pending
            + length (List.filter (Database.is_pending recent) before)) < limit ->
  Database.pending_loop recent (before ++ p :: after) limit pending = Raise e.
Proof.
  revert pending. induction before as [|q rest IH];
    intros pending Hok Hraise Hroom.
  - simpl. by rewrite Hraise.
  - assert (Hq : is_ok (recent q) = true) by (apply Hok; left).
    assert (Hrest : forall r, r ∈ rest -> is_ok (recent r) = true)
      by (intros r Hr; apply Hok; by right).
    simpl in *. unfold Database.is_pending in Hroom at 1.
    destruct (recent q) as [[|]|e0]; [| |done]; simpl in *.
    + destruct (Z.leb_spec limit (Z.of_nat (length pending))); [lia|].
      by apply IH.
    + rewrite length_app. simpl.
      destruct (Z.leb_spec limit (Z.of_nat (length pending + 1))); [lia|].
      apply IH; [done|done|]. rewrite length_app. simpl. lia.
Qed.

(** X22. One failing probe loses the batch: if the probe for a prompt
    raises before [limit] pending prompts were found, [get_pending_prompts]
    returns the empty list, whatever it had found up to there. *)
Theorem get_pending_prompts_probe_failure (before after : list prompt)
    (p : prompt) (e : exn) (limit : Z) :
  (forall q, q ∈ before -> is_ok (recent q) = true) ->
  recent p = Raise e ->
  Z.of_nat (length (List.filter (Database.is_pending recent) before)) < limit ->
  Database.get_pending_prompts recent (before ++ p :: after) limit = [].
Proof.
  intros Hok Hraise Hroom. unfold Database.get_pending_prompts.
  by rewrite (pending_loop_raises before after p e limit [] Hok Hraise).
Qed.

End Store.

Section StoreWitnesses.
Import Py Exn Worker.

(** The second of three prompts was answered an hour ago. *)
Lemma get_pending_prompts_first_pending_witness :
  let recent p := Ok (bool_decide (p = Sample.prompt_b)) in
  Database.get_pending_prompts recent
    [Sample.prompt_a; Sample.prompt_b; Sample.prompt_c] 15
  = [Sample.prompt_a; Sample.prompt_c].
Proof.
  intros recent.
  rewrite (get_pending_prompts_first_pending recent); [|done|lia].
  vm_compute. reflexivity.
Defined.

(** The probe for the third prompt fails: the two pending prompts before
    it are lost as well. *)
Lemma get_pending_prompts_probe_failure_witness :
  let recent p :=
    if bool_decide (p = Sample.prompt_c)
    then Raise (OtherError "connection reset") else Ok false in
  Database.get_pending_prompts recent
    [Sample.prompt_a; Sample.prompt_b; Sample.prompt_c] 15 = [].
Proof.
  intros recent.
  apply (get_pending_prompts_probe_failure recent
           [Sample.prompt_a; Sample.prompt_b] [] Sample.prompt_c
           (OtherError "connection reset") 15).
  - intros q Hq. apply list_elem_of_In in Hq.
    destruct Hq as [<-|[<-|[]]]; vm_compute; reflexivity.
  - vm_compute. reflexivity.
  - vm_compute. reflexivity.
Defined.

(** A limit of 0 lets one prompt through. *)
Example get_pending_prompts_limit_zero :
  Database.get_pending_prompts (fun _ => Ok false)
    [Sample.prompt_a; Sample.prompt_b] 0 = [Sample.prompt_a].
Proof. reflexivity. Qed.

End StoreWitnesses.

(** ** The service: the scraper cache of [scrape_endpoint] *)

Section Service.
Import Py Exn Config Cookie Scraper Observations Api.

(** [initialize] only opens and prepares: it launches, starts the
    screenshot thread, navigates, adds cookies and sleeps, and nothing
    else; in particular it closes nothing, whether it succeeds or not. *)
Lemma initialize_opens_only (settings : Settings) (w : World)
    (load_cookies : bool) (s : scraper) :
  opens_only s (snd (initialize settings w load_cookies s)).
Proof.
  apply (frame_initialize opens_only) with (allowed := fun e => opening e = true);
    try done.
  - intros a. exists []. by rewrite app_nil_r.
  - intros a b c (n1 & H1 & F1) (n2 & H2 & F2). exists (n1 ++ n2).
    rewrite H2, H1, <- app_assoc, forallb_app, F1, F2. done.
  - intros e a He. exists [e]. simpl. by rewrite He.
  - intros ms a. exists []. simpl. by rewrite app_nil_r.
  - intros a. exists []. simpl. by rewrite app_nil_r.
  - intros b a. exists []. simpl. by rewrite app_nil_r.
  - intros b a. exists []. simpl. by rewrite app_nil_r.
Qed.

(** X23. A request for a source that is not cached and whose scraper
    fails to initialize is answered with status 500; the cache is as
    before, and the new scraper is let go without [cleanup]: all it ever
    did was to open and prepare (launch, thread start, navigation, cookies,
    sleeps), so a browser it launched is never asked to quit. *)
Theorem failed_initialization_is_not_cleaned_up (settings : Settings)
    (w : World) (arrival : Z) (ai_source prompt : str) (brands : list str)
    (sv : server) (platform : Platform) :
  scrapers sv !! ai_source = None ->
  Worker.scraper_class ai_source = Some platform ->
  fst (initialize settings w true (init arrival)) <> Ok true ->
  let s := snd (initialize settings w true (init arrival)) in
  scrape_endpoint settings w arrival ai_source prompt brands sv
    = (HTTPException 500, mkServer (scrapers sv) (dropped sv ++ [s])) /\
  forallb opening (log s) = true.
Proof.
  intros Hnew Hclass Hfail s. subst s. split.
  - unfold scrape_endpoint. rewrite Hnew, Hclass.
    destruct (initialize settings w true (init arrival)) as [[[|]|e] s];
      simpl in *; done.
  - destruct (initialize_opens_only settings w true (init arrival))
      as (new & Hlog & Hopen).
    by rewrite Hlog.
Qed.

(** The page does not load: the browser that was launched stays open. *)
Lemma failed_initialization_is_not_cleaned_up_witness :
  let w := Faults.with_login (fun _ => Ok tt)
             (fun _ => Raise (OtherError "net::ERR_TIMED_OUT")) Sample.stalled in
  exists s,
    snd (scrape_endpoint Sample.with_proxy w 1000 (lit "chatgpt")
           (lit "Best CRM?") [lit "HubSpot"] (mkServer ∅ []))
      = mkServer ∅ [s] /\
    driver s = true /\ forallb opening (log s) = true.
Proof.
  intros w.
  destruct (failed_initialization_is_not_cleaned_up Sample.with_proxy w 1000
              (lit "chatgpt") (lit "Best CRM?") [lit "HubSpot"]
              (mkServer ∅ []) ChatGPT) as [Hrun Hopen].
  - apply lookup_empty.
  - reflexivity.
  - vm_compute. discriminate.
  - eexists. rewrite Hrun. split; [reflexivity|]. split; [|exact Hopen].
    vm_compute. reflexivity.
Defined.

(** X24. A request served by a cached scraper whose query raises is
    answered with status 500; the scraper is cleaned up (stop signal, join
    of a started screenshot thread, quit of the browser, which releases the
    driver unless the quit itself fails) and removed from the cache. The
    query leaves the screenshot thread as it found it; were it a thread
    that was never started, the join would raise and the quit be left
    out. *)
Theorem failed_query_evicts_and_cleans (settings : Settings) (w : World)
    (arrival : Z) (ai_source prompt : str) (brands : list str) (sv : server)
    (platform : Platform) (s s' : scraper) (e : exn) :
  scrapers sv !! ai_source = Some (platform, s) ->
  query settings w platform prompt brands (at_time arrival s) = (Raise e, s') ->
  exists final,
    scrape_endpoint settings w arrival ai_source prompt brands sv
      = (HTTPException 500,
         mkServer (delete ai_source (scrapers sv)) (dropped sv ++ [final])) /\
    scrapers (snd (scrape_endpoint settings w arrival ai_source prompt
                     brands sv)) !! ai_source = None /\
    log final = log s' ++ cleanup_events s' /\
    joinable s' = joinable s /\
    driver final
      = driver s' && negb (joinable s && is_ok (quit w (quits (log s')))).
Proof.
  intros Hcached Hquery.
  destruct (cleanup_trace w s') as (final & Hclean & Hlog & _ & _ & Hdrv).
  assert (Hthread : joinable s' = joinable s).
  { pose proof (query_keeps_thread settings w platform prompt brands
                  (at_time arrival s)) as H.
    rewrite Hquery in H. cbn in H. unfold joinable. by rewrite H. }
  rewrite Hthread in Hdrv.
  exists final.
  assert (Hrun : scrape_endpoint settings w arrival ai_source prompt brands sv
                 = (HTTPException 500,
                    mkServer (delete ai_source (scrapers sv))
                             (dropped sv ++ [final]))).
  { unfold scrape_endpoint. rewrite Hcached. cbv beta iota zeta.
    rewrite Hquery, Hclean. reflexivity. }
  rewrite Hrun. cbn [snd scrapers]. rewrite lookup_delete_eq. done.
Qed.

(** The cached scraper cannot enter the prompt. *)
Lemma failed_query_evicts_and_cleans_witness :
  let w := Faults.with_steps (Raise (OtherError "stale element")) (Ok tt)
             Sample.stalled in
  let sv := mkServer {[ lit "chatgpt" := (ChatGPT, Sample.ready 1000) ]} [] in
  exists final,
    snd (scrape_endpoint Sample.with_proxy w 2000 (lit "chatgpt")
           (lit "Best CRM?") [lit "HubSpot"] sv)
      = mkServer (delete (lit "chatgpt") (scrapers sv)) [final] /\
    driver final = false.
Proof.
  intros w sv.
  destruct (query Sample.with_proxy w ChatGPT (lit "Best CRM?") [lit "HubSpot"]
              (at_time 2000 (Sample.ready 1000))) as [r s'] eqn:Hq.
  assert (Hr : r = Raise (OtherError "stale element")).
  { apply (f_equal fst) in Hq. cbn [fst] in Hq. rewrite <- Hq.
    vm_compute. reflexivity. }
  assert (Hd : driver s' = true).
  { apply (f_equal (fun p => driver (snd p))) in Hq. cbn [snd] in Hq.
    rewrite <- Hq. vm_compute. reflexivity. }
  subst r.
  destruct (failed_query_evicts_and_cleans Sample.with_proxy w 2000
              (lit "chatgpt") (lit "Best CRM?") [lit "HubSpot"] sv ChatGPT
              (Sample.ready 1000) s' _ (lookup_singleton_eq _ _) Hq)
    as (final & Hrun & _ & _ & _ & Hdrv).
  exists final. rewrite Hrun. split; [reflexivity|].
  rewrite Hdrv, Hd. reflexivity.
Defined.

(** X25. The cache keeps its invariant over every request, whatever its
    outcome: each cached scraper holds a driver and is of the class its
    key names. *)
Theorem scrape_endpoint_keeps_cache_ok (settings : Settings) (w : World)
    (arrival : Z) (ai_source prompt : str) (brands : list str) (sv : server) :
  cache_ok sv ->
  cache_ok (snd (scrape_endpoint settings w arrival ai_source prompt brands sv)).
Proof.
  intros Hok.
  assert (Hstep : forall platform s,
            driver s = true ->
            Worker.scraper_class ai_source = Some platform ->
            cache_ok
              (snd (match query settings w platform prompt brands s with
                    | (Ok result, s') =>
                        (Success result,
                         mkServer (<[ai_source := (platform, s')]> (scrapers sv))
                                  (dropped sv))
                    | (Raise e, s') =>
                        (HTTPException 500,
                         mkServer (delete ai_source (scrapers sv))
                                  (dropped sv ++ [snd (cleanup w s')]))
                    end))).
  { intros platform s Hdrv Hclass.
    destruct (query_after_rate_limit settings w platform prompt brands s Hdrv)
      as [_ Hheld].
    destruct (query settings w platform prompt brands s) as [[r|e] s'];
      cbn [snd] in *; intros src p0 s0; cbn [scrapers].
    - rewrite lookup_insert_Some.
      intros [[<- [= <- <-]]|[_ Hother]]; [done|by apply Hok].
    - rewrite lookup_delete_Some. intros [_ Hother]. by apply Hok. }
  unfold scrape_endpoint.
  destruct (scrapers sv !! ai_source) as [[platform s]|] eqn:Hcached.
  - destruct (Hok _ _ _ Hcached) as [Hdrv Hclass]. by apply Hstep.
  - destruct (Worker.scraper_class ai_source) as [platform|] eqn:Hclass;
      [|done].
    destruct (initialize settings w true (init arrival)) as [[[|]|e] s] eqn:Hinit;
      cbv beta iota zeta; try (intros src p0 s0; by apply Hok).
    apply Hstep; [|done].
    by apply (initialize_true_holds_driver _ _ _ _ _ Hinit).
Qed.

(** The first request for a source: its scraper is cached with its driver. *)
Lemma scrape_endpoint_keeps_cache_ok_witness :
  cache_ok (snd (scrape_endpoint Sample.with_proxy Sample.stalled 1000
                   (lit "chatgpt") (lit "Best CRM?") [lit "HubSpot"]
                   (mkServer ∅ []))).
Proof.
  apply scrape_endpoint_keeps_cache_ok.
  intros src p s H. cbn [scrapers] in H. by rewrite lookup_empty in H.
Defined.

End Service.

(** ** The proxy endpoints *)

Section Ports.
Import Py Exn ProxyManager.

Lemma head_rev (s : str) : head (rev s) = last s.
Proof.
  induction s as [|c s IH] using rev_ind; [done|].
  by rewrite rev_app_distr, last_snoc.
Qed.

Lemma last_rev (s : str) : last (rev s) = head s.
Proof. by rewrite <- head_rev, rev_involutive. Qed.

Lemma lstrip_spec (s : str) :
  exists sp, s = sp ++ lstrip s /\ forallb is_space sp = true.
Proof.
  induction s as [|c s (sp & Hs & Hsp)]; [by exists []|].
  simpl. destruct (is_space c) eqn:Hc.
  - exists (c :: sp). simpl. by rewrite Hc, Hsp, <- Hs.
  - by exists [].
Qed.

Lemma lstrip_head (s : str) (c : ascii) :
  head (lstrip s) = Some c -> is_space c = false.
Proof.
  induction s as [|d s IH]; [done|].
  simpl. destruct (is_space d) eqn:Hd; [done|].
  simpl. by intros [= <-].
Qed.

Lemma lstrip_fixed (s : str) :
  (forall c, head s = Some c -> is_space c = false) -> lstrip s = s.
Proof.
  destruct s as [|c s]; [done|]. intros H. simpl. by rewrite (H c).
Qed.

(** [strip] removes white space at both ends and nothing else. *)
Lemma strip_infix (s : str) :
  exists before after,
    s = before ++ strip s ++ after /\
    forallb is_space before = true /\ forallb is_space after = true.
Proof.
  unfold strip.
  destruct (lstrip_spec s) as (sp1 & Hs & Hsp1).
  destruct (lstrip_spec (rev (lstrip s))) as (sp2 & Hr & Hsp2).
  exists sp1, (rev sp2). split; [|split; [done|]].
  - rewrite <- rev_app_distr, <- Hr, rev_involutive. exact Hs.
  - rewrite forallb_forall in *. intros c Hc. apply Hsp2. by apply in_rev.
Qed.

Lemma strip_ends (s : str) :
  (forall c, head (strip s) = Some c -> is_space c = false) /\
  (forall c, last (strip s) = Some c -> is_space c = false).
Proof.
  split; intros c Hc.
  - destruct (lstrip_spec (rev (lstrip s))) as (sp2 & Hr & _).
    apply (lstrip_head s c).
    apply (f_equal (@rev ascii)) in Hr.
    rewrite rev_involutive, rev_app_distr in Hr. fold (strip s) in Hr.
    rewrite Hr. destruct (strip s); [done|]. exact Hc.
  - unfold strip in Hc. rewrite last_rev in Hc. by eapply lstrip_head.
Qed.

Lemma strip_fixed (s : str) :
  (forall c, head s = Some c -> is_space c = false) ->
  (forall c, last s = Some c -> is_space c = false) ->
  strip s = s.
Proof.
  intros Hhead Hlast. unfold strip.
  rewrite (lstrip_fixed s Hhead).
  rewrite lstrip_fixed; [apply rev_involutive|].
  intros c. rewrite head_rev. apply Hlast.
Qed.

Lemma split_on_from_whole (sep : ascii) (cur a : str) :
  ~ In sep a -> split_on_from sep cur a = [rev cur ++ a].
Proof.
  revert cur. induction a as [|c a IH]; intros cur Hsep.
  - simpl. by rewrite app_nil_r.
  - simpl. destruct (Ascii.eqb_spec c sep) as [->|Hc];
      [exfalso; apply Hsep; by left|].
    rewrite IH; [|intros H; apply Hsep; by right].
    simpl. by rewrite <- app_assoc.
Qed.

Lemma split_on_from_app (sep : ascii) (cur a b : str) :
  ~ In sep a ->
  split_on_from sep cur (a ++ sep :: b)
    = (rev cur ++ a) :: split_on_from sep [] b.
Proof.
  revert cur. induction a as [|c a IH]; intros cur Hsep.
  - simpl. by rewrite Ascii.eqb_refl, app_nil_r.
  - simpl. destruct (Ascii.eqb_spec c sep) as [->|Hc];
      [exfalso; apply Hsep; by left|].
    rewrite IH; [|intros H; apply Hsep; by right].
    simpl. by rewrite <- app_assoc.
Qed.

Lemma split_on_from_pieces (sep : ascii) (cur s piece : str) :
  ~ In sep cur -> piece ∈ split_on_from sep cur s -> ~ In sep piece.
Proof.
  revert cur. induction s as [|c s IH]; intros cur Hcur.
  - simpl. intros ->%list_elem_of_singleton. by rewrite <- in_rev.
  - simpl. destruct (Ascii.eqb_spec c sep) as [->|Hc].
    + intros [->|Hin]%elem_of_cons; [by rewrite <- in_rev|].
      exact (IH [] (fun H => H) Hin).
    + apply IH. intros [<-|Hin]; [done|by apply Hcur].
Qed.

Lemma split_on_from_length (sep : ascii) (cur s : str) :
  length (split_on_from sep cur s) = S (count_occ ascii_dec s sep).
Proof.
  revert cur. induction s as [|c s IH]; intros cur; [done|].
  simpl. destruct (Ascii.eqb_spec c sep) as [->|Hc].
  - destruct (ascii_dec sep sep); [|done]. simpl. by rewrite IH.
  - destruct (ascii_dec c sep); [done|]. apply IH.
Qed.

(** X26. Every port [ProxyManager.__init__] keeps is clean: it is not
    empty, holds no comma, and has no white space at either end. *)
Theorem parse_ports_clean (OXYLABS_PROXY_PORTS port : str) :
  port ∈ parse_ports OXYLABS_PROXY_PORTS -> clean_port port.
Proof.
  unfold parse_ports. rewrite list_elem_of_omap.
  intros (piece & Hpiece & Hkeep).
  destruct (truthy (strip piece)) eqn:Htruthy; [|done].
  injection Hkeep as <-.
  split; [by destruct (strip piece)|]. split; [|apply strip_ends].
  apply (split_on_from_pieces _ [] _ _ ltac:(simpl; tauto)) in Hpiece.
  destruct (strip_infix piece) as (before & after & Heq & _).
  intros Hin. apply Hpiece. rewrite Heq, !in_app_iff. tauto.
Qed.

Lemma parse_ports_clean_witness :
  clean_port (lit "8002").
Proof.
  apply (parse_ports_clean (lit "8001, 8002 ,,8003")).
  vm_compute. apply list_elem_of_further, list_elem_of_here.
Defined.

(** X27. Parsing gives back a list of clean ports written with commas
    between them. White space is what [str.strip] removes: a port edged
    with a no-break space or a next-line character is not clean. (Ports
    are strings over the code points below 256.) *)
Theorem parse_ports_round_trip (ports : list str) :
  (forall port, port ∈ ports -> clean_port port) ->
  parse_ports (join (lit ",") ports) = ports.
Proof.
  unfold parse_ports, split_on.
  induction ports as [|p rest IH]; intros Hclean; [done|].
  assert (Hp : clean_port p) by (apply Hclean; left).
  destruct Hp as (Hne & Hcomma & Hhead & Hlast).
  assert (Hstrip : strip p = p) by by apply strip_fixed.
  assert (Htruthy : truthy p = true) by by destruct p.
  destruct rest as [|q rest].
  - simpl. rewrite (split_on_from_whole _ [] p Hcomma). simpl.
    by rewrite Hstrip, Htruthy.
  - change (join (lit ",") (p :: q :: rest))
      with (p ++ ","%char :: join (lit ",") (q :: rest)).
    rewrite (split_on_from_app _ [] p _ Hcomma). simpl rev. simpl app.
    cbn [omap list_omap]. rewrite Hstrip, Htruthy.
    f_equal. apply IH. intros port Hport. apply Hclean. by right.
Qed.

Lemma parse_ports_round_trip_witness :
  parse_ports (lit "8001,8002,8003") = [lit "8001"; lit "8002"; lit "8003"].
Proof.
  apply (parse_ports_round_trip [lit "8001"; lit "8002"; lit "8003"]).
  intros port Hport. apply list_elem_of_In in Hport.
  destruct Hport as [<-|[<-|[<-|[]]]];
    (split; [done|]); (split; [vm_compute; intuition discriminate|]);
    split; intros c [= <-]; reflexivity.
Defined.

(** A port edged with no-break spaces is kept without them. *)
Example parse_ports_strips_no_break_space :
  parse_ports ([ascii_of_nat 160] ++ lit "8001" ++ [ascii_of_nat 160]
               ++ lit ",8002")
    = [lit "8001"; lit "8002"].
Proof. vm_compute. reflexivity. Qed.

(** X28. The pair [get_auth_extension_path] unpacks from the proxy
    address: it is the host and the port exactly when neither holds a
    colon; if either does (a host written with its scheme, say), the
    unpacking raises. *)
Theorem unpack_host_port_colons (host port : str) :
  match unpack_host_port (selenium_proxy host port) with
  | Ok hp => hp = (host, port) /\ ~ In ":"%char host /\ ~ In ":"%char port
  | Raise _ => In ":"%char host \/ In ":"%char port
  end.
Proof.
  unfold unpack_host_port, split_on.
  change (selenium_proxy host port) with (host ++ ":"%char :: port).
  destruct (in_dec ascii_dec ":"%char host) as [Hh|Hh].
  - pose proof (split_on_from_length ":"%char [] (host ++ ":"%char :: port))
      as Hlen.
    rewrite count_occ_app in Hlen. simpl in Hlen.
    pose proof Hh as Hcount. apply (count_occ_In ascii_dec) in Hcount.
    destruct (split_on_from _ _ _) as [|a [|b [|c l]]]; simpl in Hlen;
      first [by left|lia].
  - rewrite (split_on_from_app _ [] host port Hh). simpl rev. simpl app.
    destruct (in_dec ascii_dec ":"%char port) as [Hp|Hp].
    + pose proof (split_on_from_length ":"%char [] port) as Hlen.
      pose proof Hp as Hcount. apply (count_occ_In ascii_dec) in Hcount.
      destruct (split_on_from _ _ port) as [|b [|c l]]; simpl in Hlen;
        first [by right|lia].
    + by rewrite (split_on_from_whole _ [] port Hp).
Qed.

End Ports.

(** ** The fresh-browser session closes what it opened *)

Section TeardownMore.
Import Py Exn Config Cookie Scraper Observations.

Ltac joinable_side :=
  try solve [unfold keeps_joinable; intros; auto].

Ltac joinable_bind :=
  apply (frame_bind keeps_joinable); joinable_side.

Ltac joinable_by lem :=
  intros;
  first [eapply (lem keeps_joinable) with (allowed := fun _ => True)
        |apply (lem keeps_joinable)];
  joinable_side.

(** Where the screenshot thread can be started, the capture leaves none
    that was not. *)
Lemma start_screenshot_capture_joinable (settings : Settings) (w : World)
    (s : scraper) :
  (HEADLESS settings = true -> is_ok (thread_start w) = true) ->
  keeps_joinable s (snd (_start_screenshot_capture settings w s)).
Proof.
  intros Hstart Hs. unfold _start_screenshot_capture.
  destruct (HEADLESS settings); [|exact Hs].
  specialize (Hstart eq_refl).
  unfold bind, ask, modify, emit.
  destruct (makedirs w) as [[]|e]; [|exact Hs].
  by destruct (thread_start w) as [[]|e].
Qed.

Lemma initialize_joinable (settings : Settings) (w : World)
    (load_cookies : bool) (s : scraper) :
  (HEADLESS settings = true -> is_ok (thread_start w) = true) ->
  keeps_joinable s (snd (initialize settings w load_cookies s)).
Proof.
  intros Hstart. revert s. unfold initialize.
  apply (frame_try_except keeps_joinable); joinable_side.
  destruct (negb (_setup_proxy settings w)); [joinable_side|].
  joinable_bind; first [joinable_by frame_ask|intros _].
  joinable_bind; first [joinable_by frame_launch_browser|intros _].
  joinable_bind;
    first [intros; by apply start_screenshot_capture_joinable|intros _].
  joinable_bind; first [joinable_by frame_driver_get|intros _].
  joinable_bind; first [joinable_by frame_random_delay|intros _].
  joinable_bind;
    first [destruct load_cookies;
             [joinable_by frame_load_and_apply_cookies
             |solve [unfold keeps_joinable; auto]]
          |intros _].
  joinable_bind; first [joinable_by frame_check_login_status|intros logged].
  destruct (negb logged && load_cookies);
    [|solve [unfold keeps_joinable; auto]].
  joinable_bind; first [joinable_by frame_handle_manual_login|intros _].
  joinable_bind; first [joinable_by frame_check_login_status|intros logged'].
  destruct (negb logged'); unfold keeps_joinable; auto.
Qed.

(** X29. Provided the browser answers the quit, and the screenshot
    thread, where one is to be started, can be started, a call of
    [query_with_fresh_browser] on a scraper without a thread that was
    never started ends with no driver held and the stop flag of the
    screenshot thread raised, whether the session succeeded, failed to
    initialize or raised in the query. *)
Theorem fresh_browser_session_closes_browser (settings : Settings) (w : World)
    (platform : Platform) (prompt : str) (brands : list str) (s : scraper) :
  (forall n, quit w n = Ok tt) ->
  (HEADLESS settings = true -> is_ok (thread_start w) = true) ->
  joinable s = true ->
  let final :=
    snd (query_with_fresh_browser settings w platform prompt brands s) in
  driver final = false /\ _stop_screenshots final = true.
Proof.
  intros Hquit Hstart Hs final. subst final.
  destruct (query_with_fresh_browser_runs_cleanup settings w platform prompt
              brands s)
    as (outcome & mid & final & Hbody & Hrun & _ & _ & Hflag & Hdrv).
  rewrite Hrun. cbn [snd]. split; [|exact Hflag].
  assert (Hmid : joinable mid = true).
  { destruct Hbody as [(s1 & Hinit & Hq)|[Hinit _]].
    - pose proof (initialize_joinable settings w true s Hstart Hs) as H1.
      rewrite Hinit in H1. cbn [snd] in H1.
      pose proof (query_keeps_thread settings w platform prompt brands s1)
        as H2.
      rewrite Hq in H2. cbn [snd] in H2. unfold joinable in *.
      by rewrite H2.
    - pose proof (initialize_joinable settings w true s Hstart Hs) as H1.
      by rewrite Hinit in H1. }
  rewrite Hdrv, Hmid, Hquit. cbn. apply andb_false_r.
Qed.

Lemma fresh_browser_session_closes_browser_witness :
  let final :=
    snd (query_with_fresh_browser Sample.with_proxy Sample.stalled Gemini
           (lit "Best CRM?") [lit "HubSpot"] (init 1000)) in
  driver final = false /\ _stop_screenshots final = true.
Proof.
  exact (fresh_browser_session_closes_browser Sample.with_proxy Sample.stalled
           Gemini (lit "Best CRM?") [lit "HubSpot"] (init 1000)
           (fun _ => eq_refl) (fun _ => eq_refl) eq_refl).
Defined.

End TeardownMore.
